(** * RTC::PipeTransport (worker/src/RTC/PipeTransport.cpp)

    A shallow embedding of the pipe transport of the mediasoup worker: its
    constructor, the one-shot [connect] request handler with its rollback
    handler, the three outbound send operations and the inbound
    demultiplexer.  Member functions become functions in a small state and
    exception monad over the object's fields; calls into other classes
    (UdpSocket, SrtpSession, the packet parsers, the Transport base class)
    are recorded in a trace of events. *)

From Stdlib Require Import ZArith Lia Ascii String.
From stdpp Require Import base option list strings gmap.

Open Scope string_scope.

(** ** JSON values (nlohmann::json), as far as the transport inspects them *)

#[warnings="-register-all"]
Inductive json : Type :=
| JNull
| JBool (b : bool)
| JInt (n : Z)
| JFloat (mantissa : Z) (exponent : Z)
| JString (s : string)
| JArray (l : list json)
| JObject (m : gmap string json).

Definition is_boolean (j : json) : bool :=
  match j with JBool _ => true | _ => false end.

Definition is_string (j : json) : bool :=
  match j with JString _ => true | _ => false end.

Definition is_object (j : json) : bool :=
  match j with JObject _ => true | _ => false end.

(** [find] on a json value: only an object has members. *)
Definition jfind (key : string) (j : json) : option json :=
  match j with
  | JObject m => m !! key
  | _ => None
  end.

(** ** Exceptions

    [MediaSoupTypeError] derives from [MediaSoupError], so a handler
    [catch (const MediaSoupError&)] catches both.  [json_type_error] is what
    nlohmann's [get<T>()] throws on a value of another type; it is not a
    MediaSoupError. *)

Inductive exception : Type :=
| MediaSoupError (what : string)
| MediaSoupTypeError (what : string)
| json_type_error (what : string).

Definition is_MediaSoupError (e : exception) : bool :=
  match e with
  | MediaSoupError _ | MediaSoupTypeError _ => true
  | json_type_error _ => false
  end.

Definition what (e : exception) : string :=
  match e with
  | MediaSoupError w | MediaSoupTypeError w | json_type_error w => w
  end.

(** ** Addresses, sockets and tuples *)

Definition bytes : Type := list Byte.byte.

Inductive family : Type := AF_INET | AF_INET6 | AF_UNSPEC.

(** [struct sockaddr_storage], read as [sockaddr_in] or [sockaddr_in6]. *)
Record sockaddr : Type := mk_sockaddr {
  sa_family : family;
  sa_port : Z;
  sa_addr : bytes
}.

Record UdpSocket : Type := mk_UdpSocket {
  localIp : string;
  localPort : Z
}.

Inductive Protocol : Type := UDP | TCP.

Record TransportTuple : Type := mk_TransportTuple {
  tt_udpSocket : UdpSocket;
  tt_remoteAddr : sockaddr;
  tt_localAnnouncedIp : string;
  tt_protocol : Protocol
}.

Global Instance family_eq_dec : EqDecision family.
Proof. solve_decision. Defined.

Global Instance Protocol_eq_dec : EqDecision Protocol.
Proof. solve_decision. Defined.

Global Instance byte_eq_dec : EqDecision Byte.byte.
Proof. intros x y. destruct (Byte.byte_eq_dec x y); [left | right]; done. Defined.

(** [new RTC::TransportTuple(udpSocket, remoteAddr)]: a UDP tuple. *)
Definition TransportTuple_new (socket : UdpSocket) (remoteAddr : sockaddr) : TransportTuple :=
  mk_TransportTuple socket remoteAddr "" UDP.

Definition SetLocalAnnouncedIp (ip : string) (t : TransportTuple) : TransportTuple :=
  mk_TransportTuple (tt_udpSocket t) (tt_remoteAddr t) ip (tt_protocol t).

(** Modelled from the spec: [TransportTuple::Compare] is defined outside
    PipeTransport.cpp, which only calls it.  The spec's data model gives the
    comparison as exact equality of (ip, port, protocol). *)
Definition Compare (mine other : TransportTuple) : bool :=
  bool_decide (tt_protocol mine = tt_protocol other)
  && bool_decide (sa_addr (tt_remoteAddr mine) = sa_addr (tt_remoteAddr other))
  && bool_decide (sa_port (tt_remoteAddr mine) = sa_port (tt_remoteAddr other)).

(** ** Collaborators

    The classes and helpers the transport calls but does not define: the
    Utils helpers, libuv's address parser, the socket, the SRTP session and
    the packet classifiers and parsers.  A function that may throw returns
    the [what] of the MediaSoupError it throws on the left. *)

Inductive SrtpType : Type := INBOUND | OUTBOUND.

Inductive Profile : Type := AES_CM_128_HMAC_SHA1_80 | AES_CM_128_HMAC_SHA1_32.

Class Collaborators : Type := {
  SrtpSession : Type;
  RtpPacket : Type;
  RtcpPacket : Type;
  CompoundPacket : Type;
  onSendCallback : Type;
  (* Utils::IP, Utils::Json, Utils::Crypto *)
  NormalizeIp : string -> string + string;
  GetFamily : string -> family;
  IsPositiveInteger : json -> bool;
  GetRandomString : nat -> string;
  (* libuv *)
  uv_inet_pton : family -> string -> Z * bytes;
  uv_inet_ntop : family -> bytes -> string;
  (* RTC::UdpSocket *)
  UdpSocket_new : string -> string + UdpSocket;
  (* RTC::SrtpSession *)
  SrtpSession_new : SrtpType -> Profile -> bytes -> nat -> string + SrtpSession;
  EncryptRtp : SrtpSession -> bytes -> SrtpSession * option bytes;
  EncryptRtcp : SrtpSession -> bytes -> SrtpSession * option bytes;
  DecryptSrtp : SrtpSession -> bytes -> SrtpSession * bytes * bool;
  DecryptSrtcp : SrtpSession -> bytes -> SrtpSession * bytes * bool;
  (* classifiers and parsers *)
  IsRtcp : bytes -> bool;
  IsRtp : bytes -> bool;
  IsSctp : bytes -> bool;
  RtpPacket_Parse : bytes -> option RtpPacket;
  RtcpPacket_Parse : bytes -> option RtcpPacket;
  RtpPacket_GetData : RtpPacket -> bytes;
  RtcpPacket_GetData : RtcpPacket -> bytes;
  CompoundPacket_GetData : CompoundPacket -> bytes
}.

(** libuv's [uv_ip4_addr] and [uv_ip6_addr]: the storage receives the
    family and the port, and the return value is that of [uv_inet_pton]. *)
Definition uv_ip4_addr `{Collaborators} (ip : string) (port : Z) : Z * sockaddr :=
  let '(err, a) := uv_inet_pton AF_INET ip in
  (err, mk_sockaddr AF_INET port a).

Definition uv_ip6_addr `{Collaborators} (ip : string) (port : Z) : Z * sockaddr :=
  let '(err, a) := uv_inet_pton AF_INET6 ip in
  (err, mk_sockaddr AF_INET6 port a).

(** Modelled from the spec: [TransportTuple::FillJson] is defined outside
    PipeTransport.cpp, which only calls it.  The spec's request surface
    gives the described tuple as
    [{ localIp, localPort, protocol: "udp", remoteIp, remotePort }], with the
    announced ip reported as local ip when one is set. *)
Definition TransportTuple_FillJson `{Collaborators} (t : TransportTuple) : json :=
  let remote := tt_remoteAddr t in
  JObject
    (<["localIp" :=
         JString (if decide (tt_localAnnouncedIp t = "")
                  then localIp (tt_udpSocket t) else tt_localAnnouncedIp t)]>
     (<["localPort" := JInt (localPort (tt_udpSocket t))]>
     (<["protocol" := JString (match tt_protocol t with UDP => "udp" | TCP => "tcp" end)]>
     (<["remoteIp" := JString (uv_inet_ntop (sa_family remote) (sa_addr remote))]>
     (<["remotePort" := JInt (sa_port remote)]> ∅))))).

(** ** The transport object *)

(** Modelled from the spec: the Transport base class is defined outside
    PipeTransport.cpp, which only calls it.  Of its state the spec names the
    connected belief ([onConnected()]) and the cumulative byte counters
    ([onBytesReceived(n)], [onBytesSent(n)]). *)
Record Transport : Type := mk_Transport {
  connected : bool;
  recvTransmission : nat;
  sendTransmission : nat
}.

Record ListenIp : Type := mk_ListenIp {
  ip : string;
  announcedIp : string
}.

Inductive LogMacro : Type := MS_WARN_DEV | MS_DEBUG_TAG | MS_WARN_TAG.

Section WithCollaborators.
Context `{Collab : Collaborators}.

Record PipeTransport : Type := mk_PipeTransport {
  base : Transport;
  listenIp : ListenIp;
  rtx : bool;
  srtpKey : string;
  udpSocket : UdpSocket;
  tuple : option TransportTuple;
  remoteAddrStorage : sockaddr;
  srtpSendSession : option SrtpSession;
  srtpRecvSession : option SrtpSession
}.

Definition set_base (b : Transport) (t : PipeTransport) : PipeTransport :=
  mk_PipeTransport b (listenIp t) (rtx t) (srtpKey t) (udpSocket t) (tuple t)
    (remoteAddrStorage t) (srtpSendSession t) (srtpRecvSession t).

Definition set_tuple (x : option TransportTuple) (t : PipeTransport) : PipeTransport :=
  mk_PipeTransport (base t) (listenIp t) (rtx t) (srtpKey t) (udpSocket t) x
    (remoteAddrStorage t) (srtpSendSession t) (srtpRecvSession t).

Definition set_remoteAddrStorage (x : sockaddr) (t : PipeTransport) : PipeTransport :=
  mk_PipeTransport (base t) (listenIp t) (rtx t) (srtpKey t) (udpSocket t) (tuple t)
    x (srtpSendSession t) (srtpRecvSession t).

Definition set_srtpSendSession (x : option SrtpSession) (t : PipeTransport) : PipeTransport :=
  mk_PipeTransport (base t) (listenIp t) (rtx t) (srtpKey t) (udpSocket t) (tuple t)
    (remoteAddrStorage t) x (srtpRecvSession t).

Definition set_srtpRecvSession (x : option SrtpSession) (t : PipeTransport) : PipeTransport :=
  mk_PipeTransport (base t) (listenIp t) (rtx t) (srtpKey t) (udpSocket t) (tuple t)
    (remoteAddrStorage t) (srtpSendSession t) x.

(** Calls that leave the object, in program order. *)
Inductive event : Type :=
| DataReceived (len : nat)
| DataSent (len : nat)
| Connected
| RequestAccept (data : json)
| TransportHandleRequest (method : string) (data : json)
| TupleSend (dst : TransportTuple) (data : bytes) (cb : option onSendCallback)
| CallbackInvoked (cb : onSendCallback) (sent : bool)
| SessionEncryptRtp (data : bytes)
| SessionEncryptRtcp (data : bytes)
| SessionDecryptSrtp (data : bytes)
| SessionDecryptSrtcp (data : bytes)
| RtpParse (data : bytes)
| RtcpParse (data : bytes)
| ReceiveRtpPacket (packet : RtpPacket)
| ReceiveRtcpPacket (packet : RtcpPacket)
| ReceiveSctpData (data : bytes)
| Log (macro : LogMacro) (msg : string)
| LogDecryptSrtpFailed (packet : RtpPacket).

Record State : Type := mk_State {
  self : PipeTransport;
  trace : list event
}.

(** ** The state and exception monad

    A member function either returns, throws with the object as it was at
    the throw, ends the process ([MS_ABORT]), or dereferences a null
    pointer or an end iterator ([Undefined]). *)
Inductive Outcome (A : Type) : Type :=
| Ret (a : A) (s : State)
| Throw (e : exception) (s : State)
| Abort (msg : string)
| Undefined.

Global Arguments Ret {A} a s.
Global Arguments Throw {A} e s.
Global Arguments Abort {A} msg.
Global Arguments Undefined {A}.

Definition M (A : Type) : Type := State -> Outcome A.

Definition M_ret {A} (a : A) : M A := fun s => Ret a s.

Definition M_bind {A B} (k : A -> M B) (m : M A) : M B :=
  fun s =>
    match m s with
    | Ret a s' => k a s'
    | Throw e s' => Throw e s'
    | Abort msg => Abort msg
    | Undefined => Undefined
    end.

Global Instance M_MRet : MRet M := @M_ret.
Global Instance M_MBind : MBind M := @M_bind.

Definition throw {A} (e : exception) : M A := fun s => Throw e s.

Definition MS_THROW_ERROR {A} (msg : string) : M A := throw (MediaSoupError msg).

Definition MS_THROW_TYPE_ERROR {A} (msg : string) : M A := throw (MediaSoupTypeError msg).

Definition MS_ABORT {A} (msg : string) : M A := fun _ => Abort msg.

Definition undefined {A} : M A := fun _ => Undefined.

Definition this : M PipeTransport := fun s => Ret (self s) s.

Definition modify (f : PipeTransport -> PipeTransport) : M unit :=
  fun s => Ret () (mk_State (f (self s)) (trace s)).

Definition emit (e : event) : M unit :=
  fun s => Ret () (mk_State (self s) (trace s ++ [e])).

(** [try { body } catch (const MediaSoupError& error) { handler }]. *)
Definition try_catch {A} (body : M A) (handler : exception -> M A) : M A :=
  fun s =>
    match body s with
    | Throw e s' => if is_MediaSoupError e then handler e s' else Throw e s'
    | o => o
    end.

(** [*p] for a pointer or iterator that may be null or [end()]. *)
Definition deref {A} (p : option A) : M A :=
  match p with
  | Some a => mret a
  | None => undefined
  end.

(** [j.get<std::string>()]. *)
Definition get_string (j : json) : M string :=
  match j with
  | JString s => mret s
  | _ => throw (json_type_error "type must be string")
  end.

(** A collaborator's throwing call. *)
Definition call {A} (r : string + A) (mk : string -> exception) : M A :=
  match r with
  | inl w => throw (mk w)
  | inr a => mret a
  end.

Definition when (b : bool) (m : M unit) : M unit :=
  if b then m else mret ().

(** ** Base-class calls *)

Definition add_received (len : nat) (t : PipeTransport) : PipeTransport :=
  set_base (mk_Transport (connected (base t)) (recvTransmission (base t) + len)
              (sendTransmission (base t))) t.

Definition add_sent (len : nat) (t : PipeTransport) : PipeTransport :=
  set_base (mk_Transport (connected (base t)) (recvTransmission (base t))
              (sendTransmission (base t) + len)) t.

Definition set_connected (t : PipeTransport) : PipeTransport :=
  set_base (mk_Transport true (recvTransmission (base t)) (sendTransmission (base t))) t.

Definition Transport_DataReceived (len : nat) : M unit :=
  modify (add_received len);;
  emit (DataReceived len).

Definition Transport_DataSent (len : nat) : M unit :=
  modify (add_sent len);;
  emit (DataSent len).

Definition Transport_Connected : M unit :=
  modify set_connected;;
  emit Connected.

(** Modelled from the spec: [RTC::Transport::HandleRequest] is defined
    outside PipeTransport.cpp, and the spec says of it only that all other
    request kinds are delegated unmodified to the base transport.  The
    delegation is recorded as an event; what the parent class does with
    the request, and whether it returns or throws, is not modelled: a run
    goes on from the state in which the request was passed on. *)
Definition Transport_HandleRequest (method : string) (data : json) : M unit :=
  emit (TransportHandleRequest method data).

(** ** Static members *)

Definition SrtpProfile : Profile := AES_CM_128_HMAC_SHA1_80.

Definition SrtpMasterLength : nat := 30.

(** [std::memcpy(dst, s.c_str(), n)]: the first [n] bytes of the string. *)
Definition memcpy_c_str (s : string) (n : nat) : bytes :=
  take n (String.list_byte_of_string s).

(** ** Constructor *)

Definition result (A : Type) : Type := (exception + A)%type.

(** Modelled from the spec: the default member initialisers are in
    PipeTransport.hpp, not in PipeTransport.cpp.  The spec gives [enableRtx]
    and [enableSrtp] the default false, and the initial state as Unconnected
    with no remote binding and no keyed session. *)
Definition default_rtx : bool := false.

Definition default_srtpKey : string := "".

Definition default_remoteAddrStorage : sockaddr := mk_sockaddr AF_UNSPEC 0 [].

(** The constructor body, run after the base-class constructor has built
    [base0] from the same [data]. *)
Definition PipeTransport_new (base0 : Transport) (data : json) : result PipeTransport :=
  let jsonListenIpIt := jfind "listenIp" data in
  match jsonListenIpIt with
  | None => inl (MediaSoupTypeError "missing listenIp")
  | Some jsonListenIp =>
    if negb (is_object jsonListenIp)
    then inl (MediaSoupTypeError "wrong listenIp (not an object)")
    else
    let jsonIpIt := jfind "ip" jsonListenIp in
    match jsonIpIt with
    | None => inl (MediaSoupTypeError "missing listenIp.ip")
    | Some (JString ip0) =>
      (* This may throw. *)
      match NormalizeIp ip0 with
      | inl w => inl (MediaSoupTypeError w)
      | inr listenIp_ip =>
        let jsonAnnouncedIpIt := jfind "announcedIp" jsonListenIp in
        let announced : result string :=
          match jsonAnnouncedIpIt with
          | None => inr ""
          | Some (JString a) => inr a
          | Some _ => inl (MediaSoupTypeError "wrong listenIp.announcedIp (not an string")
          end in
        match announced with
        | inl e => inl e
        | inr listenIp_announcedIp =>
          let jsonEnableRtxIt := jfind "enableRtx" data in
          let rtx0 :=
            match jsonEnableRtxIt with
            | Some (JBool b) => b
            | _ => default_rtx
            end in
          let jsonEnableSrtpIt := jfind "enableSrtp" data in
          let srtpKey0 :=
            match jsonEnableSrtpIt with
            | Some (JBool true) => GetRandomString SrtpMasterLength
            | _ => default_srtpKey
            end in
          (* This may throw. *)
          match UdpSocket_new listenIp_ip with
          | inl w => inl (MediaSoupError w)
          | inr socket =>
            inr (mk_PipeTransport base0 (mk_ListenIp listenIp_ip listenIp_announcedIp)
                   rtx0 srtpKey0 socket None default_remoteAddrStorage None None)
          end
        end
      end
    | Some _ => inl (MediaSoupTypeError "wrong listenIp.ip (not an string)")
    end
  end.

(** ** Inline predicates *)

Definition HasSrtp (t : PipeTransport) : bool :=
  negb (bool_decide (srtpKey t = "")).

Definition IsConnected (t : PipeTransport) : bool :=
  bool_decide (tuple t <> None).

(** ** HandleRequest, TRANSPORT_CONNECT *)

Inductive MethodId : Type :=
| TRANSPORT_CONNECT
| OTHER_METHOD (name : string).

Record Request : Type := mk_Request {
  methodId : MethodId;
  data : json
}.

(** Lines 191-199: the remote ip. *)
Definition connect_ip (data : json) : M string :=
  let jsonIpIt := jfind "ip" data in
  when (match jsonIpIt with None => true | Some j => negb (is_string j) end)
    (MS_THROW_TYPE_ERROR "missing ip");;
  j ← deref jsonIpIt;
  ip0 ← get_string j;
  (* This may throw. *)
  call (NormalizeIp ip0) MediaSoupTypeError.

(** Lines 201-211: the remote port is checked; [port] itself keeps the
    value of its initialiser. *)
Definition connect_port (data : json) : M unit :=
  let jsonPortIt := jfind "port" data in
  when (match jsonPortIt with None => true | Some j => negb (IsPositiveInteger j) end)
    (MS_THROW_TYPE_ERROR "missing port").

(** Lines 213-227: presence of [srtpKey] against the local state. *)
Definition connect_srtpKey_presence (data : json) : M unit :=
  t ← this;
  let jsonSrtpKeyIt := jfind "srtpKey" data in
  if negb (HasSrtp t) && bool_decide (jsonSrtpKeyIt <> None)
  then MS_THROW_TYPE_ERROR "invalid srtpKey (SRTP not enabled locally)"
  else if HasSrtp t
          && match jsonSrtpKeyIt with None => true | Some j => negb (is_string j) end
  then MS_THROW_TYPE_ERROR "missing srtpKey (SRTP enabled locally)"
  else mret ().

(** Lines 229-270: the two SRTP sessions. *)
Definition connect_srtp_sessions (data : json) : M unit :=
  t ← this;
  let jsonSrtpKeyIt := jfind "srtpKey" data in
  if HasSrtp t then
    j ← deref jsonSrtpKeyIt;
    srtpKey0 ← get_string j;
    when (negb (bool_decide (String.length srtpKey0 = SrtpMasterLength)))
      (MS_THROW_TYPE_ERROR "invalid srtpKey length");;
    let srtpLocalKey := memcpy_c_str (srtpKey t) SrtpMasterLength in
    let srtpRemoteKey := memcpy_c_str srtpKey0 SrtpMasterLength in
    try_catch
      (session ← call (SrtpSession_new OUTBOUND SrtpProfile srtpLocalKey SrtpMasterLength)
                      MediaSoupError;
       modify (set_srtpSendSession (Some session)))
      (fun error =>
         MS_THROW_ERROR ("error creating SRTP sending session: " ++ what error));;
    try_catch
      (session ← call (SrtpSession_new INBOUND SrtpProfile srtpRemoteKey SrtpMasterLength)
                      MediaSoupError;
       modify (set_srtpRecvSession (Some session)))
      (fun error =>
         MS_THROW_ERROR ("error creating SRTP receiving session: " ++ what error))
  else mret ().

(** Lines 272-306: the remote address, by family. *)
Definition connect_remote_address (ip0 : string) (port : Z) : M unit :=
  match GetFamily ip0 with
  | AF_INET =>
    let '(err, addr) := uv_ip4_addr ip0 port in
    modify (set_remoteAddrStorage addr);;
    when (negb (bool_decide (err = 0%Z))) (MS_ABORT "uv_ip4_addr() failed")
  | AF_INET6 =>
    let '(err, addr) := uv_ip6_addr ip0 port in
    modify (set_remoteAddrStorage addr);;
    when (negb (bool_decide (err = 0%Z))) (MS_ABORT "uv_ip6_addr() failed")
  | AF_UNSPEC =>
    MS_THROW_ERROR ("invalid IP '" ++ ip0 ++ "'")
  end.

(** Lines 308-313: the tuple. *)
Definition connect_tuple : M unit :=
  t ← this;
  modify (set_tuple (Some (TransportTuple_new (udpSocket t) (remoteAddrStorage t))));;
  when (negb (bool_decide (announcedIp (listenIp t) = "")))
    (t' ← this;
     tuple0 ← deref (tuple t');
     modify (set_tuple (Some (SetLocalAnnouncedIp (announcedIp (listenIp t)) tuple0)))).

(** Lines 187-313: the body of the outer [try]. *)
Definition connect_try (data : json) : M unit :=
  let port : Z := 0%Z in
  ip0 ← connect_ip data;
  connect_port data;;
  connect_srtpKey_presence data;;
  connect_srtp_sessions data;;
  connect_remote_address ip0 port;;
  connect_tuple.

(** Lines 315-327: the outer handler. *)
Definition connect_catch (error : exception) : M unit :=
  modify (set_srtpSendSession None);;
  modify (set_srtpRecvSession None);;
  modify (set_tuple None);;
  throw error.

Definition connect (data : json) : M unit :=
  t ← this;
  (* Ensure this method is not called twice. *)
  when (bool_decide (tuple t <> None)) (MS_THROW_ERROR "connect() already called");;
  try_catch (connect_try data) connect_catch;;
  t' ← this;
  tuple0 ← deref (tuple t');
  let data0 := JObject (<["tuple" := TransportTuple_FillJson tuple0]> ∅) in
  emit (RequestAccept data0);;
  Transport_Connected.

Definition HandleRequest (request : Request) : M unit :=
  match methodId request with
  | TRANSPORT_CONNECT => connect (data request)
  | OTHER_METHOD name =>
    (* Pass it to the parent class. *)
    Transport_HandleRequest name (data request)
  end.

(** ** Outbound *)

(** A callback that is not null is invoked with [false] and deleted. *)
Definition cb_false (cb : option onSendCallback) : M unit :=
  match cb with
  | Some c => emit (CallbackInvoked c false)
  | None => mret ()
  end.

Definition SendRtpPacket (packet : RtpPacket) (cb : option onSendCallback) : M unit :=
  t ← this;
  if negb (IsConnected t) then cb_false cb
  else
    let data := RtpPacket_GetData packet in
    encrypted ←
      (if HasSrtp t then
         session ← deref (srtpSendSession t);
         emit (SessionEncryptRtp data);;
         let '(session', r) := EncryptRtp session data in
         modify (set_srtpSendSession (Some session'));;
         mret r
       else mret (Some data));
    match encrypted with
    | None => cb_false cb
    | Some data' =>
      tuple0 ← deref (tuple t);
      emit (TupleSend tuple0 data' cb);;
      (* Increase send transmission. *)
      Transport_DataSent (length data')
    end.

(** The body shared, line for line, by [SendRtcpPacket] and
    [SendRtcpCompoundPacket]. *)
Definition SendRtcpData (data : bytes) : M unit :=
  t ← this;
  if negb (IsConnected t) then mret ()
  else
    encrypted ←
      (if HasSrtp t then
         session ← deref (srtpSendSession t);
         emit (SessionEncryptRtcp data);;
         let '(session', r) := EncryptRtcp session data in
         modify (set_srtpSendSession (Some session'));;
         mret r
       else mret (Some data));
    match encrypted with
    | None => mret ()
    | Some data' =>
      tuple0 ← deref (tuple t);
      emit (TupleSend tuple0 data' None);;
      (* Increase send transmission. *)
      Transport_DataSent (length data')
    end.

Definition SendRtcpPacket (packet : RtcpPacket) : M unit :=
  SendRtcpData (RtcpPacket_GetData packet).

Definition SendRtcpCompoundPacket (packet : CompoundPacket) : M unit :=
  SendRtcpData (CompoundPacket_GetData packet).

Definition SendSctpData (data : bytes) : M unit :=
  t ← this;
  if negb (IsConnected t) then mret ()
  else
    tuple0 ← deref (tuple t);
    emit (TupleSend tuple0 data None);;
    (* Increase send transmission. *)
    Transport_DataSent (length data).

(** ** Inbound *)

Definition OnRtpDataReceived (tuple0 : TransportTuple) (data : bytes) : M unit :=
  t ← this;
  if negb (IsConnected t) then mret ()
  else
    mine ← deref (tuple t);
    (* Verify that the packet's tuple matches our tuple. *)
    if negb (Compare mine tuple0)
    then emit (Log MS_DEBUG_TAG "ignoring RTP packet from unknown IP:port")
    else
      (* Decrypt the SRTP packet. *)
      decrypted ←
        (if HasSrtp t then
           session ← deref (srtpRecvSession t);
           emit (SessionDecryptSrtp data);;
           let '(session', data', ok) := DecryptSrtp session data in
           modify (set_srtpRecvSession (Some session'));;
           mret (data', ok)
         else mret (data, true));
      let '(data', ok) := decrypted in
      if negb ok then
        emit (RtpParse data');;
        match RtpPacket_Parse data' with
        | None => emit (Log MS_WARN_TAG "DecryptSrtp() failed due to an invalid RTP packet")
        | Some packet => emit (LogDecryptSrtpFailed packet)
        end
      else
        emit (RtpParse data');;
        match RtpPacket_Parse data' with
        | None => emit (Log MS_WARN_TAG "received data is not a valid RTP packet")
        | Some packet =>
          (* Pass the packet to the parent transport. *)
          emit (ReceiveRtpPacket packet)
        end.

Definition OnRtcpDataReceived (tuple0 : TransportTuple) (data : bytes) : M unit :=
  t ← this;
  if negb (IsConnected t) then mret ()
  else
    mine ← deref (tuple t);
    (* Verify that the packet's tuple matches our tuple. *)
    if negb (Compare mine tuple0)
    then emit (Log MS_DEBUG_TAG "ignoring RTCP packet from unknown IP:port")
    else
      (* Decrypt the SRTCP packet. *)
      decrypted ←
        (if HasSrtp t then
           session ← deref (srtpRecvSession t);
           emit (SessionDecryptSrtcp data);;
           let '(session', data', ok) := DecryptSrtcp session data in
           modify (set_srtpRecvSession (Some session'));;
           mret (data', ok)
         else mret (data, true));
      let '(data', ok) := decrypted in
      if negb ok then mret ()
      else
        emit (RtcpParse data');;
        match RtcpPacket_Parse data' with
        | None =>
          emit (Log MS_WARN_TAG "received data is not a valid RTCP compound or single packet")
        | Some packet =>
          (* Pass the packet to the parent transport. *)
          emit (ReceiveRtcpPacket packet)
        end.

Definition OnSctpDataReceived (tuple0 : TransportTuple) (data : bytes) : M unit :=
  t ← this;
  if negb (IsConnected t) then mret ()
  else
    mine ← deref (tuple t);
    (* Verify that the packet's tuple matches our tuple. *)
    if negb (Compare mine tuple0)
    then emit (Log MS_DEBUG_TAG "ignoring SCTP packet from unknown IP:port")
    else
      (* Pass it to the parent transport. *)
      emit (ReceiveSctpData data).

Definition OnPacketReceived (tuple0 : TransportTuple) (data : bytes) : M unit :=
  (* Increase receive transmission. *)
  Transport_DataReceived (length data);;
  (* Check if it's RTCP. *)
  if IsRtcp data then OnRtcpDataReceived tuple0 data
  (* Check if it's RTP. *)
  else if IsRtp data then OnRtpDataReceived tuple0 data
  (* Check if it's SCTP. *)
  else if IsSctp data then OnSctpDataReceived tuple0 data
  else emit (Log MS_WARN_DEV "ignoring received packet of unknown type").

Definition OnUdpSocketPacketReceived
    (socket : UdpSocket) (data : bytes) (remoteAddr : sockaddr) : M unit :=
  let tuple0 := TransportTuple_new socket remoteAddr in
  OnPacketReceived tuple0 data.

End WithCollaborators.

(** ** Sequences of operations *)

Section Operations.
Context `{Collab : Collaborators}.

Inductive Op : Type :=
| OpHandleRequest (request : Request)
| OpSendRtpPacket (packet : RtpPacket) (cb : option onSendCallback)
| OpSendRtcpPacket (packet : RtcpPacket)
| OpSendRtcpCompoundPacket (packet : CompoundPacket)
| OpSendSctpData (data : bytes)
| OpUdpSocketPacketReceived (socket : UdpSocket) (data : bytes) (remoteAddr : sockaddr).

Definition run (op : Op) : M unit :=
  match op with
  | OpHandleRequest request => HandleRequest request
  | OpSendRtpPacket packet cb => SendRtpPacket packet cb
  | OpSendRtcpPacket packet => SendRtcpPacket packet
  | OpSendRtcpCompoundPacket packet => SendRtcpCompoundPacket packet
  | OpSendSctpData data => SendSctpData data
  | OpUdpSocketPacketReceived socket data remoteAddr =>
    OnUdpSocketPacketReceived socket data remoteAddr
  end.

(** The object between two calls: built by the constructor, then driven by
    calls that return or throw. *)
Inductive reachable : State -> Prop :=
| reachable_new base0 data t :
    PipeTransport_new base0 data = inr t ->
    reachable (mk_State t [])
| reachable_ret op s s' :
    reachable s -> run op s = Ret () s' -> reachable s'
| reachable_throw op s e s' :
    reachable s -> run op s = Throw e s' -> reachable s'.

(** Both sessions exist exactly on a connected transport with SRTP. *)
Definition sessions_paired (t : PipeTransport) : Prop :=
  (is_Some (srtpSendSession t) <-> IsConnected t = true /\ HasSrtp t = true)
  /\ (is_Some (srtpRecvSession t) <-> IsConnected t = true /\ HasSrtp t = true).

(** Modelled from the spec: [Utils::IP::NormalizeIp] and
    [Utils::IP::GetFamily] are defined outside PipeTransport.cpp, which only
    calls them.  The spec has the ip of a connect request validated as one
    that parses as IPv4 or IPv6: an ip that [NormalizeIp] accepts has one of
    these two families. *)
Definition NormalizeIp_contract : Prop :=
  forall ip0 ip1, NormalizeIp ip0 = inr ip1 ->
    GetFamily ip1 = AF_INET \/ GetFamily ip1 = AF_INET6.

(** The tuple that [connect] installs for the object [t]. *)
Definition new_tuple (t : PipeTransport) : TransportTuple :=
  mk_TransportTuple (udpSocket t) (remoteAddrStorage t) (announcedIp (listenIp t)) UDP.

(** What the spec calls a mismatch of [srtpKey] with the local protection
    state. *)
Definition srtpKey_mismatch (t : PipeTransport) (data : json) : Prop :=
  (HasSrtp t = true
   /\ (jfind "srtpKey" data = None
       \/ exists j, jfind "srtpKey" data = Some j /\ is_string j = false))
  \/ (HasSrtp t = false /\ jfind "srtpKey" data <> None)
  \/ (exists k, jfind "srtpKey" data = Some (JString k)
                /\ String.length k <> SrtpMasterLength).

(** [t'] has the tuple and the local key of [t], and a session wherever
    [t] has one. *)
Definition same_shape (t t' : PipeTransport) : Prop :=
  tuple t' = tuple t
  /\ srtpKey t' = srtpKey t
  /\ (is_Some (srtpSendSession t') <-> is_Some (srtpSendSession t))
  /\ (is_Some (srtpRecvSession t') <-> is_Some (srtpRecvSession t)).

(** An outcome of a send or receive call from [s]: the call returns, the
    shape of the object is kept and the trace only grows; a null session is
    dereferenced only where the sessions were not paired. *)
Definition steady (s : State) (o : Outcome unit) : Prop :=
  match o with
  | Ret _ s' =>
    same_shape (self s) (self s')
    /\ recvTransmission (base (self s)) <= recvTransmission (base (self s'))
    /\ exists evs, trace s' = (trace s ++ evs)%list
  | Throw _ _ | Abort _ => False
  | Undefined => ~ sessions_paired (self s)
  end.

(** The events of a callback that is told of a failure. *)
Definition cb_false_events (cb : option onSendCallback) : list event :=
  match cb with
  | Some c => [CallbackInvoked c false]
  | None => []
  end.

(** A state with both sessions and the tuple cleared, as the outer handler
    of [connect] leaves it. *)
Definition rolled_back (t : PipeTransport) : PipeTransport :=
  set_tuple None (set_srtpRecvSession None (set_srtpSendSession None t)).

End Operations.

(** ** FillJson and FillJsonStats *)

Section Description.
Context `{Collab : Collaborators}.

(** [j[key] = v] on a non-const nlohmann value: a null value becomes an
    object, an object gets or replaces the member, and a value of any other
    type throws type_error 305. *)
Definition json_assign (j : json) (key : string) (v : json) : result json :=
  match j with
  | JNull => inr (JObject (<[key := v]> ∅))
  | JObject m => inr (JObject (<[key := v]> m))
  | _ => inl (json_type_error "cannot use operator[] with a string argument")
  end.

(** [j[key]] read as a reference: the member, created null when absent. *)
Definition json_member (j : json) (key : string) : result json :=
  match j with
  | JNull => inr JNull
  | JObject m => inr (default JNull (m !! key))
  | _ => inl (json_type_error "cannot use operator[] with a string argument")
  end.

Definition members (j : json) : gmap string json :=
  match j with
  | JObject m => m
  | _ => ∅
  end.

(** [tuple->FillJson(member)]: the members of the described tuple are
    assigned into the referenced value, as [json_assign] does one by one. *)
Definition TransportTuple_FillJson_into (t : TransportTuple) (member : json) : result json :=
  match member with
  | JNull => inr (TransportTuple_FillJson t)
  | JObject m => inr (JObject (members (TransportTuple_FillJson t) ∪ m))
  | _ => inl (json_type_error "cannot use operator[] with a string argument")
  end.

Definition result_bind {A B} (r : result A) (k : A -> result B) : result B :=
  match r with
  | inl e => inl e
  | inr a => k a
  end.

(** Lines 121-138 and 153-170: the tuple, or before connect the local
    address alone. *)
Definition FillJson_tuple (t : PipeTransport) (jsonObject : json) : result json :=
  match tuple t with
  | Some tuple0 =>
    result_bind (json_member jsonObject "tuple") (fun member =>
    result_bind (TransportTuple_FillJson_into tuple0 member) (fun filled =>
    json_assign jsonObject "tuple" filled))
  | None =>
    result_bind (json_assign jsonObject "tuple" (JObject ∅)) (fun jsonObject1 =>
    let jsonTuple := default JNull (jfind "tuple" jsonObject1) in
    result_bind
      (json_assign jsonTuple "localIp"
         (JString (if bool_decide (announcedIp (listenIp t) = "")
                   then localIp (udpSocket t)
                   else announcedIp (listenIp t)))) (fun jsonTuple1 =>
    result_bind
      (json_assign jsonTuple1 "localPort" (JInt (localPort (udpSocket t))))
      (fun jsonTuple2 =>
    result_bind (json_assign jsonTuple2 "protocol" (JString "udp")) (fun jsonTuple3 =>
    json_assign jsonObject1 "tuple" jsonTuple3))))
  end.

(** [FillJson], on the object as the parent method has left it. *)
Definition FillJson (t : PipeTransport) (jsonObject : json) : result json :=
  (* Add rtx. *)
  result_bind (json_assign jsonObject "rtx" (JBool (rtx t))) (fun jsonObject1 =>
  (* Add srtpKey. *)
  result_bind
    (if HasSrtp t then json_assign jsonObject1 "srtpKey" (JString (srtpKey t))
     else inr jsonObject1) (fun jsonObject2 =>
  (* Add tuple. *)
  FillJson_tuple t jsonObject2)).

(** [jsonArray[0]] on a non-const value: a null value becomes an array, an
    array shorter than one element is filled with null; any other type
    throws type_error 305.  The result is the first element and the rest. *)
Definition json_first (jsonArray : json) : result (json * list json) :=
  match jsonArray with
  | JNull | JArray [] => inr (JNull, [])
  | JArray (first :: rest) => inr (first, rest)
  | _ => inl (json_type_error "cannot use operator[] with a numeric argument")
  end.

(** [FillJsonStats], on the array as the parent method has left it. *)
Definition FillJsonStats (t : PipeTransport) (jsonArray : json) : result json :=
  result_bind (json_first jsonArray) (fun '(jsonObject, rest) =>
  (* Add type. *)
  result_bind (json_assign jsonObject "type" (JString "pipe-transport"))
    (fun jsonObject1 =>
  result_bind (FillJson_tuple t jsonObject1) (fun jsonObject2 =>
  inr (JArray (jsonObject2 :: rest))))).

(** ** Runs and what a trace accounts for *)

(** A sequence of calls, each started where the last one returned or
    threw; [None] when a call ends the process. *)
Fixpoint exec (ops : list Op) (s : State) : option State :=
  match ops with
  | [] => Some s
  | op :: rest =>
    match run op s with
    | Ret _ s' | Throw _ s' => exec rest s'
    | Abort _ | Undefined => None
    end
  end.

Fixpoint received_bytes (evs : list event) : nat :=
  match evs with
  | [] => 0
  | DataReceived len :: rest => len + received_bytes rest
  | _ :: rest => received_bytes rest
  end.

Fixpoint sent_bytes (evs : list event) : nat :=
  match evs with
  | [] => 0
  | DataSent len :: rest => len + sent_bytes rest
  | _ :: rest => sent_bytes rest
  end.

(** Every buffer handed to the tuple is followed at once by [DataSent] of
    its length, and [DataSent] occurs nowhere else. *)
Fixpoint sends_accounted (evs : list event) : bool :=
  match evs with
  | [] => true
  | TupleSend _ data _ :: DataSent len :: rest =>
    bool_decide (len = length data) && sends_accounted rest
  | TupleSend _ _ _ :: _ => false
  | DataSent _ :: _ => false
  | _ :: rest => sends_accounted rest
  end.

(** Events of the sending side and of the receiving side. *)
Definition is_outbound (e : event) : bool :=
  match e with
  | DataSent _ | TupleSend _ _ _ | CallbackInvoked _ _
  | SessionEncryptRtp _ | SessionEncryptRtcp _ => true
  | _ => false
  end.

Definition is_inbound (e : event) : bool :=
  match e with
  | DataReceived _ | SessionDecryptSrtp _ | SessionDecryptSrtcp _
  | RtpParse _ | RtcpParse _
  | ReceiveRtpPacket _ | ReceiveRtcpPacket _ | ReceiveSctpData _
  | Log _ _ | LogDecryptSrtpFailed _ => true
  | _ => false
  end.

Definition is_connect (op : Op) : bool :=
  match op with
  | OpHandleRequest (mk_Request TRANSPORT_CONNECT _) => true
  | _ => false
  end.

(** A request that PipeTransport.cpp passes on to its parent class. *)
Definition is_delegated (op : Op) : bool :=
  match op with
  | OpHandleRequest (mk_Request (OTHER_METHOD _) _) => true
  | _ => false
  end.

(** What one call may change: the configuration never, the tuple only from
    absent to present, the remote address only while there is no tuple; the
    trace grows by events the counters account for. *)
Definition evolves (s s' : State) : Prop :=
  listenIp (self s') = listenIp (self s)
  /\ rtx (self s') = rtx (self s)
  /\ srtpKey (self s') = srtpKey (self s)
  /\ udpSocket (self s') = udpSocket (self s)
  /\ (forall tuple0, tuple (self s) = Some tuple0 ->
        tuple (self s') = Some tuple0
        /\ remoteAddrStorage (self s') = remoteAddrStorage (self s))
  /\ (connected (base (self s)) = true -> connected (base (self s')) = true)
  /\ exists evs,
       trace s' = (trace s ++ evs)%list
       /\ recvTransmission (base (self s'))
          = recvTransmission (base (self s)) + received_bytes evs
       /\ sendTransmission (base (self s'))
          = sendTransmission (base (self s)) + sent_bytes evs
       /\ sends_accounted evs = true.

(** What holds of a tuple once installed. *)
Definition tuple_installed (t : PipeTransport) : Prop :=
  forall tuple0, tuple t = Some tuple0 ->
    tuple0 = new_tuple t
    /\ sa_port (remoteAddrStorage t) = 0%Z
    /\ connected (base t) = true.

(** The tuple described before connect: the local address alone. *)
Definition local_description (t : PipeTransport) : json :=
  JObject
    (<["protocol" := JString "udp"]>
     (<["localPort" := JInt (localPort (udpSocket t))]>
      (<["localIp" :=
           JString (if bool_decide (announcedIp (listenIp t) = "")
                    then localIp (udpSocket t)
                    else announcedIp (listenIp t))]> ∅))).

(** The object after the first two assignments of [FillJson]. *)
Definition with_rtx_and_key (t : PipeTransport) (m : gmap string json)
    : gmap string json :=
  if HasSrtp t
  then <["srtpKey" := JString (srtpKey t)]> (<["rtx" := JBool (rtx t)]> m)
  else <["rtx" := JBool (rtx t)]> m.

(** Events that neither use the tuple or a session nor pass anything to
    the parent class. *)
Definition is_quiet (e : event) : bool :=
  match e with
  | DataReceived _ | CallbackInvoked _ false | Log _ _
  | TransportHandleRequest _ _ => true
  | _ => false
  end.

(** ** What a connect request must carry *)

Definition connect_port_ok (data : json) : Prop :=
  exists j, jfind "port" data = Some j /\ IsPositiveInteger j = true.

(** The sessions a successful connect leaves: with SRTP, the sending one
    made from the local key and the receiving one from the 30-byte key of
    the request; without, none is made and none may be asked for. *)
Definition connect_keys (t : PipeTransport) (data : json)
    (snd0 rcv0 : option SrtpSession) : Prop :=
  (HasSrtp t = true
   /\ exists k session1 session2,
        jfind "srtpKey" data = Some (JString k)
        /\ String.length k = SrtpMasterLength
        /\ SrtpSession_new OUTBOUND SrtpProfile
             (memcpy_c_str (srtpKey t) SrtpMasterLength) SrtpMasterLength
           = inr session1
        /\ SrtpSession_new INBOUND SrtpProfile
             (memcpy_c_str k SrtpMasterLength) SrtpMasterLength
           = inr session2
        /\ snd0 = Some session1 /\ rcv0 = Some session2)
  \/ (HasSrtp t = false
      /\ jfind "srtpKey" data = None
      /\ snd0 = srtpSendSession t /\ rcv0 = srtpRecvSession t).

(** The remote address a successful connect stores: that of the
    normalized ip, by its family, with the port the code passes. *)
Definition connect_address (data : json) (addr : sockaddr) : Prop :=
  exists ip0 ip1,
    jfind "ip" data = Some (JString ip0)
    /\ NormalizeIp ip0 = inr ip1
    /\ ((GetFamily ip1 = AF_INET /\ uv_ip4_addr ip1 0 = (0%Z, addr))
        \/ (GetFamily ip1 = AF_INET6 /\ uv_ip6_addr ip1 0 = (0%Z, addr))).

(** The object after the [try] block of a connect that went through. *)
Definition connect_installed (t : PipeTransport)
    (snd0 rcv0 : option SrtpSession) (addr : sockaddr) : PipeTransport :=
  let t1 := set_remoteAddrStorage addr
              (set_srtpRecvSession rcv0 (set_srtpSendSession snd0 t)) in
  set_tuple (Some (new_tuple t1)) t1.

(** The state a successful connect returns in. *)
Definition connected_state (s : State)
    (snd0 rcv0 : option SrtpSession) (addr : sockaddr) : State :=
  let t2 := connect_installed (self s) snd0 rcv0 addr in
  mk_State (set_connected t2)
    (trace s ++ [RequestAccept
                   (JObject (<["tuple" := TransportTuple_FillJson (new_tuple t2)]> ∅));
                 Connected]).

(** The events a call added to the trace. *)
Definition new_events (s s' : State) : list event :=
  drop (length (trace s)) (trace s').

Definition is_send (op : Op) : bool :=
  match op with
  | OpSendRtpPacket _ _ | OpSendRtcpPacket _ | OpSendRtcpCompoundPacket _
  | OpSendSctpData _ => true
  | _ => false
  end.

(** The exceptions a connect request can end in. *)
Inductive connect_error (t : PipeTransport) (data : json) : exception -> Prop :=
| already_called tuple0 :
    tuple t = Some tuple0 ->
    connect_error t data (MediaSoupError "connect() already called")
| missing_ip :
    (forall ip0, jfind "ip" data <> Some (JString ip0)) ->
    connect_error t data (MediaSoupTypeError "missing ip")
| bad_ip ip0 w :
    jfind "ip" data = Some (JString ip0) -> NormalizeIp ip0 = inl w ->
    connect_error t data (MediaSoupTypeError w)
| missing_port :
    ~ connect_port_ok data ->
    connect_error t data (MediaSoupTypeError "missing port")
| unexpected_srtpKey :
    HasSrtp t = false -> jfind "srtpKey" data <> None ->
    connect_error t data (MediaSoupTypeError "invalid srtpKey (SRTP not enabled locally)")
| missing_srtpKey :
    HasSrtp t = true -> (forall k, jfind "srtpKey" data <> Some (JString k)) ->
    connect_error t data (MediaSoupTypeError "missing srtpKey (SRTP enabled locally)")
| bad_srtpKey_length k :
    HasSrtp t = true -> jfind "srtpKey" data = Some (JString k) ->
    String.length k <> SrtpMasterLength ->
    connect_error t data (MediaSoupTypeError "invalid srtpKey length")
| sending_session_failed w :
    HasSrtp t = true ->
    SrtpSession_new OUTBOUND SrtpProfile
      (memcpy_c_str (srtpKey t) SrtpMasterLength) SrtpMasterLength = inl w ->
    connect_error t data
      (MediaSoupError ("error creating SRTP sending session: " ++ w))
| receiving_session_failed k w :
    HasSrtp t = true -> jfind "srtpKey" data = Some (JString k) ->
    SrtpSession_new INBOUND SrtpProfile
      (memcpy_c_str k SrtpMasterLength) SrtpMasterLength = inl w ->
    connect_error t data
      (MediaSoupError ("error creating SRTP receiving session: " ++ w))
| no_family ip0 ip1 :
    jfind "ip" data = Some (JString ip0) -> NormalizeIp ip0 = inr ip1 ->
    GetFamily ip1 = AF_UNSPEC ->
    connect_error t data (MediaSoupError ("invalid IP '" ++ ip1 ++ "'")).

End Description.

(** ** A small instance of the collaborators

    Enough of each collaborator to run the transport on concrete requests
    and datagrams: textual address checks, sessions that append and strip a
    ten-byte tag, and classifiers on the first two bytes. *)

Module Sample.

Definition one_of (set : string) (c : ascii) : bool :=
  existsb (Ascii.eqb c) (list_ascii_of_string set).

Definition is_digit : ascii -> bool := one_of "0123456789".

Definition is_hex : ascii -> bool := one_of "0123456789abcdefABCDEF".

Definition is_dot : ascii -> bool := one_of ".".

Definition is_colon : ascii -> bool := one_of ":".

Definition chars (s : string) : list ascii := list_ascii_of_string s.

Definition GetFamily (s : string) : family :=
  if forallb (fun c => is_digit c || is_dot c) (chars s) && existsb is_dot (chars s)
  then AF_INET
  else if forallb (fun c => is_hex c || is_colon c) (chars s) && existsb is_colon (chars s)
  then AF_INET6
  else AF_UNSPEC.

Definition NormalizeIp (s : string) : string + string :=
  match GetFamily s with
  | AF_UNSPEC => inl ("invalid IP '" ++ s ++ "'")
  | _ => inr s
  end.

Definition IsPositiveInteger (j : json) : bool :=
  match j with
  | JInt n => (0 <=? n)%Z
  | _ => false
  end.

Definition GetRandomString (n : nat) : string :=
  string_of_list_ascii (replicate n "k"%char).

Definition uv_inet_pton (f : family) (s : string) : Z * bytes :=
  if decide (GetFamily s = f) then (0%Z, String.list_byte_of_string s)
  else ((-4071)%Z, []).

Definition uv_inet_ntop (f : family) (a : bytes) : string :=
  String.string_of_list_byte a.

Definition UdpSocket_new (s : string) : string + UdpSocket :=
  inr (mk_UdpSocket s 40000).

Definition tag : bytes := replicate 10 Byte.xff.

Record SrtpSession : Type := mk_SrtpSession {
  direction : SrtpType;
  key : bytes;
  packets : nat
}.

(** A key whose first byte is zero is refused. *)
Definition SrtpSession_new (ty : SrtpType) (p : Profile) (k : bytes) (len : nat)
    : string + SrtpSession :=
  match k with
  | Byte.x00 :: _ => inl "srtp_create() failed"
  | _ => inr (mk_SrtpSession ty k 0)
  end.

Definition Encrypt (s : SrtpSession) (d : bytes) : SrtpSession * option bytes :=
  match d with
  | [] => (s, None)
  | _ => (mk_SrtpSession (direction s) (key s) (S (packets s)), Some (d ++ tag)%list)
  end.

Definition Decrypt (s : SrtpSession) (d : bytes) : SrtpSession * bytes * bool :=
  if (10 <=? length d)%nat && bool_decide (drop (length d - 10) d = tag)
  then (mk_SrtpSession (direction s) (key s) (S (packets s)), take (length d - 10) d, true)
  else (s, d, false).

Definition byte_in (lo hi : N) (b : Byte.byte) : bool :=
  (lo <=? Byte.to_N b)%N && (Byte.to_N b <=? hi)%N.

Definition IsRtcp (d : bytes) : bool :=
  match d with
  | b0 :: b1 :: _ => (4 <=? length d)%nat && byte_in 128 191 b0 && byte_in 192 223 b1
  | _ => false
  end.

Definition IsRtp (d : bytes) : bool :=
  match d with
  | b0 :: _ => (12 <=? length d)%nat && byte_in 128 191 b0
  | _ => false
  end.

Definition IsSctp (d : bytes) : bool :=
  match d with
  | b0 :: _ => (12 <=? length d)%nat && byte_in 0 19 b0
  | _ => false
  end.

Definition Parse (accept : bytes -> bool) (d : bytes) : option bytes :=
  if accept d then Some d else None.

Global Instance collaborators : Collaborators :=
  Build_Collaborators
    SrtpSession bytes bytes bytes nat
    NormalizeIp GetFamily IsPositiveInteger GetRandomString
    uv_inet_pton uv_inet_ntop
    UdpSocket_new
    SrtpSession_new Encrypt Encrypt Decrypt Decrypt
    IsRtcp IsRtp IsSctp
    (Parse IsRtp) (Parse IsRtcp)
    id id id.

Definition base0 : Transport := mk_Transport false 0 0.

Definition listen_map (srtp : json) : gmap string json :=
  <["listenIp" := JObject (<["ip" := JString "127.0.0.1"]> ∅)]>
    (<["enableSrtp" := srtp]> ∅).

Definition listen (srtp : json) : json := JObject (listen_map srtp).

Definition keyX : string := string_of_list_ascii (replicate 30 "X"%char).

Definition connect_data (port : Z) (srtpKey : option string) : json :=
  let m : gmap string json := <["ip" := JString "127.0.0.1"]> (<["port" := JInt port]> ∅) in
  JObject (match srtpKey with Some k => <["srtpKey" := JString k]> m | None => m end).

Definition key16 : string := string_of_list_ascii (replicate 16 "X"%char).

(** The transport built from [listen (JBool true)], and the one built from
    [listen (JBool false)]. *)
Definition t_srtp : PipeTransport :=
  mk_PipeTransport base0 (mk_ListenIp "127.0.0.1" "") false (GetRandomString 30)
    (mk_UdpSocket "127.0.0.1" 40000) None default_remoteAddrStorage None None.

Definition t_plain : PipeTransport :=
  mk_PipeTransport base0 (mk_ListenIp "127.0.0.1" "") false ""
    (mk_UdpSocket "127.0.0.1" 40000) None default_remoteAddrStorage None None.

Definition s_srtp : State := mk_State t_srtp [].

Definition state_after (o : Outcome unit) (s : State) : State :=
  match o with
  | Ret _ s' | Throw _ s' => s'
  | _ => s
  end.

(** [s_srtp] after the connect request of the spec's scenario. *)
Definition s_connected : State :=
  state_after (connect (connect_data 5004 (Some keyX)) s_srtp) s_srtp.

Definition remote (port : Z) : sockaddr :=
  mk_sockaddr AF_INET port (String.list_byte_of_string "127.0.0.1").

(** The tuple that [s_connected] holds. *)
Definition tuple_connected : TransportTuple :=
  mk_TransportTuple (mk_UdpSocket "127.0.0.1" 40000) (remote 0) "" UDP.

(** [s_srtp] with the two sessions of the scenario in place. *)
Definition s_sessions : State :=
  state_after (connect_srtp_sessions (connect_data 5004 (Some keyX)) s_srtp) s_srtp.

Definition rtp_datagram : bytes :=
  (Byte.x80 :: replicate 11 Byte.x01 ++ tag)%list.

Definition sctp_datagram : bytes := replicate 12 Byte.x01.

Definition unknown_datagram : bytes := [Byte.xff; Byte.xff].

(** The socket of the sample transports, and the packets that the sample
    datagrams carry under the ten-byte tag. *)
Definition socket0 : UdpSocket := mk_UdpSocket "127.0.0.1" 40000.

Definition rtp_packet : bytes := Byte.x80 :: replicate 11 Byte.x01.

Definition rtcp_packet : bytes := [Byte.x80; Byte.xc8; Byte.x00; Byte.x01].

Definition rtcp_datagram : bytes := (rtcp_packet ++ tag)%list.

(** The reply of the scenario's connect and the events it leaves. *)
Definition reply_connected : json :=
  JObject (<["tuple" := TransportTuple_FillJson tuple_connected]> ∅).

Definition connect_events : list event := [RequestAccept reply_connected; Connected].

(** The connected sample transport written out, by its two byte counters
    and the number of packets each session has seen. *)
Definition t_ready (received sent protected unprotected : nat) : PipeTransport :=
  mk_PipeTransport (mk_Transport true received sent) (mk_ListenIp "127.0.0.1" "") false
    (GetRandomString 30) socket0 (Some tuple_connected) (remote 0)
    (Some (mk_SrtpSession OUTBOUND (replicate 30 Byte.x6b) protected))
    (Some (mk_SrtpSession INBOUND (replicate 30 Byte.x58) unprotected)).

(** [s_connected], written out. *)
Definition s_ready : State := mk_State (t_ready 0 0 0 0) connect_events.

(** A run of the sample transport: a connect that fails, the connect of
    the scenario, a packet out, its encrypted form back in from port 0,
    SCTP data out, and a datagram of no known type. *)
Definition later_ops : list Op :=
  [OpSendRtpPacket rtp_packet (Some 7);
   OpUdpSocketPacketReceived socket0 rtp_datagram (remote 0);
   OpSendSctpData sctp_datagram;
   OpUdpSocketPacketReceived socket0 unknown_datagram (remote 0)].

Definition sample_ops : list Op :=
  OpHandleRequest (mk_Request TRANSPORT_CONNECT (connect_data 5004 (Some key16)))
  :: OpHandleRequest (mk_Request TRANSPORT_CONNECT (connect_data 5004 (Some keyX)))
  :: later_ops.

Definition later_events : list event :=
  [SessionEncryptRtp rtp_packet; TupleSend tuple_connected rtp_datagram (Some 7);
   DataSent 22;
   DataReceived 22; SessionDecryptSrtp rtp_datagram; RtpParse rtp_packet;
   ReceiveRtpPacket rtp_packet;
   TupleSend tuple_connected sctp_datagram None; DataSent 12;
   DataReceived 2; Log MS_WARN_DEV "ignoring received packet of unknown type"].

(** Where the run ends: 24 bytes received and 34 sent. *)
Definition s_final : State :=
  mk_State (t_ready 24 34 1 1) (connect_events ++ later_events).

(** Calls on the transport before any connect succeeds, and where they
    end. *)
Definition early_ops : list Op :=
  [OpHandleRequest (mk_Request TRANSPORT_CONNECT (connect_data 5004 (Some key16)));
   OpSendRtpPacket rtp_packet (Some 7);
   OpSendSctpData sctp_datagram;
   OpUdpSocketPacketReceived socket0 rtp_datagram (remote 0)].

Definition s_early : State :=
  mk_State (add_received 22 t_srtp) [CallbackInvoked 7 false; DataReceived 22].

(** The states after one datagram of each kind from port 0, and after one
    packet sent. *)
Definition s_rtp_received : State :=
  mk_State (t_ready 22 0 0 1)
    (connect_events
     ++ [DataReceived 22; SessionDecryptSrtp rtp_datagram; RtpParse rtp_packet;
         ReceiveRtpPacket rtp_packet]).

Definition s_rtcp_received : State :=
  mk_State (t_ready 14 0 0 1)
    (connect_events
     ++ [DataReceived 14; SessionDecryptSrtcp rtcp_datagram; RtcpParse rtcp_packet;
         ReceiveRtcpPacket rtcp_packet]).

Definition s_sctp_received : State :=
  mk_State (t_ready 12 0 0 0)
    (connect_events ++ [DataReceived 12; ReceiveSctpData sctp_datagram]).

Definition s_rtp_sent : State :=
  mk_State (t_ready 0 22 1 0)
    (connect_events
     ++ [SessionEncryptRtp rtp_packet; TupleSend tuple_connected rtp_datagram (Some 7);
         DataSent 22]).

(** An object as the parent method may leave it, its description by the
    unconnected sample transport, and an element of a stats array. *)
Definition parent_object : gmap string json := <["id" := JString "pipe-1"]> ∅.

Definition described_early : json :=
  JObject
    (<["tuple" := local_description t_srtp]>
     (<["srtpKey" := JString (GetRandomString 30)]>
      (<["rtx" := JBool false]> parent_object))).

Definition stats_object : gmap string json := <["transportId" := JString "pipe-1"]> ∅.

End Sample.

(** * Properties *)

Section Properties.
Context `{Collab : Collaborators}.

(** ** The monad and the stages of [connect], as equations *)

Lemma bind_eq {A B} (m : M A) (k : A -> M B) s :
  (m ≫= k) s =
  match m s with
  | Ret a s' => k a s'
  | Throw e s' => Throw e s'
  | Abort msg => Abort msg
  | Undefined => Undefined
  end.
Proof. reflexivity. Qed.

Lemma try_catch_eq {A} (body : M A) handler s :
  try_catch body handler s =
  match body s with
  | Throw e s' => if is_MediaSoupError e then handler e s' else Throw e s'
  | o => o
  end.
Proof. reflexivity. Qed.

Ltac msimpl :=
  repeat (rewrite ?bind_eq, ?try_catch_eq;
          unfold when, throw, MS_THROW_ERROR, MS_THROW_TYPE_ERROR, MS_ABORT, undefined,
            this, modify, emit, deref, get_string, call, mret, M_MRet, M_ret;
          simpl).

Lemma connect_ip_eq data0 s :
  connect_ip data0 s =
  match jfind "ip" data0 with
  | Some (JString ip0) =>
    match NormalizeIp ip0 with
    | inr ip1 => Ret ip1 s
    | inl w => Throw (MediaSoupTypeError w) s
    end
  | _ => Throw (MediaSoupTypeError "missing ip") s
  end.
Proof.
  unfold connect_ip. msimpl.
  destruct (jfind "ip" data0) as [[]|]; msimpl; try done.
  destruct (NormalizeIp s0); done.
Qed.

Lemma connect_port_eq data0 s :
  connect_port data0 s =
  match jfind "port" data0 with
  | Some j =>
    if IsPositiveInteger j then Ret () s
    else Throw (MediaSoupTypeError "missing port") s
  | None => Throw (MediaSoupTypeError "missing port") s
  end.
Proof.
  unfold connect_port. msimpl.
  destruct (jfind "port" data0) as [j|]; msimpl; try done.
  destruct (IsPositiveInteger j); done.
Qed.

Lemma connect_srtpKey_presence_eq data0 s :
  connect_srtpKey_presence data0 s =
  if HasSrtp (self s) then
    match jfind "srtpKey" data0 with
    | Some (JString _) => Ret () s
    | _ => Throw (MediaSoupTypeError "missing srtpKey (SRTP enabled locally)") s
    end
  else
    match jfind "srtpKey" data0 with
    | None => Ret () s
    | Some _ => Throw (MediaSoupTypeError "invalid srtpKey (SRTP not enabled locally)") s
    end.
Proof.
  unfold connect_srtpKey_presence. msimpl.
  destruct (HasSrtp (self s)), (jfind "srtpKey" data0) as [[]|]; done.
Qed.

Lemma connect_srtp_sessions_eq data0 s :
  connect_srtp_sessions data0 s =
  if HasSrtp (self s) then
    match jfind "srtpKey" data0 with
    | None => Undefined
    | Some (JString k) =>
      if bool_decide (String.length k = SrtpMasterLength) then
        match SrtpSession_new OUTBOUND SrtpProfile
                (memcpy_c_str (srtpKey (self s)) SrtpMasterLength) SrtpMasterLength with
        | inl w =>
          Throw (MediaSoupError ("error creating SRTP sending session: " ++ w)) s
        | inr snd0 =>
          let s1 := mk_State (set_srtpSendSession (Some snd0) (self s)) (trace s) in
          match SrtpSession_new INBOUND SrtpProfile
                  (memcpy_c_str k SrtpMasterLength) SrtpMasterLength with
          | inl w =>
            Throw (MediaSoupError ("error creating SRTP receiving session: " ++ w)) s1
          | inr rcv0 =>
            Ret () (mk_State (set_srtpRecvSession (Some rcv0) (self s1)) (trace s))
          end
        end
      else Throw (MediaSoupTypeError "invalid srtpKey length") s
    | Some _ => Throw (json_type_error "type must be string") s
    end
  else Ret () s.
Proof.
  unfold connect_srtp_sessions. msimpl.
  destruct (HasSrtp (self s)); [|done].
  destruct (jfind "srtpKey" data0) as [[]|]; msimpl; try done.
  case_bool_decide; msimpl; [|done].
  destruct (SrtpSession_new OUTBOUND _ _ _); msimpl; [done|].
  destruct (SrtpSession_new INBOUND _ _ _); msimpl; done.
Qed.

Lemma connect_remote_address_eq ip0 port s :
  connect_remote_address ip0 port s =
  match GetFamily ip0 with
  | AF_INET =>
    if bool_decide ((uv_ip4_addr ip0 port).1 = 0%Z)
    then Ret () (mk_State (set_remoteAddrStorage (uv_ip4_addr ip0 port).2 (self s)) (trace s))
    else Abort "uv_ip4_addr() failed"
  | AF_INET6 =>
    if bool_decide ((uv_ip6_addr ip0 port).1 = 0%Z)
    then Ret () (mk_State (set_remoteAddrStorage (uv_ip6_addr ip0 port).2 (self s)) (trace s))
    else Abort "uv_ip6_addr() failed"
  | AF_UNSPEC => Throw (MediaSoupError ("invalid IP '" ++ ip0 ++ "'")) s
  end.
Proof.
  unfold connect_remote_address.
  destruct (GetFamily ip0); [| |done].
  - destruct (uv_ip4_addr ip0 port) as [err addr]. msimpl. by case_bool_decide.
  - destruct (uv_ip6_addr ip0 port) as [err addr]. msimpl. by case_bool_decide.
Qed.

Lemma connect_tuple_eq s :
  connect_tuple s = Ret () (mk_State (set_tuple (Some (new_tuple (self s))) (self s)) (trace s)).
Proof.
  unfold connect_tuple. msimpl. case_bool_decide as E; msimpl; [|done].
  unfold new_tuple. by rewrite E.
Qed.

Lemma rolled_back_unpaired t :
  tuple t = None -> srtpSendSession t = None -> srtpRecvSession t = None ->
  rolled_back t = t.
Proof. destruct t; simpl; intros -> -> ->; reflexivity. Qed.

(** [connect] on a transport without a tuple: the outer [try], then either
    the rollback handler or the reply. *)
Lemma connect_unconnected_eq data0 s :
  tuple (self s) = None ->
  connect data0 s =
  match connect_try data0 s with
  | Ret _ s1 =>
    match tuple (self s1) with
    | Some tuple0 =>
      Ret () (mk_State (set_connected (self s1))
                (trace s1 ++ [RequestAccept
                                (JObject (<["tuple" := TransportTuple_FillJson tuple0]> ∅));
                              Connected]))
    | None => Undefined
    end
  | Throw e s1 =>
    if is_MediaSoupError e
    then Throw e (mk_State (rolled_back (self s1)) (trace s1))
    else Throw e s1
  | Abort msg => Abort msg
  | Undefined => Undefined
  end.
Proof.
  intros Hnone. unfold connect. msimpl. rewrite Hnone. msimpl.
  destruct (connect_try data0 s) as [[] s1|e s1| |]; try done.
  - msimpl. destruct (tuple (self s1)); msimpl; [|done].
    unfold Transport_Connected. msimpl. by rewrite <- app_assoc.
  - unfold connect_catch. destruct (is_MediaSoupError e); done.
Qed.

(** The outcomes of the outer [try]. *)
Lemma connect_try_cases data0 s :
  match connect_try data0 s with
  | Ret _ s1 =>
    trace s1 = trace s
    /\ (exists ip0 ip1 addr,
          jfind "ip" data0 = Some (JString ip0) /\ NormalizeIp ip0 = inr ip1
          /\ (addr = (uv_ip4_addr ip1 0).2 \/ addr = (uv_ip6_addr ip1 0).2)
          /\ remoteAddrStorage (self s1) = addr
          /\ tuple (self s1) = Some (new_tuple (self s1)))
    /\ base (self s1) = base (self s)
    /\ listenIp (self s1) = listenIp (self s)
    /\ rtx (self s1) = rtx (self s)
    /\ srtpKey (self s1) = srtpKey (self s)
    /\ udpSocket (self s1) = udpSocket (self s)
    /\ (if HasSrtp (self s)
        then is_Some (srtpSendSession (self s1)) /\ is_Some (srtpRecvSession (self s1))
        else srtpSendSession (self s1) = srtpSendSession (self s)
             /\ srtpRecvSession (self s1) = srtpRecvSession (self s))
  | Throw e s1 =>
    is_MediaSoupError e = true
    /\ trace s1 = trace s
    /\ rolled_back (self s1) = rolled_back (self s)
  | Abort _ => True
  | Undefined => False
  end.
Proof.
  unfold connect_try.
  rewrite bind_eq, connect_ip_eq.
  destruct (jfind "ip" data0) as [[| | | |ip0| |]|] eqn:Hip; try done.
  destruct (NormalizeIp ip0) as [w|ip1] eqn:Hnorm; [done|].
  rewrite bind_eq, connect_port_eq.
  destruct (jfind "port" data0) as [j|]; [|done].
  destruct (IsPositiveInteger j); [|done].
  rewrite bind_eq, connect_srtpKey_presence_eq.
  destruct (HasSrtp (self s)) eqn:Hsrtp.
  - destruct (jfind "srtpKey" data0) as [[| | | |k| |]|] eqn:Hkey; try done.
    rewrite bind_eq, connect_srtp_sessions_eq, Hsrtp, Hkey.
    case_bool_decide; [|done].
    destruct (SrtpSession_new OUTBOUND _ _ _) as [w|snd0]; [done|].
    destruct (SrtpSession_new INBOUND _ _ _) as [w|rcv0]; [done|].
    lazy beta iota zeta. rewrite bind_eq, connect_remote_address_eq.
    destruct (GetFamily ip1); [| |done]; (case_bool_decide; [|done]);
      rewrite connect_tuple_eq; simpl;
      (split; [done|]); (split; [|done]); exists ip0, ip1; eauto 10.
  - destruct (jfind "srtpKey" data0) eqn:Hkey; [done|].
    rewrite bind_eq, connect_srtp_sessions_eq, Hsrtp.
    lazy beta iota zeta. rewrite bind_eq, connect_remote_address_eq.
    destruct (GetFamily ip1); [| |done]; (case_bool_decide; [|done]);
      rewrite connect_tuple_eq; simpl;
      (split; [done|]); (split; [|done]); exists ip0, ip1; eauto 10.
Qed.

Lemma uv_ip4_addr_port ip0 port : sa_port (uv_ip4_addr ip0 port).2 = port.
Proof. unfold uv_ip4_addr. by destruct (uv_inet_pton AF_INET ip0). Qed.

Lemma uv_ip6_addr_port ip0 port : sa_port (uv_ip6_addr ip0 port).2 = port.
Proof. unfold uv_ip6_addr. by destruct (uv_inet_pton AF_INET6 ip0). Qed.

Lemma connect_connected_eq data0 s tuple0 :
  tuple (self s) = Some tuple0 ->
  connect data0 s = Throw (MediaSoupError "connect() already called") s.
Proof. intros Hsome. unfold connect. msimpl. by rewrite Hsome. Qed.

(** Whatever port the request carries, a successful [connect] installs and
    reports a tuple whose remote port is the initial value of [port]. *)
Lemma connect_installs_port_zero data0 s s' :
  connect data0 s = Ret () s' ->
  exists tuple0,
    tuple (self s') = Some tuple0
    /\ sa_port (tt_remoteAddr tuple0) = 0%Z
    /\ trace s' =
       (trace s ++ [RequestAccept
                      (JObject (<["tuple" := TransportTuple_FillJson tuple0]> ∅));
                    Connected])%list.
Proof.
  destruct (tuple (self s)) as [tuple0|] eqn:Htuple.
  { by rewrite (connect_connected_eq _ _ _ Htuple). }
  rewrite (connect_unconnected_eq _ _ Htuple).
  pose proof (connect_try_cases data0 s) as Hcases.
  destruct (connect_try data0 s) as [[] s1|e s1| |]; try done.
  - destruct Hcases as (Htr & (ip0 & ip1 & addr & _ & _ & Haddr & Hstore & Hnew) & _).
    rewrite Hnew. intros [= <-]. exists (new_tuple (self s1)). simpl.
    split; [done|]. split; [|by rewrite Htr].
    rewrite Hstore. destruct Haddr as [-> | ->];
      [apply uv_ip4_addr_port | apply uv_ip6_addr_port].
  - by destruct (is_MediaSoupError e).
Qed.

(** ** Repeated connect *)

(** C3.  On a transport that already has its tuple, a connect request
    throws the MediaSoupError "connect() already called" (the spec's
    StateError), and the object and the trace of calls are exactly what they
    were: tuple, sessions, counters and every other field unchanged. *)
Theorem connect_again_fails_unchanged s data0 tuple0 :
  tuple (self s) = Some tuple0 ->
  HandleRequest (mk_Request TRANSPORT_CONNECT data0) s =
  Throw (MediaSoupError "connect() already called") s.
Proof. intros Hsome. simpl. by apply connect_connected_eq with tuple0. Qed.

(** ** Validation of srtpKey *)

(** C4.  On an unconnected transport, for a request whose ip and port pass
    their checks, connect throws a MediaSoupTypeError (the spec's
    ValidationError) exactly when srtpKey mismatches the local protection
    state: SRTP enabled and the key absent or not a string, SRTP disabled
    and the key present, or a key whose length is not 30. *)
Theorem connect_srtpKey_validation s data0 ip1 :
  tuple (self s) = None ->
  connect_ip data0 s = Ret ip1 s ->
  connect_port data0 s = Ret () s ->
  (exists w s', connect data0 s = Throw (MediaSoupTypeError w) s')
  <-> srtpKey_mismatch (self s) data0.
Proof.
  intros Hnone Hip Hport.
  rewrite (connect_unconnected_eq _ _ Hnone).
  unfold connect_try, srtpKey_mismatch.
  rewrite bind_eq, Hip. lazy beta iota zeta.
  rewrite bind_eq, Hport. lazy beta iota zeta.
  rewrite bind_eq, connect_srtpKey_presence_eq.
  destruct (HasSrtp (self s)) eqn:Hsrtp.
  - destruct (jfind "srtpKey" data0) as [j|] eqn:Hkey.
    + destruct j as [| | | |k| |];
        try solve [simpl; split;
                   [intros _; left; split; [done|]; right; by eauto | by eauto]].
      rewrite bind_eq, connect_srtp_sessions_eq, Hsrtp, Hkey.
      case_bool_decide as Hlen.
      * split.
        -- intros (w & s' & Hthrow). exfalso.
           destruct (SrtpSession_new OUTBOUND _ _ _) as [?|snd0]; [done|].
           destruct (SrtpSession_new INBOUND _ _ _) as [?|rcv0]; [done|].
           lazy beta iota zeta in Hthrow.
           rewrite bind_eq, connect_remote_address_eq in Hthrow.
           destruct (GetFamily ip1); [| |done];
             (case_bool_decide; [|done]);
             rewrite connect_tuple_eq in Hthrow; done.
        -- intros [(_ & [? | (j & ? & Hj)]) | [(? & _) | (k' & ? & ?)]];
             simplify_eq/=.
      * simpl. split; [|eauto]. intros _. right; right. eauto.
    + simpl. split; [|eauto]. intros _. left. eauto.
  - destruct (jfind "srtpKey" data0) as [j|] eqn:Hkey.
    + simpl. split; [|eauto]. intros _. right; left. done.
    + rewrite bind_eq, connect_srtp_sessions_eq, Hsrtp. lazy beta iota zeta.
      rewrite bind_eq, connect_remote_address_eq.
      split.
      * intros (w & s' & Hthrow). exfalso.
        destruct (GetFamily ip1); [| |done];
          (case_bool_decide; [|done]);
          rewrite connect_tuple_eq in Hthrow; done.
      * intros [(? & _) | [(_ & ?) | (k' & ? & _)]]; simplify_eq/=.
Qed.

(** ** The pipelines, as equations *)

Lemma State_eta s : mk_State (self s) (trace s) = s.
Proof. by destruct s. Qed.

Lemma IsConnected_None t : tuple t = None -> IsConnected t = false.
Proof. unfold IsConnected. intros ->. apply bool_decide_eq_false_2. by intros H. Qed.

Lemma IsConnected_Some t tuple0 : tuple t = Some tuple0 -> IsConnected t = true.
Proof. unfold IsConnected. intros ->. by apply bool_decide_eq_true_2. Qed.

Lemma SendRtpPacket_eq packet cb s :
  SendRtpPacket packet cb s =
  match tuple (self s) with
  | None => Ret () (mk_State (self s) (trace s ++ cb_false_events cb))
  | Some tuple0 =>
    let data := RtpPacket_GetData packet in
    if HasSrtp (self s) then
      match srtpSendSession (self s) with
      | None => Undefined
      | Some session =>
        let t1 := set_srtpSendSession (Some (EncryptRtp session data).1) (self s) in
        match (EncryptRtp session data).2 with
        | None =>
          Ret () (mk_State t1 (trace s ++ SessionEncryptRtp data :: cb_false_events cb))
        | Some data' =>
          Ret () (mk_State (add_sent (length data') t1)
                    (trace s ++ [SessionEncryptRtp data; TupleSend tuple0 data' cb;
                                 DataSent (length data')]))
        end
      end
    else
      Ret () (mk_State (add_sent (length data) (self s))
                (trace s ++ [TupleSend tuple0 data cb; DataSent (length data)]))
  end.
Proof.
  unfold SendRtpPacket, cb_false, Transport_DataSent. msimpl.
  destruct (tuple (self s)) as [tuple0|] eqn:Htuple.
  - rewrite (IsConnected_Some _ _ Htuple). msimpl.
    destruct (HasSrtp (self s)); msimpl.
    + destruct (srtpSendSession (self s)) as [session|]; msimpl; [|done].
      destruct (EncryptRtp session _) as [session' [data'|]]; msimpl.
      * by rewrite <- !app_assoc.
      * destruct cb; msimpl; by rewrite <- ?app_assoc.
    + by rewrite <- !app_assoc.
  - rewrite (IsConnected_None _ Htuple). msimpl.
    destruct cb; msimpl; by rewrite ?app_nil_r, ?State_eta.
Qed.

Lemma SendRtcpData_eq data0 s :
  SendRtcpData data0 s =
  match tuple (self s) with
  | None => Ret () s
  | Some tuple0 =>
    if HasSrtp (self s) then
      match srtpSendSession (self s) with
      | None => Undefined
      | Some session =>
        let t1 := set_srtpSendSession (Some (EncryptRtcp session data0).1) (self s) in
        match (EncryptRtcp session data0).2 with
        | None => Ret () (mk_State t1 (trace s ++ [SessionEncryptRtcp data0]))
        | Some data' =>
          Ret () (mk_State (add_sent (length data') t1)
                    (trace s ++ [SessionEncryptRtcp data0; TupleSend tuple0 data' None;
                                 DataSent (length data')]))
        end
      end
    else
      Ret () (mk_State (add_sent (length data0) (self s))
                (trace s ++ [TupleSend tuple0 data0 None; DataSent (length data0)]))
  end.
Proof.
  unfold SendRtcpData, Transport_DataSent. msimpl.
  destruct (tuple (self s)) as [tuple0|] eqn:Htuple.
  - rewrite (IsConnected_Some _ _ Htuple). msimpl.
    destruct (HasSrtp (self s)); msimpl.
    + destruct (srtpSendSession (self s)) as [session|]; msimpl; [|done].
      destruct (EncryptRtcp session _) as [session' [data'|]]; msimpl; [|done].
      by rewrite <- !app_assoc.
    + by rewrite <- !app_assoc.
  - by rewrite (IsConnected_None _ Htuple).
Qed.

Lemma SendSctpData_eq data0 s :
  SendSctpData data0 s =
  match tuple (self s) with
  | None => Ret () s
  | Some tuple0 =>
    Ret () (mk_State (add_sent (length data0) (self s))
              (trace s ++ [TupleSend tuple0 data0 None; DataSent (length data0)]))
  end.
Proof.
  unfold SendSctpData, Transport_DataSent. msimpl.
  destruct (tuple (self s)) as [tuple0|] eqn:Htuple.
  - rewrite (IsConnected_Some _ _ Htuple). msimpl. by rewrite <- !app_assoc.
  - by rewrite (IsConnected_None _ Htuple).
Qed.

Lemma OnRtpDataReceived_eq tuple0 data0 s :
  OnRtpDataReceived tuple0 data0 s =
  match tuple (self s) with
  | None => Ret () s
  | Some mine =>
    if Compare mine tuple0 then
      if HasSrtp (self s) then
        match srtpRecvSession (self s) with
        | None => Undefined
        | Some session =>
          let '(session', data', ok) := DecryptSrtp session data0 in
          let t1 := set_srtpRecvSession (Some session') (self s) in
          Ret () (mk_State t1
                    (trace s ++ [SessionDecryptSrtp data0; RtpParse data';
                       match RtpPacket_Parse data', ok with
                       | None, false =>
                         Log MS_WARN_TAG "DecryptSrtp() failed due to an invalid RTP packet"
                       | Some packet, false => LogDecryptSrtpFailed packet
                       | None, true => Log MS_WARN_TAG "received data is not a valid RTP packet"
                       | Some packet, true => ReceiveRtpPacket packet
                       end]))
        end
      else
        Ret () (mk_State (self s)
                  (trace s ++ [RtpParse data0;
                     match RtpPacket_Parse data0 with
                     | None => Log MS_WARN_TAG "received data is not a valid RTP packet"
                     | Some packet => ReceiveRtpPacket packet
                     end]))
    else
      Ret () (mk_State (self s)
                (trace s ++ [Log MS_DEBUG_TAG "ignoring RTP packet from unknown IP:port"]))
  end.
Proof.
  unfold OnRtpDataReceived. msimpl.
  destruct (tuple (self s)) as [mine|] eqn:Htuple.
  - rewrite (IsConnected_Some _ _ Htuple). msimpl.
    destruct (Compare mine tuple0); msimpl; [|done].
    destruct (HasSrtp (self s)); msimpl.
    + destruct (srtpRecvSession (self s)) as [session|]; msimpl; [|done].
      destruct (DecryptSrtp session data0) as [[session' data'] [|]]; msimpl;
        destruct (RtpPacket_Parse data'); msimpl; by rewrite <- !app_assoc.
    + destruct (RtpPacket_Parse data0); msimpl; by rewrite <- !app_assoc.
  - by rewrite (IsConnected_None _ Htuple).
Qed.

Lemma OnRtcpDataReceived_eq tuple0 data0 s :
  OnRtcpDataReceived tuple0 data0 s =
  match tuple (self s) with
  | None => Ret () s
  | Some mine =>
    if Compare mine tuple0 then
      if HasSrtp (self s) then
        match srtpRecvSession (self s) with
        | None => Undefined
        | Some session =>
          let '(session', data', ok) := DecryptSrtcp session data0 in
          let t1 := set_srtpRecvSession (Some session') (self s) in
          Ret () (mk_State t1
                    (trace s ++ SessionDecryptSrtcp data0 ::
                       if ok then
                         [RtcpParse data';
                          match RtcpPacket_Parse data' with
                          | None =>
                            Log MS_WARN_TAG
                              "received data is not a valid RTCP compound or single packet"
                          | Some packet => ReceiveRtcpPacket packet
                          end]
                       else []))
        end
      else
        Ret () (mk_State (self s)
                  (trace s ++ [RtcpParse data0;
                     match RtcpPacket_Parse data0 with
                     | None =>
                       Log MS_WARN_TAG
                         "received data is not a valid RTCP compound or single packet"
                     | Some packet => ReceiveRtcpPacket packet
                     end]))
    else
      Ret () (mk_State (self s)
                (trace s ++ [Log MS_DEBUG_TAG "ignoring RTCP packet from unknown IP:port"]))
  end.
Proof.
  unfold OnRtcpDataReceived. msimpl.
  destruct (tuple (self s)) as [mine|] eqn:Htuple.
  - rewrite (IsConnected_Some _ _ Htuple). msimpl.
    destruct (Compare mine tuple0); msimpl; [|done].
    destruct (HasSrtp (self s)); msimpl.
    + destruct (srtpRecvSession (self s)) as [session|]; msimpl; [|done].
      destruct (DecryptSrtcp session data0) as [[session' data'] [|]]; msimpl;
        [|done].
      destruct (RtcpPacket_Parse data'); msimpl; by rewrite <- !app_assoc.
    + destruct (RtcpPacket_Parse data0); msimpl; by rewrite <- !app_assoc.
  - by rewrite (IsConnected_None _ Htuple).
Qed.

Lemma OnSctpDataReceived_eq tuple0 data0 s :
  OnSctpDataReceived tuple0 data0 s =
  match tuple (self s) with
  | None => Ret () s
  | Some mine =>
    if Compare mine tuple0
    then Ret () (mk_State (self s) (trace s ++ [ReceiveSctpData data0]))
    else
      Ret () (mk_State (self s)
                (trace s ++ [Log MS_DEBUG_TAG "ignoring SCTP packet from unknown IP:port"]))
  end.
Proof.
  unfold OnSctpDataReceived. msimpl.
  destruct (tuple (self s)) as [mine|] eqn:Htuple.
  - rewrite (IsConnected_Some _ _ Htuple). msimpl.
    by destruct (Compare mine tuple0).
  - by rewrite (IsConnected_None _ Htuple).
Qed.

Lemma OnPacketReceived_eq tuple0 data0 s :
  OnPacketReceived tuple0 data0 s =
  let s1 := mk_State (add_received (length data0) (self s))
              (trace s ++ [DataReceived (length data0)]) in
  if IsRtcp data0 then OnRtcpDataReceived tuple0 data0 s1
  else if IsRtp data0 then OnRtpDataReceived tuple0 data0 s1
  else if IsSctp data0 then OnSctpDataReceived tuple0 data0 s1
  else Ret () (mk_State (self s1)
                 (trace s1 ++ [Log MS_WARN_DEV "ignoring received packet of unknown type"])).
Proof.
  unfold OnPacketReceived, Transport_DataReceived.
  rewrite bind_eq. msimpl.
  destruct (IsRtcp data0); [done|]. destruct (IsRtp data0); [done|].
  by destruct (IsSctp data0).
Qed.

(** ** Sends and receives keep the shape of the object *)

Lemma same_shape_refl t : same_shape t t.
Proof. by repeat split. Qed.

Lemma same_shape_paired t t' :
  same_shape t t' -> sessions_paired t -> sessions_paired t'.
Proof.
  unfold same_shape, sessions_paired, IsConnected, HasSrtp.
  intros (-> & -> & -> & ->). done.
Qed.

Lemma unpaired_send t tuple0 :
  tuple t = Some tuple0 -> HasSrtp t = true -> srtpSendSession t = None ->
  ~ sessions_paired t.
Proof.
  intros Htuple Hsrtp Hnone [Hsend _]. rewrite Hnone in Hsend.
  destruct Hsend as [_ Hsend].
  by destruct Hsend as [? ?]; [eauto using IsConnected_Some|].
Qed.

Lemma unpaired_recv t tuple0 :
  tuple t = Some tuple0 -> HasSrtp t = true -> srtpRecvSession t = None ->
  ~ sessions_paired t.
Proof.
  intros Htuple Hsrtp Hnone [_ Hrecv]. rewrite Hnone in Hrecv.
  destruct Hrecv as [_ Hrecv].
  by destruct Hrecv as [? ?]; [eauto using IsConnected_Some|].
Qed.

Local Ltac steady_Ret :=
  simpl; split; [by repeat split | split; [simpl; lia | by eauto]].

Lemma SendRtpPacket_steady packet cb s : steady s (SendRtpPacket packet cb s).
Proof.
  rewrite SendRtpPacket_eq.
  destruct (tuple (self s)) as [tuple0|] eqn:Htuple; [|steady_Ret].
  lazy zeta. destruct (HasSrtp (self s)) eqn:Hsrtp; [|steady_Ret].
  destruct (srtpSendSession (self s)) as [session|] eqn:Hsend.
  - destruct (EncryptRtp session _).2;
      (simpl; split; [|split; [simpl; lia | by eauto]]);
      (repeat split; simpl; try done; rewrite ?Hsend; by eauto).
  - simpl. by eapply unpaired_send.
Qed.

Lemma SendRtcpData_steady data0 s : steady s (SendRtcpData data0 s).
Proof.
  rewrite SendRtcpData_eq.
  destruct (tuple (self s)) as [tuple0|] eqn:Htuple.
  2:{ simpl. split; [apply same_shape_refl|]. split; [lia|]. exists []. by rewrite app_nil_r. }
  destruct (HasSrtp (self s)) eqn:Hsrtp; [|steady_Ret].
  destruct (srtpSendSession (self s)) as [session|] eqn:Hsend.
  - lazy zeta. destruct (EncryptRtcp session _).2;
      (simpl; split; [|split; [simpl; lia | by eauto]]);
      (repeat split; simpl; try done; rewrite ?Hsend; by eauto).
  - simpl. by eapply unpaired_send.
Qed.

Lemma SendSctpData_steady data0 s : steady s (SendSctpData data0 s).
Proof.
  rewrite SendSctpData_eq.
  destruct (tuple (self s)) as [tuple0|] eqn:Htuple; [steady_Ret|].
  simpl. split; [apply same_shape_refl|]. split; [lia|]. exists []. by rewrite app_nil_r.
Qed.

Lemma OnRtpDataReceived_steady tuple0 data0 s :
  steady s (OnRtpDataReceived tuple0 data0 s).
Proof.
  rewrite OnRtpDataReceived_eq.
  destruct (tuple (self s)) as [mine|] eqn:Htuple.
  2:{ simpl. split; [apply same_shape_refl|]. split; [lia|]. exists []. by rewrite app_nil_r. }
  destruct (Compare mine tuple0); [|steady_Ret].
  destruct (HasSrtp (self s)) eqn:Hsrtp; [|steady_Ret].
  destruct (srtpRecvSession (self s)) as [session|] eqn:Hrecv.
  - destruct (DecryptSrtp session data0) as [[session' data'] ok].
    simpl. split; [|split; [simpl; lia | by eauto]].
    repeat split; simpl; try done; rewrite ?Hrecv; by eauto.
  - simpl. by eapply unpaired_recv.
Qed.

Lemma OnRtcpDataReceived_steady tuple0 data0 s :
  steady s (OnRtcpDataReceived tuple0 data0 s).
Proof.
  rewrite OnRtcpDataReceived_eq.
  destruct (tuple (self s)) as [mine|] eqn:Htuple.
  2:{ simpl. split; [apply same_shape_refl|]. split; [lia|]. exists []. by rewrite app_nil_r. }
  destruct (Compare mine tuple0); [|steady_Ret].
  destruct (HasSrtp (self s)) eqn:Hsrtp; [|steady_Ret].
  destruct (srtpRecvSession (self s)) as [session|] eqn:Hrecv.
  - destruct (DecryptSrtcp session data0) as [[session' data'] ok].
    simpl. split; [|split; [simpl; lia | by eauto]].
    repeat split; simpl; try done; rewrite ?Hrecv; by eauto.
  - simpl. by eapply unpaired_recv.
Qed.

Lemma OnSctpDataReceived_steady tuple0 data0 s :
  steady s (OnSctpDataReceived tuple0 data0 s).
Proof.
  rewrite OnSctpDataReceived_eq.
  destruct (tuple (self s)) as [mine|] eqn:Htuple.
  2:{ simpl. split; [apply same_shape_refl|]. split; [lia|]. exists []. by rewrite app_nil_r. }
  destruct (Compare mine tuple0); steady_Ret.
Qed.

(** A handler that is steady from the state after [DataReceived] is steady
    from the state before it. *)
Lemma steady_after_DataReceived len s o :
  steady (mk_State (add_received len (self s)) (trace s ++ [DataReceived len])) o ->
  steady s o.
Proof.
  destruct o as [[] s'|e s'|msg|]; simpl; try done.
  intros (Hshape & Hrecv & evs & Htrace). split; [done|]. split; [lia|].
  exists (DataReceived len :: evs). by rewrite Htrace, <- app_assoc.
Qed.

Lemma OnPacketReceived_steady tuple0 data0 s :
  steady s (OnPacketReceived tuple0 data0 s).
Proof.
  rewrite OnPacketReceived_eq. lazy zeta.
  apply steady_after_DataReceived with (length data0).
  destruct (IsRtcp data0); [apply OnRtcpDataReceived_steady|].
  destruct (IsRtp data0); [apply OnRtpDataReceived_steady|].
  destruct (IsSctp data0); [apply OnSctpDataReceived_steady|].
  steady_Ret.
Qed.

(** ** Failure atomicity of connect *)

Lemma rolled_back_paired t : sessions_paired (rolled_back t).
Proof.
  unfold sessions_paired. simpl. rewrite (IsConnected_None (rolled_back t)) by done.
  split; (split; [by intros [? ?] | by intros [? ?]]).
Qed.

Lemma connect_throw_unconnected data0 s e s' :
  tuple (self s) = None ->
  connect data0 s = Throw e s' ->
  is_MediaSoupError e = true /\ s' = mk_State (rolled_back (self s)) (trace s).
Proof.
  intros Hnone. rewrite (connect_unconnected_eq _ _ Hnone).
  pose proof (connect_try_cases data0 s) as Hcases.
  destruct (connect_try data0 s) as [[] s1|e1 s1| |]; try done.
  - by destruct (tuple (self s1)).
  - destruct Hcases as (He & Htr & Hback). rewrite He, Htr, Hback.
    by intros [= -> <-].
Qed.

Lemma connect_paired data0 s :
  sessions_paired (self s) ->
  match connect data0 s with
  | Ret _ s' | Throw _ s' => sessions_paired (self s')
  | _ => True
  end.
Proof.
  intros Hpaired.
  destruct (tuple (self s)) as [tuple0|] eqn:Htuple.
  { by rewrite (connect_connected_eq _ _ _ Htuple). }
  destruct (connect data0 s) as [[] s'|e s'| |] eqn:Hconnect; try done.
  - rewrite (connect_unconnected_eq _ _ Htuple) in Hconnect.
    pose proof (connect_try_cases data0 s) as Hcases.
    destruct (connect_try data0 s) as [[] s1|e1 s1| |]; try done.
    2:{ by destruct (is_MediaSoupError e1). }
    destruct Hcases as (_ & (_ & _ & _ & _ & _ & _ & _ & Hnew) & _ & _ & _ & Hkey & _ & Hsess).
    rewrite Hnew in Hconnect. injection Hconnect as <-.
    destruct Hpaired as [Hsend Hrecv].
    rewrite (IsConnected_None _ Htuple) in Hsend, Hrecv.
    unfold sessions_paired. simpl.
    assert (IsConnected (set_connected (self s1)) = true) as ->
      by (by eapply IsConnected_Some).
    assert (HasSrtp (set_connected (self s1)) = HasSrtp (self s)) as ->
      by (unfold HasSrtp; simpl; by rewrite Hkey).
    destruct (HasSrtp (self s)).
    + destruct Hsess as [? ?]. done.
    + destruct Hsess as [-> ->]. rewrite Hsend, Hrecv.
      split; (split; [by intros [? ?] | by intros [? ?]]).
  - apply connect_throw_unconnected in Hconnect as [_ ->]; [|done].
    apply rolled_back_paired.
Qed.

Lemma steady_paired s o :
  steady s o -> sessions_paired (self s) ->
  match o with
  | Ret _ s' | Throw _ s' => sessions_paired (self s')
  | _ => True
  end.
Proof.
  destruct o as [[] s'|e s'|msg|]; simpl; try done.
  intros (Hshape & _) Hpaired. by eapply same_shape_paired.
Qed.

Lemma run_paired op s :
  sessions_paired (self s) ->
  match run op s with
  | Ret _ s' | Throw _ s' => sessions_paired (self s')
  | _ => True
  end.
Proof.
  intros Hpaired. destruct op as [[[|name] data0]| | | | |]; simpl.
  - by apply connect_paired.
  - done.
  - apply (steady_paired s); [apply SendRtpPacket_steady | done].
  - apply (steady_paired s); [apply SendRtcpData_steady | done].
  - apply (steady_paired s); [apply SendRtcpData_steady | done].
  - apply (steady_paired s); [apply SendSctpData_steady | done].
  - apply (steady_paired s); [apply OnPacketReceived_steady | done].
Qed.

Lemma PipeTransport_new_fresh base0 data0 t :
  PipeTransport_new base0 data0 = inr t ->
  tuple t = None /\ srtpSendSession t = None /\ srtpRecvSession t = None.
Proof.
  unfold PipeTransport_new. intros Hnew.
  destruct (jfind "listenIp" data0) as [jsonListenIp|]; [|done].
  destruct (negb (is_object jsonListenIp)); [done|].
  destruct (jfind "ip" jsonListenIp) as [[| | | |ip0| |]|]; try done.
  destruct (NormalizeIp ip0); [done|].
  destruct (jfind "announcedIp" jsonListenIp) as [[| | | |a| |]|]; try done;
    (destruct (UdpSocket_new _); [done|]); by simplify_eq/=.
Qed.

Lemma reachable_paired s : reachable s -> sessions_paired (self s).
Proof.
  induction 1 as [base0 data0 t Hnew|op s s' _ IH Hrun|op s e s' _ IH Hrun].
  - apply PipeTransport_new_fresh in Hnew as (Htuple & Hsend & Hrecv).
    rewrite <- (rolled_back_unpaired t) by done. apply rolled_back_paired.
  - pose proof (run_paired op s IH) as Hstep. by rewrite Hrun in Hstep.
  - pose proof (run_paired op s IH) as Hstep. by rewrite Hrun in Hstep.
Qed.

(** C2, as amended.  A connect call on an unconnected transport that throws
    (a validation failure, a failure to create either SRTP session, an ip
    of no family) throws a MediaSoupError and leaves both sessions and the
    tuple absent, the transport unconnected, and every other field and the
    trace as they were; where the sessions were paired before the call the
    state is exactly the one before it, so that any later connect behaves
    as if the failed one had not happened.  A repeated call, on a transport
    that has its tuple, throws and changes nothing: the tuple stays.
    Between calls, the sending and the receiving session are both present
    or both absent. *)
Theorem connect_failure_leaves_no_residue :
  (forall s data0 e s',
     tuple (self s) = None ->
     connect data0 s = Throw e s' ->
     is_MediaSoupError e = true
     /\ srtpSendSession (self s') = None
     /\ srtpRecvSession (self s') = None
     /\ tuple (self s') = None
     /\ IsConnected (self s') = false
     /\ s' = mk_State (rolled_back (self s)) (trace s)
     /\ (sessions_paired (self s) ->
         s' = s /\ forall data1, connect data1 s' = connect data1 s))
  /\ (forall s data0 tuple0,
       tuple (self s) = Some tuple0 ->
       connect data0 s = Throw (MediaSoupError "connect() already called") s)
  /\ (forall s,
       reachable s ->
       is_Some (srtpSendSession (self s)) <-> is_Some (srtpRecvSession (self s))).
Proof.
  split; [|split].
  - intros s data0 e s' Hnone Hthrow.
    apply connect_throw_unconnected in Hthrow as [He ->]; [|done].
    do 4 (split; [done|]). split; [by apply IsConnected_None|]. split; [done|].
    intros [Hsend Hrecv].
    rewrite (IsConnected_None _ Hnone) in Hsend, Hrecv.
    assert (rolled_back (self s) = self s) as ->.
    { apply rolled_back_unpaired; [done| |].
      - destruct (srtpSendSession (self s)) eqn:E; [|done].
        by destruct (proj1 Hsend (mk_is_Some _ _ eq_refl)).
      - destruct (srtpRecvSession (self s)) eqn:E; [|done].
        by destruct (proj1 Hrecv (mk_is_Some _ _ eq_refl)). }
    by rewrite State_eta.
  - intros s data0 tuple0. apply connect_connected_eq.
  - intros s Hreach. destruct (reachable_paired s Hreach) as [-> ->]. done.
Qed.

(** ** Inbound datagrams *)

Lemma inbound_handlers_keep_base tuple0 data0 s s' :
  OnRtcpDataReceived tuple0 data0 s = Ret () s'
  \/ OnRtpDataReceived tuple0 data0 s = Ret () s'
  \/ OnSctpDataReceived tuple0 data0 s = Ret () s' ->
  base (self s') = base (self s).
Proof.
  rewrite OnRtcpDataReceived_eq, OnRtpDataReceived_eq, OnSctpDataReceived_eq.
  destruct (tuple (self s)) as [mine|]; [|by intros [[= <-] | [[= <-] | [= <-]]]].
  destruct (Compare mine tuple0); [|by intros [[= <-] | [[= <-] | [= <-]]]].
  destruct (HasSrtp (self s)); [|by intros [[= <-] | [[= <-] | [= <-]]]].
  destruct (srtpRecvSession (self s)) as [session|].
  - destruct (DecryptSrtcp session data0) as [[? ?] ?].
    destruct (DecryptSrtp session data0) as [[? ?] ?].
    by intros [[= <-] | [[= <-] | [= <-]]].
  - by intros [? | [? | [= <-]]].
Qed.

(** C5.  [OnPacketReceived] first adds the length of the datagram to the
    received-bytes counter, in every state of the connection, and only then
    classifies: RTCP before RTP before SCTP, the first classifier that
    matches choosing the handler.  Whatever the handler does, the counter
    ends at its old value plus the length, the sent-bytes counter is
    untouched and the call to [DataReceived] is the first of the new
    events.  A datagram that matches no classifier is dropped with the
    MS_WARN_DEV log line as the only further event. *)
Theorem OnPacketReceived_counts_then_classifies tuple0 data0 s :
  let len := length data0 in
  let s1 := mk_State (add_received len (self s)) (trace s ++ [DataReceived len]) in
  OnPacketReceived tuple0 data0 s =
    (if IsRtcp data0 then OnRtcpDataReceived tuple0 data0 s1
     else if IsRtp data0 then OnRtpDataReceived tuple0 data0 s1
     else if IsSctp data0 then OnSctpDataReceived tuple0 data0 s1
     else Ret () (mk_State (add_received len (self s))
                    (trace s ++ [DataReceived len;
                                 Log MS_WARN_DEV "ignoring received packet of unknown type"])))
  /\ (forall s',
        OnPacketReceived tuple0 data0 s = Ret () s' ->
        recvTransmission (base (self s')) = recvTransmission (base (self s)) + len
        /\ sendTransmission (base (self s')) = sendTransmission (base (self s))
        /\ exists rest, trace s' = (trace s ++ DataReceived len :: rest)%list)
  /\ (forall e s', OnPacketReceived tuple0 data0 s <> Throw e s')
  /\ (forall msg, OnPacketReceived tuple0 data0 s <> Abort msg)
  /\ (sessions_paired (self s) ->
      exists s', OnPacketReceived tuple0 data0 s = Ret () s').
Proof.
  intros len s1.
  pose proof (OnPacketReceived_steady tuple0 data0 s) as Hsteady.
  pose proof (OnPacketReceived_eq tuple0 data0 s) as Heq.
  fold len s1 in Heq. lazy zeta in Heq.
  split; [|split; [|split; [|split]]].
  - rewrite Heq. simpl. by rewrite <- app_assoc.
  - intros s' Hret.
    assert (base (self s') = base (self s1) /\
            exists evs, trace s' = (trace s1 ++ evs)%list) as [Hbase (evs & Htrace)].
    { rewrite Heq in Hret.
      destruct (IsRtcp data0) eqn:?;
        [|destruct (IsRtp data0) eqn:?; [|destruct (IsSctp data0) eqn:?]].
      - split; [eapply inbound_handlers_keep_base; eauto|].
        pose proof (OnRtcpDataReceived_steady tuple0 data0 s1) as H.
        rewrite Hret in H. apply H.
      - split; [eapply inbound_handlers_keep_base; eauto|].
        pose proof (OnRtpDataReceived_steady tuple0 data0 s1) as H.
        rewrite Hret in H. apply H.
      - split; [eapply inbound_handlers_keep_base; eauto|].
        pose proof (OnSctpDataReceived_steady tuple0 data0 s1) as H.
        rewrite Hret in H. apply H.
      - injection Hret as <-. simpl. eauto. }
    rewrite Hbase. simpl. split; [done|]. split; [done|].
    exists evs. rewrite Htrace. simpl. by rewrite <- app_assoc.
  - intros e s' Hthrow. by rewrite Hthrow in Hsteady.
  - intros msg Habort. by rewrite Habort in Hsteady.
  - intros Hpaired.
    destruct (OnPacketReceived tuple0 data0 s) as [[] s'| | |]; simpl in Hsteady;
      by eauto.
Qed.

Lemma Compare_differs mine other :
  sa_addr (tt_remoteAddr other) <> sa_addr (tt_remoteAddr mine)
  \/ sa_port (tt_remoteAddr other) <> sa_port (tt_remoteAddr mine) ->
  Compare mine other = false.
Proof.
  unfold Compare. intros [Haddr | Hport].
  - rewrite (bool_decide_eq_false_2 (sa_addr _ = _)) by congruence.
    by rewrite andb_false_r.
  - rewrite (bool_decide_eq_false_2 (sa_port _ = _)) by congruence.
    by rewrite andb_false_r.
Qed.

(** What the handlers compare a datagram's source with: the remote address
    of the installed tuple, not the address the connect request named.  A
    datagram that one of the three classifiers accepts, arriving on
    a connected transport from an address that differs from the remote
    address of the tuple in ip or in port, adds its length to the
    received-bytes counter and is then dropped with one MS_DEBUG_TAG log
    line: no session is asked to decrypt, no parser runs, nothing is passed
    to the parent transport and no other field changes.  Arriving on a
    transport without a tuple it is dropped with no further event at all. *)
Theorem foreign_or_early_datagram_dropped socket data0 remoteAddr s :
  IsRtcp data0 || IsRtp data0 || IsSctp data0 = true ->
  let len := length data0 in
  (forall mine,
     tuple (self s) = Some mine ->
     sa_addr remoteAddr <> sa_addr (tt_remoteAddr mine)
     \/ sa_port remoteAddr <> sa_port (tt_remoteAddr mine) ->
     exists msg,
       OnUdpSocketPacketReceived socket data0 remoteAddr s =
       Ret () (mk_State (add_received len (self s))
                 (trace s ++ [DataReceived len; Log MS_DEBUG_TAG msg])))
  /\ (tuple (self s) = None ->
      OnUdpSocketPacketReceived socket data0 remoteAddr s =
      Ret () (mk_State (add_received len (self s)) (trace s ++ [DataReceived len]))).
Proof.
  intros Hclass len. unfold OnUdpSocketPacketReceived.
  rewrite OnPacketReceived_eq. lazy zeta.
  rewrite OnRtcpDataReceived_eq, OnRtpDataReceived_eq, OnSctpDataReceived_eq.
  fold len. cbn [self trace tuple add_received set_base]. split.
  - intros mine Htuple Hdiff. rewrite Htuple.
    rewrite (Compare_differs mine (TransportTuple_new socket remoteAddr)) by done.
    rewrite <- !app_assoc. simpl.
    destruct (IsRtcp data0); [by eauto|].
    destruct (IsRtp data0); [by eauto|].
    destruct (IsSctp data0); [by eauto|done].
  - intros ->.
    destruct (IsRtcp data0); [done|].
    destruct (IsRtp data0); [done|].
    by destruct (IsSctp data0).
Qed.

(** ** Outbound *)


(** C8.  SCTP data is neither encrypted nor decrypted, with or without
    SRTP.  SendSctpData on a connected transport hands the very buffer to
    the tuple and leaves the sending session as it is; an SCTP datagram
    whose tuple compares equal to the transport's is passed to the parent
    transport as the very buffer received, and the receiving session is
    left as it is.  No session call appears among the events. *)
Theorem sctp_is_never_protected s tuple0 data0 :
  tuple (self s) = Some tuple0 ->
  SendSctpData data0 s =
    Ret () (mk_State (add_sent (length data0) (self s))
              (trace s ++ [TupleSend tuple0 data0 None; DataSent (length data0)]))
  /\ srtpSendSession (add_sent (length data0) (self s)) = srtpSendSession (self s)
  /\ (forall from,
        Compare tuple0 from = true ->
        OnSctpDataReceived from data0 s =
        Ret () (mk_State (self s) (trace s ++ [ReceiveSctpData data0])))
  /\ (forall socket remoteAddr,
        IsRtcp data0 = false -> IsRtp data0 = false -> IsSctp data0 = true ->
        Compare tuple0 (TransportTuple_new socket remoteAddr) = true ->
        OnUdpSocketPacketReceived socket data0 remoteAddr s =
        Ret () (mk_State (add_received (length data0) (self s))
                  (trace s ++ [DataReceived (length data0); ReceiveSctpData data0]))).
Proof.
  intros Htuple. split; [|split; [|split]].
  - by rewrite SendSctpData_eq, Htuple.
  - done.
  - intros from Hcmp. by rewrite OnSctpDataReceived_eq, Htuple, Hcmp.
  - intros socket remoteAddr Hrtcp Hrtp Hsctp Hcmp.
    unfold OnUdpSocketPacketReceived.
    rewrite OnPacketReceived_eq, Hrtcp, Hrtp, Hsctp. lazy zeta.
    rewrite OnSctpDataReceived_eq. cbn [self trace tuple add_received set_base].
    by rewrite Htuple, Hcmp, <- app_assoc.
Qed.

(** ** The remote address *)

(** C9.  Under the contract of NormalizeIp (an accepted ip has family IPv4
    or IPv6), once the ip, the port and srtpKey have passed their checks
    and the sessions are in place, the family switch takes one of its two
    address branches; computing the address never throws, and the whole
    connect call either returns or ends the process with [MS_ABORT]; it
    aborts exactly when [uv_ip4_addr] or [uv_ip6_addr] reports an error. *)
Theorem remote_address_returns_or_aborts s data0 ip1 s1 :
  NormalizeIp_contract ->
  tuple (self s) = None ->
  connect_ip data0 s = Ret ip1 s ->
  connect_port data0 s = Ret () s ->
  connect_srtpKey_presence data0 s = Ret () s ->
  connect_srtp_sessions data0 s = Ret () s1 ->
  let err := match GetFamily ip1 with
             | AF_INET6 => (uv_ip6_addr ip1 0).1
             | _ => (uv_ip4_addr ip1 0).1
             end in
  (GetFamily ip1 = AF_INET \/ GetFamily ip1 = AF_INET6)
  /\ (forall port s2 e s3, connect_remote_address ip1 port s2 <> Throw e s3)
  /\ (err = 0%Z -> exists s', connect data0 s = Ret () s')
  /\ (err <> 0%Z -> exists msg, connect data0 s = Abort msg).
Proof.
  intros Hcontract Hnone Hip Hport Hpresence Hsessions err.
  assert (GetFamily ip1 = AF_INET \/ GetFamily ip1 = AF_INET6) as Hfamily.
  { rewrite connect_ip_eq in Hip.
    destruct (jfind "ip" data0) as [[| | | |ip0| |]|]; try done.
    destruct (NormalizeIp ip0) as [w|ip2] eqn:Hnorm; [done|].
    injection Hip as ->. by apply Hcontract with ip0. }
  split; [done|]. split.
  { intros port s2 e s3. rewrite connect_remote_address_eq.
    destruct Hfamily as [-> | ->]; by case_bool_decide. }
  rewrite (connect_unconnected_eq _ _ Hnone). unfold connect_try.
  rewrite bind_eq, Hip. lazy beta iota zeta.
  rewrite bind_eq, Hport. lazy beta iota zeta.
  rewrite bind_eq, Hpresence. lazy beta iota zeta.
  rewrite bind_eq, Hsessions. lazy beta iota zeta.
  rewrite bind_eq, connect_remote_address_eq. subst err.
  destruct Hfamily as [-> | ->]; (split; intros Herr);
    rewrite ?(bool_decide_eq_true_2 _ Herr), ?(bool_decide_eq_false_2 _ Herr);
    rewrite ?connect_tuple_eq; simpl; by eauto.
Qed.

(** ** Construction *)

Lemma PipeTransport_new_flags base0 data0 t :
  PipeTransport_new base0 data0 = inr t ->
  rtx t = match jfind "enableRtx" data0 with Some (JBool b) => b | _ => false end
  /\ srtpKey t = match jfind "enableSrtp" data0 with
                 | Some (JBool true) => GetRandomString SrtpMasterLength
                 | _ => ""
                 end.
Proof.
  unfold PipeTransport_new. intros Hnew.
  destruct (jfind "listenIp" data0) as [jsonListenIp|]; [|done].
  destruct (negb (is_object jsonListenIp)); [done|].
  destruct (jfind "ip" jsonListenIp) as [[| | | |ip0| |]|]; try done.
  destruct (NormalizeIp ip0); [done|].
  destruct (jfind "announcedIp" jsonListenIp) as [[| | | |a| |]|]; try done;
    (destruct (UdpSocket_new _); [done|]); by simplify_eq/=.
Qed.

(** C10.  An [enableRtx] or [enableSrtp] member that is present with a
    value that is not a boolean is ignored by the constructor: it throws or
    builds exactly what it does with the member removed, and the object it
    builds has [rtx] false (for [enableRtx]) or an empty local key, hence
    no SRTP (for [enableSrtp]). *)
Theorem non_boolean_flag_is_ignored base0 m key v :
  key = "enableRtx" \/ key = "enableSrtp" ->
  m !! key = Some v ->
  is_boolean v = false ->
  PipeTransport_new base0 (JObject m) = PipeTransport_new base0 (JObject (delete key m))
  /\ (forall t,
        PipeTransport_new base0 (JObject m) = inr t ->
        (key = "enableRtx" -> rtx t = false)
        /\ (key = "enableSrtp" -> srtpKey t = "" /\ HasSrtp t = false)).
Proof.
  intros Hkey Hm Hbool. split.
  - unfold PipeTransport_new, jfind.
    rewrite (lookup_delete_ne m key "listenIp") by (destruct Hkey; congruence).
    destruct Hkey as [-> | ->].
    + rewrite (lookup_delete_ne m "enableRtx" "enableSrtp") by congruence.
      rewrite lookup_delete_eq, Hm. by destruct v; simplify_eq/=.
    + rewrite (lookup_delete_ne m "enableSrtp" "enableRtx") by congruence.
      rewrite lookup_delete_eq, Hm. by destruct v; simplify_eq/=.
  - intros t Hnew. apply PipeTransport_new_flags in Hnew as [Hrtx Hsrtp].
    simpl in Hrtx, Hsrtp. unfold HasSrtp.
    split; intros ->; rewrite Hm in *; destruct v; simplify_eq/=;
      by rewrite ?Hsrtp, ?Hrtx.
Qed.

End Properties.


(** * The theorems at work on the sample instance *)

Lemma Sample_new_srtp :
  PipeTransport_new Sample.base0 (Sample.listen (JBool true)) = inr Sample.t_srtp.
Proof. reflexivity. Qed.

Lemma Sample_connect :
  connect (Sample.connect_data 5004 (Some Sample.keyX)) Sample.s_srtp
  = Ret () Sample.s_connected.
Proof. reflexivity. Qed.

Lemma Sample_reachable_connected : reachable Sample.s_connected.
Proof.
  eapply (reachable_ret
            (OpHandleRequest
               (mk_Request TRANSPORT_CONNECT (Sample.connect_data 5004 (Some Sample.keyX))))).
  - apply (reachable_new Sample.base0 (Sample.listen (JBool true))).
    apply Sample_new_srtp.
  - apply Sample_connect.
Qed.

Lemma Sample_contract : NormalizeIp_contract (Collab := Sample.collaborators).
Proof.
  intros ip0 ip1. simpl. unfold Sample.NormalizeIp.
  destruct (Sample.GetFamily ip0) eqn:Hfamily; intros [= <-]; rewrite Hfamily; eauto.
Qed.

(** C1.  The connect request of the spec's scenario, ip "127.0.0.1" and
    port 5004 with a 30-byte key, succeeds on the sample transport; the
    tuple it installs and the tuple it reports both carry remote port 0,
    not 5004: [port] is checked in the request but never read from it. *)
Theorem connect_5004_reports_port_0 :
  let reply := TransportTuple_FillJson Sample.tuple_connected in
  connect (Sample.connect_data 5004 (Some Sample.keyX)) Sample.s_srtp
    = Ret () Sample.s_connected
  /\ tuple (self Sample.s_connected) = Some Sample.tuple_connected
  /\ sa_port (tt_remoteAddr Sample.tuple_connected) = 0%Z
  /\ trace Sample.s_connected
     = [RequestAccept (JObject (<["tuple" := reply]> ∅)); Connected]
  /\ jfind "remoteIp" reply = Some (JString "127.0.0.1")
  /\ jfind "remotePort" reply = Some (JInt 0)
  /\ jfind "remotePort" reply <> Some (JInt 5004).
Proof.
  intros reply. split; [apply Sample_connect|].
  split; [reflexivity|]. split; [reflexivity|]. split; [reflexivity|].
  split; [reflexivity|]. split; [reflexivity|].
  intros Hreply. vm_compute in Hreply. discriminate Hreply.
Qed.

(** A repeated connect on the connected sample transport fails and leaves
    the tuple in place: the transport stays connected, and no later connect
    can succeed.  A failed connect does not in general leave the transport
    unconnected. *)
Lemma repeated_connect_keeps_tuple :
  let request := Sample.connect_data 5004 (Some Sample.keyX) in
  reachable Sample.s_connected
  /\ connect request Sample.s_connected
     = Throw (MediaSoupError "connect() already called") Sample.s_connected
  /\ is_MediaSoupError (MediaSoupError "connect() already called") = true
  /\ tuple (self Sample.s_connected) = Some Sample.tuple_connected
  /\ IsConnected (self Sample.s_connected) = true
  /\ is_Some (srtpSendSession (self Sample.s_connected))
  /\ forall data1 s', connect data1 Sample.s_connected <> Ret () s'.
Proof.
  intros request.
  assert (tuple (self Sample.s_connected) = Some Sample.tuple_connected) as Htuple
    by reflexivity.
  split; [apply Sample_reachable_connected|].
  split; [by apply connect_connected_eq with Sample.tuple_connected|].
  split; [reflexivity|]. split; [done|].
  split; [by apply IsConnected_Some with Sample.tuple_connected|].
  split; [by eexists|].
  intros data1 s'. by rewrite (connect_connected_eq _ _ _ Htuple).
Qed.

(** The spec's scenario: a connect with a 16-byte key fails on the sample
    transport and leaves it as it was, and the connect with the 30-byte key
    that follows succeeds. *)
Lemma connect_failure_leaves_no_residue_witness :
  let failed := connect (Sample.connect_data 5004 (Some Sample.key16)) Sample.s_srtp in
  tuple (self Sample.s_srtp) = None
  /\ failed = Throw (MediaSoupTypeError "invalid srtpKey length") Sample.s_srtp
  /\ connect (Sample.connect_data 5004 (Some Sample.keyX))
       (Sample.state_after failed Sample.s_srtp)
     = Ret () Sample.s_connected.
Proof.
  intros failed.
  assert (failed = Throw (MediaSoupTypeError "invalid srtpKey length") Sample.s_srtp)
    as Hfailed by reflexivity.
  split; [reflexivity|]. split; [exact Hfailed|].
  assert (connect (Sample.connect_data 5004 (Some Sample.key16)) Sample.s_srtp
          = Throw (MediaSoupTypeError "invalid srtpKey length")
              (Sample.state_after failed Sample.s_srtp)) as Hthrow by reflexivity.
  destruct (proj1 connect_failure_leaves_no_residue Sample.s_srtp
              (Sample.connect_data 5004 (Some Sample.key16))
              (MediaSoupTypeError "invalid srtpKey length")
              (Sample.state_after failed Sample.s_srtp)
              eq_refl Hthrow)
    as (_ & _ & _ & _ & _ & _ & Hsame).
  destruct (Hsame (rolled_back_paired Sample.t_srtp)) as [_ Hlater].
  rewrite Hlater. apply Sample_connect.
Defined.

(** A second connect on the connected sample transport. *)
Lemma connect_again_fails_unchanged_witness :
  tuple (self Sample.s_connected) = Some Sample.tuple_connected
  /\ HandleRequest (mk_Request TRANSPORT_CONNECT (Sample.connect_data 6000 None))
       Sample.s_connected
     = Throw (MediaSoupError "connect() already called") Sample.s_connected.
Proof.
  split; [reflexivity|].
  apply (connect_again_fails_unchanged Sample.s_connected
           (Sample.connect_data 6000 None) Sample.tuple_connected).
  reflexivity.
Defined.

(** The 16-byte key on the sample transport with SRTP: ip and port pass,
    and the type error coincides with the mismatch. *)
Lemma connect_srtpKey_validation_witness :
  let request := Sample.connect_data 5004 (Some Sample.key16) in
  tuple (self Sample.s_srtp) = None
  /\ connect_ip request Sample.s_srtp = Ret "127.0.0.1" Sample.s_srtp
  /\ connect_port request Sample.s_srtp = Ret () Sample.s_srtp
  /\ ((exists w s', connect request Sample.s_srtp = Throw (MediaSoupTypeError w) s')
      <-> srtpKey_mismatch (self Sample.s_srtp) request).
Proof.
  intros request.
  exact (conj eq_refl (conj eq_refl (conj eq_refl
           (connect_srtpKey_validation Sample.s_srtp request "127.0.0.1"
              eq_refl eq_refl eq_refl)))).
Defined.

(** A two-byte datagram of no known type on the connected sample
    transport: two bytes received, none sent. *)
Lemma OnPacketReceived_counts_then_classifies_witness :
  sessions_paired (self Sample.s_connected)
  /\ exists s',
       OnPacketReceived Sample.tuple_connected Sample.unknown_datagram Sample.s_connected
       = Ret () s'
       /\ recvTransmission (base (self s')) = 2
       /\ sendTransmission (base (self s')) = 0.
Proof.
  pose proof (reachable_paired _ Sample_reachable_connected) as Hpaired.
  split; [exact Hpaired|].
  destruct (OnPacketReceived_counts_then_classifies
              Sample.tuple_connected Sample.unknown_datagram Sample.s_connected)
    as (_ & Hcount & _ & _ & Htotal).
  destruct (Htotal Hpaired) as [s' Hret]. exists s'.
  destruct (Hcount s' Hret) as (Hrecv & Hsent & _).
  split; [exact Hret|]. split; [exact Hrecv | exact Hsent].
Defined.

(** An RTP datagram from port 5004: dropped by the connected sample
    transport, whose tuple has remote port 0, and by the unconnected one. *)
Lemma foreign_or_early_datagram_dropped_witness :
  let socket := mk_UdpSocket "127.0.0.1" 40000 in
  let len := length Sample.rtp_datagram in
  IsRtcp Sample.rtp_datagram || IsRtp Sample.rtp_datagram || IsSctp Sample.rtp_datagram
    = true
  /\ sa_port (Sample.remote 5004) <> sa_port (tt_remoteAddr Sample.tuple_connected)
  /\ (exists msg,
        OnUdpSocketPacketReceived socket Sample.rtp_datagram (Sample.remote 5004)
          Sample.s_connected
        = Ret () (mk_State (add_received len (self Sample.s_connected))
                    (trace Sample.s_connected ++ [DataReceived len; Log MS_DEBUG_TAG msg])))
  /\ OnUdpSocketPacketReceived socket Sample.rtp_datagram (Sample.remote 5004)
       Sample.s_srtp
     = Ret () (mk_State (add_received len (self Sample.s_srtp))
                 (trace Sample.s_srtp ++ [DataReceived len])).
Proof.
  intros socket len.
  assert (sa_port (Sample.remote 5004) <> sa_port (tt_remoteAddr Sample.tuple_connected))
    as Hport by (simpl; lia).
  split; [reflexivity|]. split; [exact Hport|]. split.
  - apply (proj1 (foreign_or_early_datagram_dropped socket Sample.rtp_datagram
                    (Sample.remote 5004) Sample.s_connected eq_refl)
             Sample.tuple_connected eq_refl).
    right. exact Hport.
  - apply (proj2 (foreign_or_early_datagram_dropped socket Sample.rtp_datagram
                    (Sample.remote 5004) Sample.s_srtp eq_refl)).
    reflexivity.
Defined.


(** SCTP data out of and into the connected sample transport, which has
    SRTP enabled. *)
Lemma sctp_is_never_protected_witness :
  let len := length Sample.sctp_datagram in
  tuple (self Sample.s_connected) = Some Sample.tuple_connected
  /\ HasSrtp (self Sample.s_connected) = true
  /\ SendSctpData Sample.sctp_datagram Sample.s_connected
     = Ret () (mk_State (add_sent len (self Sample.s_connected))
                 (trace Sample.s_connected
                  ++ [TupleSend Sample.tuple_connected Sample.sctp_datagram None;
                      DataSent len]))
  /\ OnUdpSocketPacketReceived (mk_UdpSocket "127.0.0.1" 40000) Sample.sctp_datagram
       (Sample.remote 0) Sample.s_connected
     = Ret () (mk_State (add_received len (self Sample.s_connected))
                 (trace Sample.s_connected
                  ++ [DataReceived len; ReceiveSctpData Sample.sctp_datagram])).
Proof.
  intros len.
  destruct (sctp_is_never_protected Sample.s_connected Sample.tuple_connected
              Sample.sctp_datagram eq_refl)
    as (Hsend & _ & _ & Hrecv).
  split; [reflexivity|]. split; [reflexivity|]. split; [exact Hsend|].
  exact (Hrecv (mk_UdpSocket "127.0.0.1" 40000) (Sample.remote 0)
           eq_refl eq_refl eq_refl eq_refl).
Defined.

(** The scenario's request on the sample transport: the family is IPv4
    and the call returns. *)
Lemma remote_address_returns_or_aborts_witness :
  let request := Sample.connect_data 5004 (Some Sample.keyX) in
  connect_ip request Sample.s_srtp = Ret "127.0.0.1" Sample.s_srtp
  /\ connect_srtp_sessions request Sample.s_srtp = Ret () Sample.s_sessions
  /\ GetFamily "127.0.0.1" = AF_INET
  /\ exists s', connect request Sample.s_srtp = Ret () s'.
Proof.
  intros request.
  destruct (remote_address_returns_or_aborts Sample.s_srtp request "127.0.0.1"
              Sample.s_sessions Sample_contract eq_refl eq_refl eq_refl eq_refl eq_refl)
    as (_ & _ & Hret & _).
  split; [reflexivity|]. split; [reflexivity|]. split; [reflexivity|].
  apply Hret. reflexivity.
Defined.

(** A string where [enableSrtp] wants a boolean: the sample transport is
    built without SRTP. *)
Lemma non_boolean_flag_is_ignored_witness :
  let m := Sample.listen_map (JString "true") in
  m !! "enableSrtp" = Some (JString "true")
  /\ PipeTransport_new Sample.base0 (JObject m)
     = PipeTransport_new Sample.base0 (JObject (delete "enableSrtp" m))
  /\ PipeTransport_new Sample.base0 (JObject m) = inr Sample.t_plain
  /\ HasSrtp Sample.t_plain = false.
Proof.
  intros m.
  destruct (non_boolean_flag_is_ignored Sample.base0 m "enableSrtp" (JString "true")
              (or_intror eq_refl) eq_refl eq_refl)
    as (Hsame & Hflags).
  split; [reflexivity|]. split; [exact Hsame|]. split; [reflexivity|].
  apply (Hflags Sample.t_plain); reflexivity.
Defined.

(** * Further properties *)

Section Runs.
Context `{Collab : Collaborators}.

(** ** Traces *)

Lemma received_bytes_app evs1 evs2 :
  received_bytes (evs1 ++ evs2) = received_bytes evs1 + received_bytes evs2.
Proof.
  induction evs1 as [|e evs1 IH]; [done|].
  destruct e; simpl; rewrite IH; lia.
Qed.

Lemma sent_bytes_app evs1 evs2 :
  sent_bytes (evs1 ++ evs2) = sent_bytes evs1 + sent_bytes evs2.
Proof.
  induction evs1 as [|e evs1 IH]; [done|].
  destruct e; simpl; rewrite IH; lia.
Qed.

Lemma sends_accounted_app_bounded n evs1 evs2 :
  length evs1 <= n ->
  sends_accounted evs1 = true -> sends_accounted evs2 = true ->
  sends_accounted (evs1 ++ evs2) = true.
Proof.
  revert evs1. induction n as [|n IH]; intros evs1 Hlen H1 H2.
  { destruct evs1; [done | simpl in Hlen; lia]. }
  destruct evs1 as [|e evs1]; [done|]. simpl in Hlen.
  destruct e; simpl in *; try (apply IH; [lia | done | done]); try done.
  destruct evs1 as [|e evs1]; [done|].
  destruct e; simpl in *; try done.
  apply andb_prop in H1 as [Hl H1]. rewrite Hl. simpl.
  apply IH; [lia | done | done].
Qed.

Lemma sends_accounted_app evs1 evs2 :
  sends_accounted evs1 = true -> sends_accounted evs2 = true ->
  sends_accounted (evs1 ++ evs2) = true.
Proof. by apply sends_accounted_app_bounded with (length evs1). Qed.

(** ** One call *)

Lemma evolves_refl s : evolves s s.
Proof.
  unfold evolves. repeat (split; [done|]).
  exists []. rewrite app_nil_r. simpl. repeat split; lia.
Qed.

Lemma evolves_trans s1 s2 s3 : evolves s1 s2 -> evolves s2 s3 -> evolves s1 s3.
Proof.
  intros (Hl1 & Hr1 & Hk1 & Hu1 & Ht1 & Hc1 & evs1 & Htr1 & Hrecv1 & Hsent1 & Hacc1)
         (Hl2 & Hr2 & Hk2 & Hu2 & Ht2 & Hc2 & evs2 & Htr2 & Hrecv2 & Hsent2 & Hacc2).
  unfold evolves.
  split; [congruence|]. split; [congruence|]. split; [congruence|].
  split; [congruence|]. split.
  { intros tuple0 Htuple. destruct (Ht1 _ Htuple) as [Htuple1 Hstore1].
    destruct (Ht2 _ Htuple1) as [Htuple2 Hstore2]. split; congruence. }
  split; [by auto|].
  exists (evs1 ++ evs2)%list.
  rewrite Htr2, Htr1, <- app_assoc, received_bytes_app, sent_bytes_app.
  split; [done|]. split; [lia|]. split; [lia|].
  by apply sends_accounted_app.
Qed.

(** A state that differs from [s] in the counters, the sessions and the
    trace, by events [evs] that the counters account for. *)
Lemma evolves_intro s t' evs :
  listenIp t' = listenIp (self s) ->
  rtx t' = rtx (self s) ->
  srtpKey t' = srtpKey (self s) ->
  udpSocket t' = udpSocket (self s) ->
  tuple t' = tuple (self s) ->
  remoteAddrStorage t' = remoteAddrStorage (self s) ->
  connected (base t') = connected (base (self s)) ->
  recvTransmission (base t') = recvTransmission (base (self s)) + received_bytes evs ->
  sendTransmission (base t') = sendTransmission (base (self s)) + sent_bytes evs ->
  sends_accounted evs = true ->
  evolves s (mk_State t' (trace s ++ evs)).
Proof.
  intros Hl Hr Hk Hu Ht Hs Hc Hrecv Hsent Hacc. unfold evolves. simpl.
  do 4 (split; [done|]). split; [by intros tuple0 <-|].
  split; [by rewrite Hc|]. by exists evs.
Qed.

Local Ltac evolves_by evs :=
  apply (evolves_intro _ _ evs); simpl; rewrite ?Nat.add_0_r;
  first [done | lia | by apply bool_decide_eq_true_2
        | by rewrite bool_decide_eq_true_2].

Lemma SendRtpPacket_evolves packet cb s s' :
  SendRtpPacket packet cb s = Ret () s' -> evolves s s'.
Proof.
  rewrite SendRtpPacket_eq.
  destruct (tuple (self s)) as [tuple0|].
  - lazy zeta. destruct (HasSrtp (self s)).
    + destruct (srtpSendSession (self s)) as [session|]; [|done].
      destruct (EncryptRtp session _).2 as [data'|]; intros [= <-].
      * evolves_by [SessionEncryptRtp (RtpPacket_GetData packet);
                    TupleSend tuple0 data' cb; DataSent (length data')].
      * destruct cb as [c|].
        -- evolves_by [SessionEncryptRtp (RtpPacket_GetData packet);
                       CallbackInvoked c false].
        -- evolves_by [SessionEncryptRtp (RtpPacket_GetData packet)].
    + intros [= <-].
      evolves_by [TupleSend tuple0 (RtpPacket_GetData packet) cb;
                  DataSent (length (RtpPacket_GetData packet))].
  - intros [= <-]. destruct cb as [c|].
    + evolves_by [CallbackInvoked c false].
    + simpl. rewrite app_nil_r, State_eta. apply evolves_refl.
Qed.

Lemma SendRtcpData_evolves data0 s s' :
  SendRtcpData data0 s = Ret () s' -> evolves s s'.
Proof.
  rewrite SendRtcpData_eq.
  destruct (tuple (self s)) as [tuple0|].
  - destruct (HasSrtp (self s)).
    + destruct (srtpSendSession (self s)) as [session|]; [|done].
      lazy zeta. destruct (EncryptRtcp session _).2 as [data'|]; intros [= <-].
      * evolves_by [SessionEncryptRtcp data0; TupleSend tuple0 data' None;
                    DataSent (length data')].
      * evolves_by [SessionEncryptRtcp data0].
    + intros [= <-].
      evolves_by [TupleSend tuple0 data0 None; DataSent (length data0)].
  - intros [= <-]. apply evolves_refl.
Qed.

Lemma SendSctpData_evolves data0 s s' :
  SendSctpData data0 s = Ret () s' -> evolves s s'.
Proof.
  rewrite SendSctpData_eq.
  destruct (tuple (self s)) as [tuple0|]; intros [= <-].
  - evolves_by [TupleSend tuple0 data0 None; DataSent (length data0)].
  - apply evolves_refl.
Qed.

Lemma OnRtpDataReceived_evolves from data0 s s' :
  OnRtpDataReceived from data0 s = Ret () s' -> evolves s s'.
Proof.
  rewrite OnRtpDataReceived_eq.
  destruct (tuple (self s)) as [mine|]; [|intros [= <-]; apply evolves_refl].
  destruct (Compare mine from).
  - destruct (HasSrtp (self s)).
    + destruct (srtpRecvSession (self s)) as [session|]; [|done].
      destruct (DecryptSrtp session data0) as [[session' data'] ok].
      intros [= <-].
      apply (evolves_intro _ _ [SessionDecryptSrtp data0; RtpParse data'; _]);
        simpl; try done; by destruct (RtpPacket_Parse data'), ok.
    + intros [= <-].
      apply (evolves_intro _ _ [RtpParse data0; _]);
        simpl; try done; by destruct (RtpPacket_Parse data0).
  - intros [= <-].
    evolves_by [Log MS_DEBUG_TAG "ignoring RTP packet from unknown IP:port"].
Qed.

Lemma OnRtcpDataReceived_evolves from data0 s s' :
  OnRtcpDataReceived from data0 s = Ret () s' -> evolves s s'.
Proof.
  rewrite OnRtcpDataReceived_eq.
  destruct (tuple (self s)) as [mine|]; [|intros [= <-]; apply evolves_refl].
  destruct (Compare mine from).
  - destruct (HasSrtp (self s)).
    + destruct (srtpRecvSession (self s)) as [session|]; [|done].
      destruct (DecryptSrtcp session data0) as [[session' data'] ok].
      intros [= <-].
      apply (evolves_intro _ _ (SessionDecryptSrtcp data0 :: _));
        simpl; try done; destruct ok; simpl; try done;
        by destruct (RtcpPacket_Parse data').
    + intros [= <-].
      apply (evolves_intro _ _ [RtcpParse data0; _]);
        simpl; try done; by destruct (RtcpPacket_Parse data0).
  - intros [= <-].
    evolves_by [Log MS_DEBUG_TAG "ignoring RTCP packet from unknown IP:port"].
Qed.

Lemma OnSctpDataReceived_evolves from data0 s s' :
  OnSctpDataReceived from data0 s = Ret () s' -> evolves s s'.
Proof.
  rewrite OnSctpDataReceived_eq.
  destruct (tuple (self s)) as [mine|]; [|intros [= <-]; apply evolves_refl].
  destruct (Compare mine from); intros [= <-].
  - evolves_by [ReceiveSctpData data0].
  - evolves_by [Log MS_DEBUG_TAG "ignoring SCTP packet from unknown IP:port"].
Qed.

Lemma OnPacketReceived_evolves from data0 s s' :
  OnPacketReceived from data0 s = Ret () s' -> evolves s s'.
Proof.
  rewrite OnPacketReceived_eq. lazy zeta. intros Hret.
  apply evolves_trans with
    (mk_State (add_received (length data0) (self s))
       (trace s ++ [DataReceived (length data0)])).
  { evolves_by [DataReceived (length data0)]. }
  destruct (IsRtcp data0); [by eapply OnRtcpDataReceived_evolves|].
  destruct (IsRtp data0); [by eapply OnRtpDataReceived_evolves|].
  destruct (IsSctp data0); [by eapply OnSctpDataReceived_evolves|].
  injection Hret as <-.
  match goal with
  | |- evolves ?s1 _ =>
    apply (evolves_intro s1 _
             [Log MS_WARN_DEV "ignoring received packet of unknown type"]);
      simpl; first [done | lia]
  end.
Qed.

Lemma connect_evolves data0 s :
  match connect data0 s with
  | Ret _ s' | Throw _ s' => evolves s s'
  | _ => True
  end.
Proof.
  destruct (tuple (self s)) as [tuple0|] eqn:Htuple.
  { rewrite (connect_connected_eq _ _ _ Htuple). apply evolves_refl. }
  rewrite (connect_unconnected_eq _ _ Htuple).
  pose proof (connect_try_cases data0 s) as Hcases.
  destruct (connect_try data0 s) as [[] s1|e s1| |]; try done.
  - destruct Hcases as (Htr & (_ & _ & _ & _ & _ & _ & _ & Hnew)
                        & Hbase & Hl & Hr & Hk & Hu & _).
    rewrite Hnew. unfold evolves. simpl. rewrite Hbase, Htr.
    do 4 (split; [done|]). split; [by rewrite Htuple|]. split; [done|].
    eexists. split; [reflexivity|]. simpl. repeat split; lia.
  - destruct Hcases as (-> & Htr & Hback).
    rewrite Htr, Hback. unfold evolves. simpl.
    do 4 (split; [done|]). split; [by rewrite Htuple|]. split; [done|].
    exists []. rewrite app_nil_r. simpl. repeat split; lia.
Qed.

Lemma run_evolves op s :
  match run op s with
  | Ret _ s' | Throw _ s' => evolves s s'
  | _ => True
  end.
Proof.
  destruct op as [[[|name] data0]|packet cb|packet|packet|data0|socket data0 addr];
    simpl.
  - apply connect_evolves.
  - evolves_by [TransportHandleRequest name data0].
  - pose proof (SendRtpPacket_steady packet cb s) as Hsteady.
    destruct (SendRtpPacket packet cb s) as [[] s'| | |] eqn:Hret; try done.
    by eapply SendRtpPacket_evolves.
  - pose proof (SendRtcpData_steady (RtcpPacket_GetData packet) s) as Hsteady.
    unfold SendRtcpPacket.
    destruct (SendRtcpData _ s) as [[] s'| | |] eqn:Hret; try done.
    by eapply SendRtcpData_evolves.
  - pose proof (SendRtcpData_steady (CompoundPacket_GetData packet) s) as Hsteady.
    unfold SendRtcpCompoundPacket.
    destruct (SendRtcpData _ s) as [[] s'| | |] eqn:Hret; try done.
    by eapply SendRtcpData_evolves.
  - pose proof (SendSctpData_steady data0 s) as Hsteady.
    destruct (SendSctpData data0 s) as [[] s'| | |] eqn:Hret; try done.
    by eapply SendSctpData_evolves.
  - pose proof (OnPacketReceived_steady (TransportTuple_new socket addr) data0 s)
      as Hsteady.
    unfold OnUdpSocketPacketReceived.
    destruct (OnPacketReceived _ data0 s) as [[] s'| | |] eqn:Hret; try done.
    by eapply OnPacketReceived_evolves.
Qed.

Lemma exec_evolves ops s s' : exec ops s = Some s' -> evolves s s'.
Proof.
  revert s. induction ops as [|op ops IH]; intros s; simpl.
  { intros [= <-]. apply evolves_refl. }
  pose proof (run_evolves op s) as Hstep.
  destruct (run op s) as [[] s1|e s1| |]; try done;
    intros Hexec; by apply evolves_trans with s1; [|apply IH].
Qed.

(** ** Sequences of calls *)

(** X1.  No sequence of calls changes what the constructor fixed: the
    listen ip and announced ip, the rtx flag, the local SRTP key (hence
    whether SRTP is enabled) and the socket. *)
Theorem exec_keeps_configuration ops s s' :
  exec ops s = Some s' ->
  listenIp (self s') = listenIp (self s)
  /\ rtx (self s') = rtx (self s)
  /\ srtpKey (self s') = srtpKey (self s)
  /\ HasSrtp (self s') = HasSrtp (self s)
  /\ udpSocket (self s') = udpSocket (self s).
Proof.
  intros Hexec. destruct (exec_evolves _ _ _ Hexec) as (Hl & Hr & Hk & Hu & _).
  unfold HasSrtp. rewrite Hk. done.
Qed.

(** X2.  A tuple, once installed, is never replaced or removed, and the
    remote address it was built from is never rewritten: whatever calls
    follow, of whatever kind and outcome, the transport keeps the tuple of
    its one successful connect. *)
Theorem exec_keeps_tuple ops s s' tuple0 :
  exec ops s = Some s' ->
  tuple (self s) = Some tuple0 ->
  tuple (self s') = Some tuple0
  /\ IsConnected (self s') = true
  /\ remoteAddrStorage (self s') = remoteAddrStorage (self s).
Proof.
  intros Hexec Htuple.
  destruct (exec_evolves _ _ _ Hexec) as (_ & _ & _ & _ & Hkeep & _).
  destruct (Hkeep _ Htuple) as [Htuple' Hstore].
  split; [done|]. split; [by eapply IsConnected_Some | done].
Qed.

(** X3.  Over any sequence of calls the byte counters move by exactly what
    the calls to [DataReceived] and [DataSent] in the new part of the trace
    add up to; they never decrease. *)
Theorem exec_counters_account_for_trace ops s s' :
  exec ops s = Some s' ->
  exists evs,
    trace s' = (trace s ++ evs)%list
    /\ recvTransmission (base (self s'))
       = recvTransmission (base (self s)) + received_bytes evs
    /\ sendTransmission (base (self s'))
       = sendTransmission (base (self s)) + sent_bytes evs
    /\ recvTransmission (base (self s)) <= recvTransmission (base (self s'))
    /\ sendTransmission (base (self s)) <= sendTransmission (base (self s')).
Proof.
  intros Hexec.
  destruct (exec_evolves _ _ _ Hexec)
    as (_ & _ & _ & _ & _ & _ & evs & Htrace & Hrecv & Hsent & _).
  exists evs. repeat split; try done; lia.
Qed.

(** X4.  Over any sequence of calls, every buffer handed to the tuple is
    followed at once by [DataSent] with the length of that very buffer, and
    [DataSent] is called nowhere else: bytes are counted as sent exactly
    when, and as, they are handed over. *)
Theorem exec_sends_are_accounted ops s s' :
  exec ops s = Some s' ->
  exists evs,
    trace s' = (trace s ++ evs)%list /\ sends_accounted evs = true.
Proof.
  intros Hexec.
  destruct (exec_evolves _ _ _ Hexec)
    as (_ & _ & _ & _ & _ & _ & evs & Htrace & _ & _ & Hacc).
  by exists evs.
Qed.

(** ** Calls from reachable states *)

Lemma connect_not_Undefined data0 s : connect data0 s <> Undefined.
Proof.
  destruct (tuple (self s)) as [tuple0|] eqn:Htuple.
  { by rewrite (connect_connected_eq _ _ _ Htuple). }
  rewrite (connect_unconnected_eq _ _ Htuple).
  pose proof (connect_try_cases data0 s) as Hcases.
  destruct (connect_try data0 s) as [[] s1|e s1| |]; try done.
  - destruct Hcases as (_ & (_ & _ & _ & _ & _ & _ & _ & Hnew) & _).
    by rewrite Hnew.
  - by destruct (is_MediaSoupError e).
Qed.

Lemma connect_Throw data0 s e s' :
  connect data0 s = Throw e s' -> is_MediaSoupError e = true.
Proof.
  destruct (tuple (self s)) as [tuple0|] eqn:Htuple.
  { rewrite (connect_connected_eq _ _ _ Htuple). by intros [= <- _]. }
  intros Hthrow. by apply connect_throw_unconnected in Hthrow as [? _].
Qed.

Lemma connect_Abort data0 s msg :
  connect data0 s = Abort msg -> tuple (self s) = None.
Proof.
  destruct (tuple (self s)) as [tuple0|] eqn:Htuple; [|done].
  by rewrite (connect_connected_eq _ _ _ Htuple).
Qed.

Lemma steady_safe s o :
  sessions_paired (self s) -> steady s o -> exists s', o = Ret () s'.
Proof.
  intros Hpaired. destruct o as [[] s'| | |]; simpl; try done. by eauto.
Qed.

(** X5.  From a state the transport can actually be in, none of the calls
    that PipeTransport.cpp handles itself (a connect request, the four
    sends, a received datagram) dereferences a null session or tuple or an
    end iterator.  The sends and the receive callback always return; a
    connect request can throw, and then a MediaSoupError (never a json type
    error), or end the process, and the latter only on a transport that has
    no tuple yet.  Requests passed on to the parent class are left out:
    their outcome is the parent's. *)
Theorem calls_from_reachable_states_are_safe s op :
  reachable s ->
  is_delegated op = false ->
  run op s <> Undefined
  /\ (is_connect op = false -> exists s', run op s = Ret () s')
  /\ (forall e s', run op s = Throw e s' ->
        is_MediaSoupError e = true /\ is_connect op = true)
  /\ (forall msg, run op s = Abort msg ->
        is_connect op = true /\ tuple (self s) = None).
Proof.
  intros Hreach Hown. pose proof (reachable_paired s Hreach) as Hpaired.
  destruct op as [[[|name] data0]|packet cb|packet|packet|data0|socket data0 addr].
  - change (run _ s) with (connect data0 s).
    split; [apply connect_not_Undefined|]. split; [done|]. split.
    + intros e s' Hthrow. split; [by eapply connect_Throw | done].
    + intros msg Habort. split; [done | by eapply connect_Abort].
  - discriminate Hown.
  - clear Hown. destruct (steady_safe s _ Hpaired (SendRtpPacket_steady packet cb s))
      as [s' Hret]. simpl. rewrite Hret. repeat split; by eauto.
  - clear Hown. destruct (steady_safe s _ Hpaired
                (SendRtcpData_steady (RtcpPacket_GetData packet) s))
      as [s' Hret]. simpl. unfold SendRtcpPacket. rewrite Hret.
    repeat split; by eauto.
  - clear Hown. destruct (steady_safe s _ Hpaired
                (SendRtcpData_steady (CompoundPacket_GetData packet) s))
      as [s' Hret]. simpl. unfold SendRtcpCompoundPacket. rewrite Hret.
    repeat split; by eauto.
  - clear Hown. destruct (steady_safe s _ Hpaired (SendSctpData_steady data0 s))
      as [s' Hret]. simpl. rewrite Hret. repeat split; by eauto.
  - clear Hown. destruct (steady_safe s _ Hpaired
                (OnPacketReceived_steady (TransportTuple_new socket addr) data0 s))
      as [s' Hret]. simpl. unfold OnUdpSocketPacketReceived. rewrite Hret.
    repeat split; by eauto.
Qed.

(** ** What connect returns *)

Lemma connect_try_Ret_iff data0 s s1 :
  connect_try data0 s = Ret () s1
  <-> connect_port_ok data0
      /\ exists snd0 rcv0 addr,
           connect_keys (self s) data0 snd0 rcv0
           /\ connect_address data0 addr
           /\ s1 = mk_State (connect_installed (self s) snd0 rcv0 addr) (trace s).
Proof.
  unfold connect_try, connect_port_ok, connect_keys, connect_address.
  rewrite bind_eq, connect_ip_eq.
  destruct (jfind "ip" data0) as [[| | | |ip0| |]|] eqn:Hip;
    try (split; [done|]; intros (_ & ? & ? & ? & _ & (? & ? & ? & _) & _); congruence).
  destruct (NormalizeIp ip0) as [w|ip1] eqn:Hnorm;
    try (split; [done|]; intros (_ & ? & ? & ? & _ & (? & ? & ? & ? & _) & _); congruence).
  rewrite bind_eq, connect_port_eq.
  destruct (jfind "port" data0) as [j|] eqn:Hport;
    try (split; [done|]; intros ((? & ? & _) & _); congruence).
  destruct (IsPositiveInteger j) eqn:Hpos;
    try (split; [done|]; intros ((? & ? & ?) & _); congruence).
  rewrite bind_eq, connect_srtpKey_presence_eq.
  assert (forall addr : sockaddr,
            (exists ip2 ip3,
               Some (JString ip0) = Some (JString ip2) /\ NormalizeIp ip2 = inr ip3
               /\ (GetFamily ip3 = AF_INET /\ uv_ip4_addr ip3 0 = (0%Z, addr)
                   \/ GetFamily ip3 = AF_INET6 /\ uv_ip6_addr ip3 0 = (0%Z, addr)))
            <-> (GetFamily ip1 = AF_INET /\ uv_ip4_addr ip1 0 = (0%Z, addr)
                 \/ GetFamily ip1 = AF_INET6 /\ uv_ip6_addr ip1 0 = (0%Z, addr)))
    as Haddr.
  { intros addr. split; [|by eauto 10].
    intros (ip2 & ip3 & [= <-] & Hn & H). rewrite Hnorm in Hn. by injection Hn as <-. }
  assert (forall t0 s2,
            match connect_remote_address ip1 0 (mk_State t0 (trace s)) with
            | Ret _ s3 => connect_tuple s3
            | Throw e s3 => Throw e s3
            | Abort msg => Abort msg
            | Undefined => Undefined
            end = Ret () s2
            <-> exists addr,
                  (GetFamily ip1 = AF_INET /\ uv_ip4_addr ip1 0 = (0%Z, addr)
                   \/ GetFamily ip1 = AF_INET6 /\ uv_ip6_addr ip1 0 = (0%Z, addr))
                  /\ s2 = mk_State
                            (set_tuple
                               (Some (new_tuple (set_remoteAddrStorage addr t0)))
                               (set_remoteAddrStorage addr t0))
                            (trace s)) as Hrest.
  { intros t0 s2. rewrite connect_remote_address_eq.
    destruct (GetFamily ip1) eqn:Hfamily.
    - destruct (uv_ip4_addr ip1 0) as [err addr0] eqn:Huv. simpl.
      case_bool_decide as Herr.
      + rewrite connect_tuple_eq. simpl. subst err. split.
        * intros [= <-]. exists addr0. by eauto.
        * intros (addr & [[_ [= <-]] | [? _]] & ->); done.
      + split; [done|]. intros (addr & [[_ [= ? _]] | [? _]] & _); done.
    - destruct (uv_ip6_addr ip1 0) as [err addr0] eqn:Huv. simpl.
      case_bool_decide as Herr.
      + rewrite connect_tuple_eq. simpl. subst err. split.
        * intros [= <-]. exists addr0. by eauto.
        * intros (addr & [[? _] | [_ [= <-]]] & ->); done.
      + split; [done|]. intros (addr & [[? _] | [_ [= ? _]]] & _); done.
    - split; [done|]. intros (addr & [[? _] | [? _]] & _); done. }
  destruct (HasSrtp (self s)) eqn:Hsrtp.
  - destruct (jfind "srtpKey" data0) as [[| | | |k| |]|] eqn:Hkey;
      try (split; [done|];
           intros (_ & ? & ? & ? & [(_ & ? & ? & ? & ? & _) | (? & _)] & _);
           congruence).
    rewrite bind_eq, connect_srtp_sessions_eq, Hsrtp, Hkey.
    case_bool_decide as Hlen;
      [|split; [done|];
        intros (_ & ? & ? & ? & [(_ & ? & ? & ? & ? & ? & _) | (? & _)] & _);
        congruence].
    destruct (SrtpSession_new OUTBOUND _ _ _) as [w|session1] eqn:Hout;
      [split; [done|];
       intros (_ & ? & ? & ? & [(_ & ? & ? & ? & ? & ? & ? & _) | (? & _)] & _);
       congruence|].
    destruct (SrtpSession_new INBOUND _ _ _) as [w|session2] eqn:Hin;
      [split; [done|];
       intros (_ & ? & ? & ? & [(_ & ? & ? & ? & ? & ? & ? & ? & _) | (? & _)] & _);
       congruence|].
    lazy beta iota zeta. rewrite bind_eq. simpl self. rewrite Hrest. split.
    + intros (addr & Hfam & ->). split; [by eauto|].
      exists (Some session1), (Some session2), addr.
      split; [left; split; [done|]; by eauto 10|].
      split; [by apply Haddr | done].
    + intros (_ & snd0 & rcv0 & addr & Hk & Ha & ->).
      apply Haddr in Ha. exists addr. split; [done|].
      destruct Hk as [(_ & k' & x1 & x2 & [= <-] & _ & Hx1 & Hx2 & -> & ->)
                     | (? & _)]; [|congruence].
      rewrite ?Hout in Hx1. rewrite ?Hin in Hx2. by simplify_eq.
  - destruct (jfind "srtpKey" data0) as [j'|] eqn:Hkey;
      [split; [done|];
       intros (_ & ? & ? & ? & [(? & _) | (_ & ? & _)] & _); congruence|].
    rewrite bind_eq, connect_srtp_sessions_eq, Hsrtp. lazy beta iota zeta.
    rewrite bind_eq. rewrite <- (State_eta s) at 1. rewrite Hrest. split.
    + intros (addr & Hfam & ->). split; [by eauto|].
      exists (srtpSendSession (self s)), (srtpRecvSession (self s)), addr.
      split; [by right|]. split; [by apply Haddr|].
      by destruct s as [[]].
    + intros (_ & snd0 & rcv0 & addr & Hk & Ha & ->).
      apply Haddr in Ha. exists addr. split; [done|].
      destruct Hk as [(? & _) | (_ & _ & -> & ->)]; [congruence|].
      by destruct s as [[]].
Qed.

Lemma connect_after_try data0 s snd0 rcv0 addr :
  tuple (self s) = None ->
  connect_try data0 s
  = Ret () (mk_State (connect_installed (self s) snd0 rcv0 addr) (trace s)) ->
  connect data0 s = Ret () (connected_state s snd0 rcv0 addr).
Proof.
  intros Hnone Htry. by rewrite (connect_unconnected_eq _ _ Hnone), Htry.
Qed.

(** X6.  A connect request returns exactly when the transport has no
    tuple yet, the port is a positive integer, the ip normalizes to an
    address of family IPv4 or IPv6 that libuv accepts, and, with SRTP, the
    request carries a 30-byte key and both sessions can be made (without
    SRTP: it carries no key).  It then returns in one state: the sending
    session made from the local key and the receiving one from the key of
    the request, the address stored with port 0, the tuple built from the
    socket, that address and the announced ip, the connected flag set, and
    the reply with the description of that tuple followed by [Connected] as
    the only new events. *)
Theorem connect_returns_iff data0 s s' :
  connect data0 s = Ret () s'
  <-> tuple (self s) = None
      /\ connect_port_ok data0
      /\ exists snd0 rcv0 addr,
           connect_keys (self s) data0 snd0 rcv0
           /\ connect_address data0 addr
           /\ s' = connected_state s snd0 rcv0 addr.
Proof.
  split.
  - intros Hret.
    destruct (tuple (self s)) as [tuple0|] eqn:Htuple.
    { by rewrite (connect_connected_eq _ _ _ Htuple) in Hret. }
    split; [done|].
    assert (exists s1, connect_try data0 s = Ret () s1) as [s1 Htry].
    { rewrite (connect_unconnected_eq _ _ Htuple) in Hret.
      destruct (connect_try data0 s) as [[] s1|e s1|msg|]; try done; [by eauto|].
      by destruct (is_MediaSoupError e). }
    pose proof Htry as Hshape.
    apply connect_try_Ret_iff in Hshape
      as (Hport & snd0 & rcv0 & addr & Hk & Ha & ->).
    split; [done|]. exists snd0, rcv0, addr. split; [done|]. split; [done|].
    rewrite (connect_after_try _ _ _ _ _ Htuple Htry) in Hret.
    by injection Hret.
  - intros (Hnone & Hport & snd0 & rcv0 & addr & Hk & Ha & ->).
    apply connect_after_try; [done|].
    apply connect_try_Ret_iff. by eauto 10.
Qed.

Lemma connect_try_Throw data0 s e s1 :
  connect_try data0 s = Throw e s1 -> connect_error (self s) data0 e.
Proof.
  unfold connect_try.
  rewrite bind_eq, connect_ip_eq.
  destruct (jfind "ip" data0) as [[| | | |ip0| |]|] eqn:Hip;
    try (intros [= <- _]; apply missing_ip; intros ?; congruence).
  destruct (NormalizeIp ip0) as [w|ip1] eqn:Hnorm;
    [intros [= <- _]; by eapply bad_ip|].
  rewrite bind_eq, connect_port_eq.
  destruct (jfind "port" data0) as [j|] eqn:Hport;
    [|intros [= <- _]; apply missing_port; intros (? & ? & _); congruence].
  destruct (IsPositiveInteger j) eqn:Hpos;
    [|intros [= <- _]; apply missing_port; intros (? & ? & ?); congruence].
  rewrite bind_eq, connect_srtpKey_presence_eq.
  destruct (HasSrtp (self s)) eqn:Hsrtp.
  - destruct (jfind "srtpKey" data0) as [[| | | |k| |]|] eqn:Hkey;
      try (intros [= <- _]; apply missing_srtpKey; [done|]; intros ?; congruence).
    rewrite bind_eq, connect_srtp_sessions_eq, Hsrtp, Hkey.
    case_bool_decide as Hlen;
      [|intros [= <- _]; by eapply bad_srtpKey_length].
    destruct (SrtpSession_new OUTBOUND _ _ _) as [w|session1] eqn:Hout;
      [intros [= <- _]; by apply sending_session_failed|].
    destruct (SrtpSession_new INBOUND _ _ _) as [w|session2] eqn:Hin;
      [intros [= <- _]; by eapply receiving_session_failed|].
    lazy beta iota zeta. rewrite bind_eq, connect_remote_address_eq.
    destruct (GetFamily ip1) eqn:Hfamily;
      [case_bool_decide; [by rewrite connect_tuple_eq | done]
      |case_bool_decide; [by rewrite connect_tuple_eq | done]
      |intros [= <- _]; by eapply no_family].
  - destruct (jfind "srtpKey" data0) as [j'|] eqn:Hkey;
      [intros [= <- _]; apply unexpected_srtpKey; [done|congruence]|].
    rewrite bind_eq, connect_srtp_sessions_eq, Hsrtp. lazy beta iota zeta.
    rewrite bind_eq, connect_remote_address_eq.
    destruct (GetFamily ip1) eqn:Hfamily;
      [case_bool_decide; [by rewrite connect_tuple_eq | done]
      |case_bool_decide; [by rewrite connect_tuple_eq | done]
      |intros [= <- _]; by eapply no_family].
Qed.

(** X7.  Every exception of a connect request is one of ten, each with its
    cause: the repeated call; the ip missing, not a string or refused by
    [NormalizeIp] (whose message is passed on); the port missing or not a
    positive integer; a key given without SRTP; the key missing or not a
    string with SRTP; a key of another length than 30; either session
    constructor failing (its message appended to the text that names the
    direction); an ip of neither family.  The request-shaped ones are
    MediaSoupTypeError, the others MediaSoupError. *)
Theorem connect_throws_only data0 s e s' :
  connect data0 s = Throw e s' -> connect_error (self s) data0 e.
Proof.
  destruct (tuple (self s)) as [tuple0|] eqn:Htuple.
  { rewrite (connect_connected_eq _ _ _ Htuple). intros [= <- _].
    by eapply already_called. }
  rewrite (connect_unconnected_eq _ _ Htuple).
  destruct (connect_try data0 s) as [[] s1|e1 s1|msg|] eqn:Htry; try done.
  - by destruct (tuple (self s1)).
  - apply connect_try_Throw in Htry.
    by destruct (is_MediaSoupError e1); intros [= <- _].
Qed.

(** ** The installed tuple *)

Lemma tuple_installed_step s s' :
  tuple (self s') = tuple (self s) ->
  evolves s s' -> tuple_installed (self s) -> tuple_installed (self s').
Proof.
  intros Htuple (Hl & _ & _ & Hu & Hkeep & Hc & _) Hinst tuple0 Ht'.
  rewrite Htuple in Ht'.
  destruct (Hinst _ Ht') as (Hnew & Hport & Hconn).
  destruct (Hkeep _ Ht') as [_ Hstore].
  unfold new_tuple. rewrite Hu, Hstore, Hl. by auto.
Qed.

Lemma steady_tuple s s' : steady s (Ret () s') -> tuple (self s') = tuple (self s).
Proof. by intros ((Htuple & _) & _). Qed.

Lemma connect_address_port data0 addr :
  connect_address data0 addr -> sa_port addr = 0%Z.
Proof.
  intros (ip0 & ip1 & _ & _ & [[_ Huv] | [_ Huv]]).
  - pose proof (uv_ip4_addr_port ip1 0) as Hport. by rewrite Huv in Hport.
  - pose proof (uv_ip6_addr_port ip1 0) as Hport. by rewrite Huv in Hport.
Qed.

Lemma run_tuple_installed op s :
  tuple_installed (self s) ->
  match run op s with
  | Ret _ s' | Throw _ s' => tuple_installed (self s')
  | _ => True
  end.
Proof.
  intros Hinst. pose proof (run_evolves op s) as Hev.
  destruct op as [[[|name] data0]|packet cb|packet|packet|data0|socket data0 addr].
  - change (run _ s) with (connect data0 s) in *.
    destruct (connect data0 s) as [[] s'|e s'| |] eqn:Hconnect; try done.
    + apply connect_returns_iff in Hconnect
        as (_ & _ & snd0 & rcv0 & addr & _ & Ha & ->).
      intros tuple0 [= <-]. simpl.
      split; [done|]. split; [by eapply connect_address_port | done].
    + destruct (tuple (self s)) as [tuple0|] eqn:Htuple.
      * rewrite (connect_connected_eq _ _ _ Htuple) in Hconnect.
        by injection Hconnect as _ <-.
      * apply connect_throw_unconnected in Hconnect as [_ ->]; [|done].
        by intros tuple0.
  - exact Hinst.
  - simpl in *. pose proof (SendRtpPacket_steady packet cb s) as Hsteady.
    destruct (SendRtpPacket packet cb s) as [[] s'| | |]; try done.
    apply (tuple_installed_step s); [by apply steady_tuple | done | done].
  - simpl in *. unfold SendRtcpPacket in *.
    pose proof (SendRtcpData_steady (RtcpPacket_GetData packet) s) as Hsteady.
    destruct (SendRtcpData _ s) as [[] s'| | |]; try done.
    apply (tuple_installed_step s); [by apply steady_tuple | done | done].
  - simpl in *. unfold SendRtcpCompoundPacket in *.
    pose proof (SendRtcpData_steady (CompoundPacket_GetData packet) s) as Hsteady.
    destruct (SendRtcpData _ s) as [[] s'| | |]; try done.
    apply (tuple_installed_step s); [by apply steady_tuple | done | done].
  - simpl in *. pose proof (SendSctpData_steady data0 s) as Hsteady.
    destruct (SendSctpData data0 s) as [[] s'| | |]; try done.
    apply (tuple_installed_step s); [by apply steady_tuple | done | done].
  - simpl in *. unfold OnUdpSocketPacketReceived in *.
    pose proof (OnPacketReceived_steady (TransportTuple_new socket addr) data0 s)
      as Hsteady.
    destruct (OnPacketReceived _ data0 s) as [[] s'| | |]; try done.
    apply (tuple_installed_step s); [by apply steady_tuple | done | done].
Qed.

Lemma reachable_tuple_installed s : reachable s -> tuple_installed (self s).
Proof.
  induction 1 as [base0 data0 t Hnew|op s s' _ IH Hrun|op s e s' _ IH Hrun].
  - apply PipeTransport_new_fresh in Hnew as (Htuple & _).
    intros tuple0. simpl. by rewrite Htuple.
  - pose proof (run_tuple_installed op s IH) as Hstep. by rewrite Hrun in Hstep.
  - pose proof (run_tuple_installed op s IH) as Hstep. by rewrite Hrun in Hstep.
Qed.

(** X8.  Whenever a transport has a tuple, in any state it can reach, that
    tuple is a UDP tuple on the transport's own socket, it reports the
    announced ip of the listen configuration, its remote address is the
    stored one, the remote port is 0, and the parent class has been told
    that the transport is connected. *)
Theorem reachable_tuple_is_well_formed s tuple0 :
  reachable s ->
  tuple (self s) = Some tuple0 ->
  tt_udpSocket tuple0 = udpSocket (self s)
  /\ tt_localAnnouncedIp tuple0 = announcedIp (listenIp (self s))
  /\ tt_protocol tuple0 = UDP
  /\ tt_remoteAddr tuple0 = remoteAddrStorage (self s)
  /\ sa_port (tt_remoteAddr tuple0) = 0%Z
  /\ connected (base (self s)) = true.
Proof.
  intros Hreach Htuple.
  destruct (reachable_tuple_installed s Hreach tuple0 Htuple) as (-> & Hport & Hconn).
  done.
Qed.

(** X9.  A connected transport in any reachable state drops every RTP,
    RTCP or SCTP datagram whose source port is not 0, whatever its source
    ip: the datagram is counted as received and logged as coming from an
    unknown IP:port, and nothing is decrypted, parsed or passed on. *)
Theorem connected_transport_drops_nonzero_ports s tuple0 socket data0 remoteAddr :
  reachable s ->
  tuple (self s) = Some tuple0 ->
  IsRtcp data0 || IsRtp data0 || IsSctp data0 = true ->
  sa_port remoteAddr <> 0%Z ->
  exists msg,
    OnUdpSocketPacketReceived socket data0 remoteAddr s
    = Ret () (mk_State (add_received (length data0) (self s))
                (trace s ++ [DataReceived (length data0); Log MS_DEBUG_TAG msg])).
Proof.
  intros Hreach Htuple Hclass Hport.
  destruct (reachable_tuple_installed s Hreach tuple0 Htuple) as (Hnew & Hzero & _).
  assert (Compare tuple0 (TransportTuple_new socket remoteAddr) = false) as Hcmp.
  { apply Compare_differs. right. simpl. rewrite Hnew. simpl. by rewrite Hzero. }
  unfold OnUdpSocketPacketReceived.
  rewrite OnPacketReceived_eq. lazy zeta.
  rewrite OnRtcpDataReceived_eq, OnRtpDataReceived_eq, OnSctpDataReceived_eq.
  cbn [self trace tuple add_received set_base]. rewrite Htuple, Hcmp.
  rewrite <- !app_assoc. simpl.
  destruct (IsRtcp data0); [by eauto|].
  destruct (IsRtp data0); [by eauto|].
  destruct (IsSctp data0); [by eauto|done].
Qed.

(** ** What an inbound datagram leads to *)

Lemma HasSrtp_add_received len t : HasSrtp (add_received len t) = HasSrtp t.
Proof. reflexivity. Qed.

Lemma new_events_app s t' evs : new_events s (mk_State t' (trace s ++ evs)) = evs.
Proof. unfold new_events. simpl. by rewrite drop_app_length. Qed.

Local Ltac forwarded :=
  lazy beta iota zeta; intros [= <-]; cbn [trace self];
  rewrite <- ?app_assoc, new_events_app; simpl;
  rewrite ?elem_of_cons, ?elem_of_nil;
  split;
  [ intros Hin; destruct_or!; simplify_eq;
    repeat split; try done; eexists; repeat split; try done;
    first [ left; by repeat split
          | right; split; [done|]; do 3 eexists; repeat split; by eauto ]
  | intros Hspec; destruct_and?;
    repeat match goal with
           | H : exists _, _ |- _ => destruct H
           | H : _ /\ _ |- _ => destruct H
           | H : _ \/ _ |- _ => destruct H
           end;
    simplify_eq;
    repeat match goal with
           | H1 : ?x = _, H2 : ?x = _ |- _ => rewrite H1 in H2; simplify_eq
           end;
    by eauto 10 ].

(** X10.  A datagram makes the transport pass an RTP packet to its parent
    class exactly when it is not RTCP but RTP by the classifiers, the
    transport has a tuple that compares equal to the datagram's, and the
    buffer parses as that packet: the buffer as received without SRTP, the
    buffer as the receiving session decrypted it with SRTP, and then only
    if decryption succeeded. *)
Theorem rtp_packet_forwarded_iff socket data0 remoteAddr s s' packet :
  OnUdpSocketPacketReceived socket data0 remoteAddr s = Ret () s' ->
  ReceiveRtpPacket packet ∈ new_events s s'
  <-> IsRtcp data0 = false /\ IsRtp data0 = true
      /\ exists mine,
           tuple (self s) = Some mine
           /\ Compare mine (TransportTuple_new socket remoteAddr) = true
           /\ ((HasSrtp (self s) = false /\ RtpPacket_Parse data0 = Some packet)
               \/ (HasSrtp (self s) = true
                   /\ exists session session' data',
                        srtpRecvSession (self s) = Some session
                        /\ DecryptSrtp session data0 = (session', data', true)
                        /\ RtpPacket_Parse data' = Some packet)).
Proof.
  unfold OnUdpSocketPacketReceived.
  rewrite OnPacketReceived_eq. lazy zeta.
  rewrite OnRtcpDataReceived_eq, OnRtpDataReceived_eq, OnSctpDataReceived_eq.
  cbn [self trace tuple add_received set_base srtpRecvSession].
  rewrite ?HasSrtp_add_received.
  destruct (IsRtcp data0) eqn:Hrtcp; [|destruct (IsRtp data0) eqn:Hrtp;
                                        [|destruct (IsSctp data0) eqn:Hsctp]];
    (destruct (tuple (self s)) as [mine|] eqn:Htuple;
     [destruct (Compare mine (TransportTuple_new socket remoteAddr)) eqn:Hcmp;
      [destruct (HasSrtp (self s)) eqn:Hsrtp;
       [destruct (srtpRecvSession (self s)) as [session|] eqn:Hrecv|]|]|]);
    try done; try forwarded.
  - destruct (DecryptSrtcp session data0) as [[session' data'] [|]];
      [destruct (RtcpPacket_Parse data')|]; forwarded.
  - destruct (RtcpPacket_Parse data0); forwarded.
  - destruct (DecryptSrtp session data0) as [[session' data'] [|]] eqn:Hdec;
      destruct (RtpPacket_Parse data') eqn:Hparse; forwarded.
  - destruct (RtpPacket_Parse data0) eqn:Hparse; forwarded.
Qed.

(** X11.  A datagram makes the transport pass an RTCP packet to its parent
    class exactly when it is RTCP by the classifier, the transport has a
    tuple that compares equal to the datagram's, and the buffer (decrypted
    by the receiving session with SRTP, and then only if decryption
    succeeded) parses as that packet. *)
Theorem rtcp_packet_forwarded_iff socket data0 remoteAddr s s' packet :
  OnUdpSocketPacketReceived socket data0 remoteAddr s = Ret () s' ->
  ReceiveRtcpPacket packet ∈ new_events s s'
  <-> IsRtcp data0 = true
      /\ exists mine,
           tuple (self s) = Some mine
           /\ Compare mine (TransportTuple_new socket remoteAddr) = true
           /\ ((HasSrtp (self s) = false /\ RtcpPacket_Parse data0 = Some packet)
               \/ (HasSrtp (self s) = true
                   /\ exists session session' data',
                        srtpRecvSession (self s) = Some session
                        /\ DecryptSrtcp session data0 = (session', data', true)
                        /\ RtcpPacket_Parse data' = Some packet)).
Proof.
  unfold OnUdpSocketPacketReceived.
  rewrite OnPacketReceived_eq. lazy zeta.
  rewrite OnRtcpDataReceived_eq, OnRtpDataReceived_eq, OnSctpDataReceived_eq.
  cbn [self trace tuple add_received set_base srtpRecvSession].
  rewrite ?HasSrtp_add_received.
  destruct (IsRtcp data0) eqn:Hrtcp; [|destruct (IsRtp data0) eqn:Hrtp;
                                        [|destruct (IsSctp data0) eqn:Hsctp]];
    (destruct (tuple (self s)) as [mine|] eqn:Htuple;
     [destruct (Compare mine (TransportTuple_new socket remoteAddr)) eqn:Hcmp;
      [destruct (HasSrtp (self s)) eqn:Hsrtp;
       [destruct (srtpRecvSession (self s)) as [session|] eqn:Hrecv|]|]|]);
    try done; try forwarded.
  - destruct (DecryptSrtcp session data0) as [[session' data'] [|]] eqn:Hdec;
      [destruct (RtcpPacket_Parse data') eqn:Hparse|]; forwarded.
  - destruct (RtcpPacket_Parse data0) eqn:Hparse; forwarded.
  - destruct (DecryptSrtp session data0) as [[session' data'] [|]];
      destruct (RtpPacket_Parse data'); forwarded.
  - destruct (RtpPacket_Parse data0); forwarded.
Qed.

(** X12.  A datagram makes the transport pass SCTP data to its parent
    class exactly when it is neither RTCP nor RTP but SCTP by the
    classifiers and the transport has a tuple that compares equal to the
    datagram's; what is passed is then the buffer as received. *)
Theorem sctp_data_forwarded_iff socket data0 remoteAddr s s' data1 :
  OnUdpSocketPacketReceived socket data0 remoteAddr s = Ret () s' ->
  ReceiveSctpData data1 ∈ new_events s s'
  <-> data1 = data0
      /\ IsRtcp data0 = false /\ IsRtp data0 = false /\ IsSctp data0 = true
      /\ exists mine,
           tuple (self s) = Some mine
           /\ Compare mine (TransportTuple_new socket remoteAddr) = true.
Proof.
  unfold OnUdpSocketPacketReceived.
  rewrite OnPacketReceived_eq. lazy zeta.
  rewrite OnRtcpDataReceived_eq, OnRtpDataReceived_eq, OnSctpDataReceived_eq.
  cbn [self trace tuple add_received set_base srtpRecvSession].
  rewrite ?HasSrtp_add_received.
  destruct (IsRtcp data0) eqn:Hrtcp; [|destruct (IsRtp data0) eqn:Hrtp;
                                        [|destruct (IsSctp data0) eqn:Hsctp]];
    (destruct (tuple (self s)) as [mine|] eqn:Htuple;
     [destruct (Compare mine (TransportTuple_new socket remoteAddr)) eqn:Hcmp;
      [destruct (HasSrtp (self s)) eqn:Hsrtp;
       [destruct (srtpRecvSession (self s)) as [session|] eqn:Hrecv|]|]|]);
    try done; try forwarded.
  - destruct (DecryptSrtcp session data0) as [[session' data'] [|]];
      [destruct (RtcpPacket_Parse data')|]; forwarded.
  - destruct (RtcpPacket_Parse data0); forwarded.
  - destruct (DecryptSrtp session data0) as [[session' data'] [|]];
      destruct (RtpPacket_Parse data'); forwarded.
  - destruct (RtpPacket_Parse data0); forwarded.
Qed.

(** ** The two directions do not touch each other *)

Lemma new_events_same s : new_events s s = [].
Proof. unfold new_events. apply drop_all. Qed.

Local Ltac one_sided :=
  lazy beta iota zeta; intros [= <-]; rewrite ?new_events_same; cbn [trace self];
  rewrite <- ?app_assoc, ?new_events_app; simpl; done.

(** X13.  None of the four send operations touches the receiving side: the
    receiving session and the received-bytes counter stay as they are, the
    connected flag too, and every event the call adds is one of the sending
    side (an encryption, a send on the tuple, [DataSent], a callback
    invoked with false). *)
Theorem sends_leave_receiving_side_alone op s s' :
  is_send op = true ->
  run op s = Ret () s' ->
  srtpRecvSession (self s') = srtpRecvSession (self s)
  /\ recvTransmission (base (self s')) = recvTransmission (base (self s))
  /\ connected (base (self s')) = connected (base (self s))
  /\ forallb is_outbound (new_events s s') = true.
Proof.
  destruct op as [request|packet cb|packet|packet|data0|socket data0 addr];
    try done; intros _; simpl;
    unfold SendRtcpPacket, SendRtcpCompoundPacket;
    rewrite ?SendRtpPacket_eq, ?SendRtcpData_eq, ?SendSctpData_eq;
    (destruct (tuple (self s)) as [tuple0|];
     [lazy zeta; destruct (HasSrtp (self s));
      [destruct (srtpSendSession (self s)) as [session|]; [|try done]|]|]);
    try one_sided.
  - destruct (EncryptRtp session _).2; [one_sided|destruct cb; one_sided].
  - destruct cb; one_sided.
  - destruct (EncryptRtcp session _).2; one_sided.
  - destruct (EncryptRtcp session _).2; one_sided.
Qed.

(** X14.  Receiving a datagram never touches the sending side: the sending
    session and the sent-bytes counter stay as they are, the connected flag
    too, and every event the call adds is one of the receiving side, so
    that nothing is sent in answer to a datagram. *)
Theorem receiving_leaves_sending_side_alone socket data0 remoteAddr s s' :
  OnUdpSocketPacketReceived socket data0 remoteAddr s = Ret () s' ->
  srtpSendSession (self s') = srtpSendSession (self s)
  /\ sendTransmission (base (self s')) = sendTransmission (base (self s))
  /\ connected (base (self s')) = connected (base (self s))
  /\ forallb is_inbound (new_events s s') = true.
Proof.
  unfold OnUdpSocketPacketReceived.
  rewrite OnPacketReceived_eq. lazy zeta.
  rewrite OnRtcpDataReceived_eq, OnRtpDataReceived_eq, OnSctpDataReceived_eq.
  cbn [self trace tuple add_received set_base srtpRecvSession].
  rewrite ?HasSrtp_add_received.
  destruct (IsRtcp data0); [|destruct (IsRtp data0); [|destruct (IsSctp data0)]];
    (destruct (tuple (self s)) as [mine|];
     [destruct (Compare mine (TransportTuple_new socket remoteAddr));
      [destruct (HasSrtp (self s));
       [destruct (srtpRecvSession (self s)) as [session|]|]|]|]);
    try done; try one_sided.
  - destruct (DecryptSrtcp session data0) as [[session' data'] [|]];
      [destruct (RtcpPacket_Parse data')|]; one_sided.
  - destruct (RtcpPacket_Parse data0); one_sided.
  - destruct (DecryptSrtp session data0) as [[session' data'] [|]];
      destruct (RtpPacket_Parse data'); one_sided.
  - destruct (RtpPacket_Parse data0); one_sided.
Qed.

End Runs.

Section Describe.
Context `{Collab : Collaborators}.

(** ** FillJson and FillJsonStats *)

Lemma FillJson_tuple_object t m :
  FillJson_tuple t (JObject m) =
  match tuple t with
  | None => inr (JObject (<["tuple" := local_description t]> m))
  | Some tuple0 =>
    result_bind (TransportTuple_FillJson_into tuple0 (default JNull (m !! "tuple")))
      (fun v => inr (JObject (<["tuple" := v]> m)))
  end.
Proof.
  unfold FillJson_tuple. destruct (tuple t) as [tuple0|]; [done|].
  simpl. rewrite lookup_insert_eq. simpl. by rewrite insert_insert_eq.
Qed.

Lemma FillJson_tuple_null t :
  FillJson_tuple t JNull =
  match tuple t with
  | None => inr (JObject (<["tuple" := local_description t]> ∅))
  | Some tuple0 => inr (JObject (<["tuple" := TransportTuple_FillJson tuple0]> ∅))
  end.
Proof.
  unfold FillJson_tuple. destruct (tuple t) as [tuple0|]; [done|].
  simpl. rewrite lookup_insert_eq. simpl. by rewrite insert_insert_eq.
Qed.

Lemma FillJson_object t m :
  FillJson t (JObject m) = FillJson_tuple t (JObject (with_rtx_and_key t m)).
Proof. unfold FillJson, with_rtx_and_key. simpl. by destruct (HasSrtp t). Qed.

Lemma FillJson_null t :
  FillJson t JNull = FillJson_tuple t (JObject (with_rtx_and_key t ∅)).
Proof. unfold FillJson, with_rtx_and_key. simpl. by destruct (HasSrtp t). Qed.

Lemma FillJson_tuple_members t m j' :
  FillJson_tuple t (JObject m) = inr j' ->
  exists v, j' = JObject (<["tuple" := v]> m).
Proof.
  rewrite FillJson_tuple_object. destruct (tuple t) as [tuple0|]; [|by intros [= <-]; eauto].
  destruct (TransportTuple_FillJson_into _ _) as [e|v]; [done|].
  simpl. intros [= <-]. by eauto.
Qed.

(** X15.  Where [FillJson] succeeds on an object, the result is an object
    in which [rtx] is the transport's flag; [srtpKey] is the local key when
    SRTP is enabled and is left as the parent method had it otherwise (the
    key is never written for a transport without SRTP); [tuple] is present;
    and every other member is as the parent method left it. *)
Theorem FillJson_members t m j' :
  FillJson t (JObject m) = inr j' ->
  jfind "rtx" j' = Some (JBool (rtx t))
  /\ jfind "srtpKey" j'
     = (if HasSrtp t then Some (JString (srtpKey t)) else m !! "srtpKey")
  /\ is_Some (jfind "tuple" j')
  /\ forall key,
       key <> "rtx" -> key <> "srtpKey" -> key <> "tuple" ->
       jfind key j' = m !! key.
Proof.
  rewrite FillJson_object. intros Hfill.
  apply FillJson_tuple_members in Hfill as [v ->].
  unfold with_rtx_and_key. simpl.
  destruct (HasSrtp t); repeat split.
  - by rewrite !lookup_insert_ne, lookup_insert_eq by congruence.
  - by rewrite lookup_insert_ne, lookup_insert_eq by congruence.
  - rewrite lookup_insert_eq. by eauto.
  - intros key ? ? ?. by rewrite !lookup_insert_ne by congruence.
  - by rewrite lookup_insert_ne, lookup_insert_eq by congruence.
  - by rewrite !lookup_insert_ne by congruence.
  - rewrite lookup_insert_eq. by eauto.
  - intros key ? ? ?. by rewrite !lookup_insert_ne by congruence.
Qed.

(** X16.  Before connect, [FillJson] never fails on a null or object value
    and the tuple it writes has exactly three members: the local ip (the
    announced ip when one is configured, the socket's otherwise), the
    socket's local port and the protocol "udp".  It carries no remote ip
    or port, and replaces whatever the value held under [tuple]. *)
Theorem FillJson_before_connect t j :
  tuple t = None ->
  j = JNull \/ is_object j = true ->
  exists m',
    FillJson t j = inr (JObject m')
    /\ m' !! "tuple" = Some (local_description t)
    /\ jfind "localIp" (local_description t)
       = Some (JString (if bool_decide (announcedIp (listenIp t) = "")
                        then localIp (udpSocket t)
                        else announcedIp (listenIp t)))
    /\ jfind "localPort" (local_description t) = Some (JInt (localPort (udpSocket t)))
    /\ jfind "protocol" (local_description t) = Some (JString "udp")
    /\ dom (members (local_description t))
       = ({["localIp"; "localPort"; "protocol"]} : gset string).
Proof.
  intros Hnone Hj.
  assert (exists m, FillJson t j = FillJson_tuple t (JObject m)) as [m ->].
  { destruct Hj as [-> | Hobj].
    - rewrite FillJson_null. by eauto.
    - destruct j; try done. rewrite FillJson_object. by eauto. }
  rewrite FillJson_tuple_object, Hnone. eexists. split; [done|].
  split; [by rewrite lookup_insert_eq|].
  unfold local_description. simpl.
  split; [by rewrite !lookup_insert_ne, lookup_insert_eq by congruence|].
  split; [by rewrite lookup_insert_ne, lookup_insert_eq by congruence|].
  split; [by rewrite lookup_insert_eq|].
  rewrite !dom_insert_L, dom_empty_L. set_solver.
Qed.

(** X17.  [FillJsonStats] writes into the first element of the array the
    type "pipe-transport" and the same tuple that [FillJson] writes for the
    same transport (given the same [tuple] member to start from); the other
    members of that element and the rest of the array are untouched. *)
Theorem FillJsonStats_agrees_with_FillJson t m1 m2 rest j1 :
  m1 !! "tuple" = m2 !! "tuple" ->
  FillJson t (JObject m1) = inr j1 ->
  exists m2',
    FillJsonStats t (JArray (JObject m2 :: rest)) = inr (JArray (JObject m2' :: rest))
    /\ m2' !! "type" = Some (JString "pipe-transport")
    /\ m2' !! "tuple" = jfind "tuple" j1
    /\ forall key, key <> "type" -> key <> "tuple" -> m2' !! key = m2 !! key.
Proof.
  intros Hsame. rewrite FillJson_object, FillJson_tuple_object.
  unfold FillJsonStats. simpl. rewrite FillJson_tuple_object.
  assert (with_rtx_and_key t m1 !! "tuple" = m1 !! "tuple") as ->.
  { unfold with_rtx_and_key.
    destruct (HasSrtp t); by rewrite !lookup_insert_ne by congruence. }
  rewrite (lookup_insert_ne m2 "type" "tuple") by congruence. rewrite <- Hsame.
  destruct (tuple t) as [tuple0|].
  - destruct (TransportTuple_FillJson_into tuple0 _) as [e|v]; [done|].
    simpl. intros [= <-]. eexists. split; [done|]. simpl.
    split; [by rewrite lookup_insert_ne, lookup_insert_eq by congruence|].
    split; [by rewrite !lookup_insert_eq|].
    intros key ? ?. by rewrite !lookup_insert_ne by congruence.
  - intros [= <-]. eexists. split; [done|]. simpl.
    split; [by rewrite lookup_insert_ne, lookup_insert_eq by congruence|].
    split; [by rewrite !lookup_insert_eq|].
    intros key ? ?. by rewrite !lookup_insert_ne by congruence.
Qed.

(** X18.  The tuple that a successful connect sends back in its reply is
    the tuple that [FillJson] describes from then on, whatever calls come
    in between (on an object to which the parent method adds no tuple of
    its own). *)
Theorem connect_reply_is_later_description data0 s s1 ops s2 m :
  connect data0 s = Ret () s1 ->
  exec ops s1 = Some s2 ->
  m !! "tuple" = None ->
  exists reply m',
    new_events s s1 = [RequestAccept (JObject (<["tuple" := reply]> ∅)); Connected]
    /\ FillJson (self s2) (JObject m) = inr (JObject m')
    /\ m' !! "tuple" = Some reply.
Proof.
  intros Hconnect Hexec Hm.
  apply connect_returns_iff in Hconnect as (_ & _ & snd0 & rcv0 & addr & _ & _ & ->).
  set (tuple0 := new_tuple (connect_installed (self s) snd0 rcv0 addr)).
  assert (tuple (self s2) = Some tuple0) as Htuple.
  { by destruct (exec_evolves _ _ _ Hexec) as (_ & _ & _ & _ & Hkeep & _);
      destruct (Hkeep tuple0 eq_refl). }
  exists (TransportTuple_FillJson tuple0). eexists.
  split; [by unfold connected_state; rewrite new_events_app|].
  rewrite FillJson_object, FillJson_tuple_object, Htuple.
  assert (with_rtx_and_key (self s2) m !! "tuple" = None) as ->.
  { unfold with_rtx_and_key.
    destruct (HasSrtp (self s2)); by rewrite !lookup_insert_ne by congruence. }
  simpl. split; [done|]. by rewrite lookup_insert_eq.
Qed.

End Describe.

Section Construction.
Context `{Collab : Collaborators}.

(** ** The constructor *)

Local Ltac same_lhs :=
  repeat match goal with
         | H1 : ?x = _, H2 : ?x = _ |- _ => rewrite H1 in H2; simplify_eq
         end;
  done.

(** X19.  The constructor builds a transport exactly when [listenIp] is an
    object whose [ip] is a string that [NormalizeIp] accepts, whose
    [announcedIp] is absent or a string, and the socket can be made on the
    normalized ip.  The transport it builds listens on the normalized ip,
    keeps the announced ip as given (empty when absent), has [rtx] set only
    by a boolean [enableRtx], a local key only for [enableSrtp] true, and
    neither tuple nor sessions. *)
Theorem PipeTransport_new_succeeds_iff base0 data0 t :
  PipeTransport_new base0 data0 = inr t
  <-> exists listen ip0 ip1 announced socket,
        jfind "listenIp" data0 = Some listen
        /\ is_object listen = true
        /\ jfind "ip" listen = Some (JString ip0)
        /\ NormalizeIp ip0 = inr ip1
        /\ (jfind "announcedIp" listen = None /\ announced = ""
            \/ jfind "announcedIp" listen = Some (JString announced))
        /\ UdpSocket_new ip1 = inr socket
        /\ t = mk_PipeTransport base0 (mk_ListenIp ip1 announced)
                 (match jfind "enableRtx" data0 with
                  | Some (JBool b) => b
                  | _ => false
                  end)
                 (match jfind "enableSrtp" data0 with
                  | Some (JBool true) => GetRandomString SrtpMasterLength
                  | _ => ""
                  end)
                 socket None default_remoteAddrStorage None None.
Proof.
  unfold PipeTransport_new.
  destruct (jfind "listenIp" data0) as [listen|] eqn:Hlisten;
    [|split; [done | intros (? & ? & ? & ? & ? & ? & _); congruence]].
  destruct (is_object listen) eqn:Hobj; simpl;
    [|split; [done | intros (? & ? & ? & ? & ? & [= <-] & ? & _); congruence]].
  destruct (jfind "ip" listen) as [[| | | |ip0| |]|] eqn:Hip;
    try (split; [done | intros (? & ? & ? & ? & ? & [= <-] & _ & ? & _); congruence]).
  destruct (NormalizeIp ip0) as [w|ip1] eqn:Hnorm;
    [split; [done | intros (? & ? & ? & ? & ? & [= <-] & _ & ? & ? & _); congruence]|].
  destruct (jfind "announcedIp" listen) as [[| | | |a| |]|] eqn:Hann;
    try (split; [done|];
         intros (? & ? & ? & ? & ? & [= <-] & _ & ? & ? & [[? _] | ?] & _);
         congruence).
  - destruct (UdpSocket_new ip1) as [w|socket] eqn:Hsock.
    + split; [done|].
      intros (? & ? & ? & ? & ? & [= <-] & _ & ? & ? & _ & ? & _). congruence.
    + split.
      * intros [= <-]. exists listen, ip0, ip1, a, socket. by eauto 10.
      * intros (? & ? & ? & ? & ? & [= <-] & _ & ? & ? & [[? _] | ?] & ? & ->);
          same_lhs.
  - destruct (UdpSocket_new ip1) as [w|socket] eqn:Hsock.
    + split; [done|].
      intros (? & ? & ? & ? & ? & [= <-] & _ & ? & ? & _ & ? & _). congruence.
    + split.
      * intros [= <-]. exists listen, ip0, ip1, "", socket. by eauto 10.
      * intros (? & ? & ? & ? & ? & [= <-] & _ & ? & ? & [[? ->] | ?] & ? & ->);
          same_lhs.
Qed.

(** X20.  When the constructor fails, it throws a MediaSoupTypeError for a
    configuration it does not accept, and a MediaSoupError only for a
    socket that could not be made on an ip that [NormalizeIp] had accepted,
    with the socket's own message. *)
Theorem PipeTransport_new_errors base0 data0 e :
  PipeTransport_new base0 data0 = inl e ->
  (exists w, e = MediaSoupTypeError w)
  \/ (exists listen ip0 ip1 w,
        jfind "listenIp" data0 = Some listen
        /\ jfind "ip" listen = Some (JString ip0)
        /\ NormalizeIp ip0 = inr ip1
        /\ UdpSocket_new ip1 = inl w
        /\ e = MediaSoupError w).
Proof.
  unfold PipeTransport_new.
  destruct (jfind "listenIp" data0) as [listen|] eqn:Hlisten;
    [|intros [= <-]; by eauto].
  destruct (negb (is_object listen)); [intros [= <-]; by eauto|].
  destruct (jfind "ip" listen) as [[| | | |ip0| |]|] eqn:Hip;
    try (intros [= <-]; by eauto).
  destruct (NormalizeIp ip0) as [w|ip1] eqn:Hnorm; [intros [= <-]; by eauto|].
  destruct (jfind "announcedIp" listen) as [[| | | |a| |]|];
    try (intros [= <-]; by eauto);
    (destruct (UdpSocket_new ip1) as [w|socket] eqn:Hsock; [|done]);
    intros [= <-]; right; by eauto 10.
Qed.

(** ** Before connect *)

Lemma forallb_quiet_app (evs1 evs2 : list event) :
  forallb is_quiet evs1 = true -> forallb is_quiet evs2 = true ->
  forallb is_quiet (evs1 ++ evs2) = true.
Proof. intros H1 H2. by rewrite forallb_app, H1, H2. Qed.

Local Ltac quiet_with evs :=
  simpl; split; [done|]; exists evs;
  rewrite ?app_nil_r, <- ?app_assoc; split; done.

Lemma run_quiet op s s' :
  (run op s = Ret () s' \/ exists e, run op s = Throw e s') ->
  tuple (self s') = None ->
  tuple (self s) = None
  /\ sendTransmission (base (self s')) = sendTransmission (base (self s))
  /\ exists evs, trace s' = (trace s ++ evs)%list /\ forallb is_quiet evs = true.
Proof.
  intros Hrun Hnone'.
  assert (tuple (self s) = None) as Hnone.
  { pose proof (run_evolves op s) as Hev.
    destruct (tuple (self s)) as [tuple0|] eqn:Htuple; [|done].
    destruct Hrun as [Hrun | [e Hrun]]; rewrite Hrun in Hev;
      destruct Hev as (_ & _ & _ & _ & Hkeep & _);
      destruct (Hkeep _ Htuple) as [Hkept _]; congruence. }
  split; [done|].
  destruct op as [[[|name] data0]|packet cb|packet|packet|data0|socket data0 addr];
    simpl in Hrun.
  - destruct Hrun as [Hrun | [e Hrun]].
    + apply connect_returns_iff in Hrun as (_ & _ & ? & ? & ? & _ & _ & ->).
      done.
    + apply connect_throw_unconnected in Hrun as [_ ->]; [|done].
      quiet_with (@nil event).
  - unfold emit in Hrun.
    destruct Hrun as [[= <-] | [e [=]]].
    quiet_with [TransportHandleRequest name data0].
  - rewrite SendRtpPacket_eq, Hnone in Hrun.
    destruct Hrun as [[= <-] | [e [=]]].
    destruct cb as [c|]; [quiet_with [CallbackInvoked c false] | quiet_with (@nil event)].
  - unfold SendRtcpPacket in Hrun. rewrite SendRtcpData_eq, Hnone in Hrun.
    destruct Hrun as [[= <-] | [e [=]]]. quiet_with (@nil event).
  - unfold SendRtcpCompoundPacket in Hrun. rewrite SendRtcpData_eq, Hnone in Hrun.
    destruct Hrun as [[= <-] | [e [=]]]. quiet_with (@nil event).
  - rewrite SendSctpData_eq, Hnone in Hrun.
    destruct Hrun as [[= <-] | [e [=]]]. quiet_with (@nil event).
  - unfold OnUdpSocketPacketReceived in Hrun.
    rewrite OnPacketReceived_eq in Hrun. lazy zeta in Hrun.
    rewrite OnRtcpDataReceived_eq, OnRtpDataReceived_eq, OnSctpDataReceived_eq in Hrun.
    cbn [self trace tuple add_received set_base] in Hrun. rewrite Hnone in Hrun.
    destruct (IsRtcp data0), (IsRtp data0), (IsSctp data0);
      destruct Hrun as [[= <-] | [e [=]]];
      first [ quiet_with [DataReceived (length data0)]
            | quiet_with [DataReceived (length data0);
                          Log MS_WARN_DEV "ignoring received packet of unknown type"] ].
Qed.

(** X21.  As long as a transport has no tuple, nothing leaves it and
    nothing is passed up: over any sequence of calls that ends without a
    tuple, the new events are only [DataReceived], callbacks invoked with
    false, log lines and requests passed to the parent class; no session
    is used, nothing is sent, parsed or forwarded, and the sent-bytes
    counter does not move. *)
Theorem unconnected_transport_is_quiet ops s s' :
  exec ops s = Some s' ->
  tuple (self s') = None ->
  tuple (self s) = None
  /\ sendTransmission (base (self s')) = sendTransmission (base (self s))
  /\ exists evs, trace s' = (trace s ++ evs)%list /\ forallb is_quiet evs = true.
Proof.
  revert s. induction ops as [|op ops IH]; intros s; simpl.
  { intros [= <-] Hnone. split; [done|]. split; [done|].
    exists []. by rewrite app_nil_r. }
  destruct (run op s) as [[] s1|e s1| |] eqn:Hrun; try done; intros Hexec Hnone;
    destruct (IH _ Hexec Hnone) as (Hnone1 & Hsent1 & evs1 & Htr1 & Hq1);
    (edestruct (run_quiet op s s1) as (Hnone0 & Hsent0 & evs0 & Htr0 & Hq0);
     [by eauto | done |]);
    (split; [done|]; split; [congruence|]);
    exists (evs0 ++ evs1)%list; rewrite Htr1, Htr0, <- app_assoc;
    (split; [done | by apply forallb_quiet_app]).
Qed.

End Construction.

(** * The further properties on the sample instance *)

Lemma Sample_connect_ready :
  connect (Sample.connect_data 5004 (Some Sample.keyX)) Sample.s_srtp
  = Ret () Sample.s_ready.
Proof. reflexivity. Qed.

Lemma Sample_exec : exec Sample.sample_ops Sample.s_srtp = Some Sample.s_final.
Proof. reflexivity. Qed.

Lemma Sample_exec_later : exec Sample.later_ops Sample.s_ready = Some Sample.s_final.
Proof. reflexivity. Qed.

Lemma Sample_exec_early : exec Sample.early_ops Sample.s_srtp = Some Sample.s_early.
Proof. reflexivity. Qed.

Lemma Sample_rtp_received :
  OnUdpSocketPacketReceived Sample.socket0 Sample.rtp_datagram (Sample.remote 0)
    Sample.s_ready
  = Ret () Sample.s_rtp_received.
Proof. reflexivity. Qed.

Lemma Sample_rtcp_received :
  OnUdpSocketPacketReceived Sample.socket0 Sample.rtcp_datagram (Sample.remote 0)
    Sample.s_ready
  = Ret () Sample.s_rtcp_received.
Proof. reflexivity. Qed.

Lemma Sample_sctp_received :
  OnUdpSocketPacketReceived Sample.socket0 Sample.sctp_datagram (Sample.remote 0)
    Sample.s_ready
  = Ret () Sample.s_sctp_received.
Proof. reflexivity. Qed.

Lemma Sample_rtp_sent :
  run (OpSendRtpPacket Sample.rtp_packet (Some 7)) Sample.s_ready
  = Ret () Sample.s_rtp_sent.
Proof. reflexivity. Qed.

Lemma Sample_described :
  FillJson Sample.t_srtp (JObject Sample.parent_object) = inr Sample.described_early.
Proof. reflexivity. Qed.

Lemma Sample_undescribed :
   PipeTransport_new Sample.base0 (JObject ∅) = inl (MediaSoupTypeError "missing listenIp").
Proof. reflexivity. Qed.

Lemma Sample_reachable_ready : reachable Sample.s_ready.
Proof.
  eapply (reachable_ret
            (OpHandleRequest
               (mk_Request TRANSPORT_CONNECT (Sample.connect_data 5004 (Some Sample.keyX))))).
  - apply (reachable_new Sample.base0 (Sample.listen (JBool true))).
    apply Sample_new_srtp.
  - apply Sample_connect_ready.
Qed.

(** C6.  After the connect of the scenario, which names 127.0.0.1 and
    port 5004 as the remote address, a datagram from port 0 (an address
    that differs from the configured one in port) is decrypted by the
    receiving session, parsed and passed to the parent class, and a
    datagram from 127.0.0.1 port 5004, the configured address itself, is
    dropped as coming from an unknown IP:port: the handlers compare with
    the installed tuple, whose port is the 0 that connect never
    overwrote. *)
Theorem datagram_from_unconfigured_port_is_forwarded :
  let request := Sample.connect_data 5004 (Some Sample.keyX) in
  jfind "ip" request = Some (JString "127.0.0.1")
  /\ jfind "port" request = Some (JInt 5004)
  /\ connect request Sample.s_srtp = Ret () Sample.s_ready
  /\ sa_addr (Sample.remote 0) = String.list_byte_of_string "127.0.0.1"
  /\ sa_port (Sample.remote 0) <> 5004%Z
  /\ OnUdpSocketPacketReceived Sample.socket0 Sample.rtp_datagram (Sample.remote 0)
       Sample.s_ready
     = Ret () Sample.s_rtp_received
  /\ new_events Sample.s_ready Sample.s_rtp_received
     = [DataReceived 22; SessionDecryptSrtp Sample.rtp_datagram;
        RtpParse Sample.rtp_packet; ReceiveRtpPacket Sample.rtp_packet]
  /\ OnUdpSocketPacketReceived Sample.socket0 Sample.rtp_datagram (Sample.remote 5004)
       Sample.s_ready
     = Ret () (mk_State (add_received 22 (self Sample.s_ready))
                 (trace Sample.s_ready
                  ++ [DataReceived 22;
                      Log MS_DEBUG_TAG "ignoring RTP packet from unknown IP:port"])).
Proof.
  intros request.
  split; [reflexivity|]. split; [reflexivity|]. split; [apply Sample_connect_ready|].
  split; [reflexivity|]. split; [simpl; lia|]. split; [apply Sample_rtp_received|].
  split; reflexivity.
Qed.

(** The sample run keeps the configuration of the sample transport. *)
Lemma exec_keeps_configuration_witness :
  exec Sample.sample_ops Sample.s_srtp = Some Sample.s_final
  /\ listenIp (self Sample.s_final) = listenIp (self Sample.s_srtp)
  /\ rtx (self Sample.s_final) = rtx (self Sample.s_srtp)
  /\ srtpKey (self Sample.s_final) = srtpKey (self Sample.s_srtp)
  /\ HasSrtp (self Sample.s_final) = HasSrtp (self Sample.s_srtp)
  /\ udpSocket (self Sample.s_final) = udpSocket (self Sample.s_srtp).
Proof.
  exact (conj Sample_exec
           (exec_keeps_configuration Sample.sample_ops Sample.s_srtp Sample.s_final
              Sample_exec)).
Defined.

(** The tuple of the connected sample transport survives the rest of the
    run. *)
Lemma exec_keeps_tuple_witness :
  exec Sample.later_ops Sample.s_ready = Some Sample.s_final
  /\ tuple (self Sample.s_ready) = Some Sample.tuple_connected
  /\ tuple (self Sample.s_final) = Some Sample.tuple_connected
  /\ IsConnected (self Sample.s_final) = true
  /\ remoteAddrStorage (self Sample.s_final) = remoteAddrStorage (self Sample.s_ready).
Proof.
  exact (conj Sample_exec_later
           (conj eq_refl
              (exec_keeps_tuple Sample.later_ops Sample.s_ready Sample.s_final
                 Sample.tuple_connected Sample_exec_later eq_refl))).
Defined.

(** The sample run: 24 bytes received and 34 sent, as its events say. *)
Lemma exec_counters_account_for_trace_witness :
  exec Sample.sample_ops Sample.s_srtp = Some Sample.s_final
  /\ exists evs,
       trace Sample.s_final = (trace Sample.s_srtp ++ evs)%list
       /\ recvTransmission (base (self Sample.s_final))
          = recvTransmission (base (self Sample.s_srtp)) + received_bytes evs
       /\ sendTransmission (base (self Sample.s_final))
          = sendTransmission (base (self Sample.s_srtp)) + sent_bytes evs
       /\ recvTransmission (base (self Sample.s_srtp))
          <= recvTransmission (base (self Sample.s_final))
       /\ sendTransmission (base (self Sample.s_srtp))
          <= sendTransmission (base (self Sample.s_final)).
Proof.
  exact (conj Sample_exec
           (exec_counters_account_for_trace Sample.sample_ops Sample.s_srtp
              Sample.s_final Sample_exec)).
Defined.

(** The sample run: both sends are followed by their [DataSent]. *)
Lemma exec_sends_are_accounted_witness :
  exec Sample.sample_ops Sample.s_srtp = Some Sample.s_final
  /\ exists evs,
       trace Sample.s_final = (trace Sample.s_srtp ++ evs)%list
       /\ sends_accounted evs = true.
Proof.
  exact (conj Sample_exec
           (exec_sends_are_accounted Sample.sample_ops Sample.s_srtp
              Sample.s_final Sample_exec)).
Defined.

(** Sending SCTP data from the connected sample transport returns. *)
Lemma calls_from_reachable_states_are_safe_witness :
  reachable Sample.s_ready
  /\ is_delegated (OpSendSctpData Sample.sctp_datagram) = false
  /\ run (OpSendSctpData Sample.sctp_datagram) Sample.s_ready <> Undefined
  /\ exists s', run (OpSendSctpData Sample.sctp_datagram) Sample.s_ready = Ret () s'.
Proof.
  destruct (calls_from_reachable_states_are_safe Sample.s_ready
              (OpSendSctpData Sample.sctp_datagram) Sample_reachable_ready eq_refl)
    as (Hdefined & Hreturns & _).
  exact (conj Sample_reachable_ready (conj eq_refl (conj Hdefined (Hreturns eq_refl)))).
Defined.

(** The connect of the scenario, read backwards: what the request carried
    and the state it returned in. *)
Lemma connect_returns_iff_witness :
  let request := Sample.connect_data 5004 (Some Sample.keyX) in
  connect request Sample.s_srtp = Ret () Sample.s_ready
  /\ tuple (self Sample.s_srtp) = None
  /\ connect_port_ok request
  /\ exists snd0 rcv0 addr,
       connect_keys (self Sample.s_srtp) request snd0 rcv0
       /\ connect_address request addr
       /\ Sample.s_ready = connected_state Sample.s_srtp snd0 rcv0 addr.
Proof.
  exact (conj Sample_connect_ready
           (proj1 (connect_returns_iff (Sample.connect_data 5004 (Some Sample.keyX))
                     Sample.s_srtp Sample.s_ready)
              Sample_connect_ready)).
Defined.

(** The 16-byte key: the exception is the one for a key of another
    length. *)
Lemma connect_throws_only_witness :
  let request := Sample.connect_data 5004 (Some Sample.key16) in
  connect request Sample.s_srtp
  = Throw (MediaSoupTypeError "invalid srtpKey length") Sample.s_srtp
  /\ connect_error (self Sample.s_srtp) request
       (MediaSoupTypeError "invalid srtpKey length").
Proof.
  exact (conj eq_refl
           (connect_throws_only (Sample.connect_data 5004 (Some Sample.key16))
              Sample.s_srtp (MediaSoupTypeError "invalid srtpKey length")
              Sample.s_srtp eq_refl)).
Defined.

(** The tuple of the connected sample transport. *)
Lemma reachable_tuple_is_well_formed_witness :
  reachable Sample.s_ready
  /\ tuple (self Sample.s_ready) = Some Sample.tuple_connected
  /\ tt_udpSocket Sample.tuple_connected = udpSocket (self Sample.s_ready)
  /\ tt_localAnnouncedIp Sample.tuple_connected
     = announcedIp (listenIp (self Sample.s_ready))
  /\ tt_protocol Sample.tuple_connected = UDP
  /\ tt_remoteAddr Sample.tuple_connected = remoteAddrStorage (self Sample.s_ready)
  /\ sa_port (tt_remoteAddr Sample.tuple_connected) = 0%Z
  /\ connected (base (self Sample.s_ready)) = true.
Proof.
  exact (conj Sample_reachable_ready
           (conj eq_refl
              (reachable_tuple_is_well_formed Sample.s_ready Sample.tuple_connected
                 Sample_reachable_ready eq_refl))).
Defined.

(** The peer of the scenario, sending from port 5004, is not heard. *)
Lemma connected_transport_drops_nonzero_ports_witness :
  reachable Sample.s_ready
  /\ tuple (self Sample.s_ready) = Some Sample.tuple_connected
  /\ IsRtcp Sample.rtp_datagram || IsRtp Sample.rtp_datagram || IsSctp Sample.rtp_datagram
     = true
  /\ sa_port (Sample.remote 5004) <> 0%Z
  /\ exists msg,
       OnUdpSocketPacketReceived Sample.socket0 Sample.rtp_datagram (Sample.remote 5004)
         Sample.s_ready
       = Ret () (mk_State
                   (add_received (length Sample.rtp_datagram) (self Sample.s_ready))
                   (trace Sample.s_ready
                    ++ [DataReceived (length Sample.rtp_datagram);
                        Log MS_DEBUG_TAG msg])).
Proof.
  assert (sa_port (Sample.remote 5004) <> 0%Z) as Hport by (simpl; lia).
  exact (conj Sample_reachable_ready
           (conj eq_refl (conj eq_refl (conj Hport
              (connected_transport_drops_nonzero_ports Sample.s_ready
                 Sample.tuple_connected Sample.socket0 Sample.rtp_datagram
                 (Sample.remote 5004) Sample_reachable_ready eq_refl eq_refl Hport))))).
Defined.

(** The encrypted packet from port 0 is passed on, decrypted: read off the
    new events, the conditions hold. *)
Lemma rtp_packet_forwarded_iff_witness :
  OnUdpSocketPacketReceived Sample.socket0 Sample.rtp_datagram (Sample.remote 0)
    Sample.s_ready
  = Ret () Sample.s_rtp_received
  /\ ReceiveRtpPacket Sample.rtp_packet ∈ new_events Sample.s_ready Sample.s_rtp_received
  /\ IsRtcp Sample.rtp_datagram = false /\ IsRtp Sample.rtp_datagram = true
  /\ exists mine,
       tuple (self Sample.s_ready) = Some mine
       /\ Compare mine (TransportTuple_new Sample.socket0 (Sample.remote 0)) = true
       /\ ((HasSrtp (self Sample.s_ready) = false
            /\ RtpPacket_Parse Sample.rtp_datagram = Some Sample.rtp_packet)
           \/ (HasSrtp (self Sample.s_ready) = true
               /\ exists session session' data',
                    srtpRecvSession (self Sample.s_ready) = Some session
                    /\ DecryptSrtp session Sample.rtp_datagram = (session', data', true)
                    /\ RtpPacket_Parse data' = Some Sample.rtp_packet)).
Proof.
  assert (ReceiveRtpPacket Sample.rtp_packet
            ∈ new_events Sample.s_ready Sample.s_rtp_received) as Hin.
  { do 3 apply list_elem_of_further. apply list_elem_of_here. }
  exact (conj Sample_rtp_received
           (conj Hin
              (proj1 (rtp_packet_forwarded_iff Sample.socket0 Sample.rtp_datagram
                        (Sample.remote 0) Sample.s_ready Sample.s_rtp_received
                        Sample.rtp_packet Sample_rtp_received)
                 Hin))).
Defined.

(** The encrypted RTCP packet from port 0 is passed on, decrypted. *)
Lemma rtcp_packet_forwarded_iff_witness :
  OnUdpSocketPacketReceived Sample.socket0 Sample.rtcp_datagram (Sample.remote 0)
    Sample.s_ready
  = Ret () Sample.s_rtcp_received
  /\ ReceiveRtcpPacket Sample.rtcp_packet
       ∈ new_events Sample.s_ready Sample.s_rtcp_received
  /\ IsRtcp Sample.rtcp_datagram = true
  /\ exists mine,
       tuple (self Sample.s_ready) = Some mine
       /\ Compare mine (TransportTuple_new Sample.socket0 (Sample.remote 0)) = true
       /\ ((HasSrtp (self Sample.s_ready) = false
            /\ RtcpPacket_Parse Sample.rtcp_datagram = Some Sample.rtcp_packet)
           \/ (HasSrtp (self Sample.s_ready) = true
               /\ exists session session' data',
                    srtpRecvSession (self Sample.s_ready) = Some session
                    /\ DecryptSrtcp session Sample.rtcp_datagram = (session', data', true)
                    /\ RtcpPacket_Parse data' = Some Sample.rtcp_packet)).
Proof.
  assert (ReceiveRtcpPacket Sample.rtcp_packet
            ∈ new_events Sample.s_ready Sample.s_rtcp_received) as Hin.
  { do 3 apply list_elem_of_further. apply list_elem_of_here. }
  exact (conj Sample_rtcp_received
           (conj Hin
              (proj1 (rtcp_packet_forwarded_iff Sample.socket0 Sample.rtcp_datagram
                        (Sample.remote 0) Sample.s_ready Sample.s_rtcp_received
                        Sample.rtcp_packet Sample_rtcp_received)
                 Hin))).
Defined.

(** SCTP data from port 0 is passed on as received. *)
Lemma sctp_data_forwarded_iff_witness :
  OnUdpSocketPacketReceived Sample.socket0 Sample.sctp_datagram (Sample.remote 0)
    Sample.s_ready
  = Ret () Sample.s_sctp_received
  /\ ReceiveSctpData Sample.sctp_datagram
       ∈ new_events Sample.s_ready Sample.s_sctp_received
  /\ IsRtcp Sample.sctp_datagram = false /\ IsRtp Sample.sctp_datagram = false
  /\ IsSctp Sample.sctp_datagram = true
  /\ exists mine,
       tuple (self Sample.s_ready) = Some mine
       /\ Compare mine (TransportTuple_new Sample.socket0 (Sample.remote 0)) = true.
Proof.
  assert (ReceiveSctpData Sample.sctp_datagram
            ∈ new_events Sample.s_ready Sample.s_sctp_received) as Hin.
  { apply list_elem_of_further. apply list_elem_of_here. }
  exact (conj Sample_sctp_received
           (conj Hin
              (proj2 (proj1 (sctp_data_forwarded_iff Sample.socket0 Sample.sctp_datagram
                               (Sample.remote 0) Sample.s_ready Sample.s_sctp_received
                               Sample.sctp_datagram Sample_sctp_received)
                        Hin)))).
Defined.

(** A packet sent from the connected sample transport. *)
Lemma sends_leave_receiving_side_alone_witness :
  let op := OpSendRtpPacket Sample.rtp_packet (Some 7) in
  is_send op = true
  /\ run op Sample.s_ready = Ret () Sample.s_rtp_sent
  /\ srtpRecvSession (self Sample.s_rtp_sent) = srtpRecvSession (self Sample.s_ready)
  /\ recvTransmission (base (self Sample.s_rtp_sent))
     = recvTransmission (base (self Sample.s_ready))
  /\ connected (base (self Sample.s_rtp_sent)) = connected (base (self Sample.s_ready))
  /\ forallb is_outbound (new_events Sample.s_ready Sample.s_rtp_sent) = true.
Proof.
  exact (conj eq_refl
           (conj Sample_rtp_sent
              (sends_leave_receiving_side_alone
                 (OpSendRtpPacket Sample.rtp_packet (Some 7))
                 Sample.s_ready Sample.s_rtp_sent eq_refl Sample_rtp_sent))).
Defined.

(** A packet received by the connected sample transport. *)
Lemma receiving_leaves_sending_side_alone_witness :
  OnUdpSocketPacketReceived Sample.socket0 Sample.rtp_datagram (Sample.remote 0)
    Sample.s_ready
  = Ret () Sample.s_rtp_received
  /\ srtpSendSession (self Sample.s_rtp_received) = srtpSendSession (self Sample.s_ready)
  /\ sendTransmission (base (self Sample.s_rtp_received))
     = sendTransmission (base (self Sample.s_ready))
  /\ connected (base (self Sample.s_rtp_received))
     = connected (base (self Sample.s_ready))
  /\ forallb is_inbound (new_events Sample.s_ready Sample.s_rtp_received) = true.
Proof.
  exact (conj Sample_rtp_received
           (receiving_leaves_sending_side_alone Sample.socket0 Sample.rtp_datagram
              (Sample.remote 0) Sample.s_ready Sample.s_rtp_received
              Sample_rtp_received)).
Defined.

(** The description of the unconnected sample transport: the parent's
    [id] is kept. *)
Lemma FillJson_members_witness :
  FillJson Sample.t_srtp (JObject Sample.parent_object) = inr Sample.described_early
  /\ jfind "rtx" Sample.described_early = Some (JBool (rtx Sample.t_srtp))
  /\ jfind "srtpKey" Sample.described_early
     = (if HasSrtp Sample.t_srtp then Some (JString (srtpKey Sample.t_srtp))
        else Sample.parent_object !! "srtpKey")
  /\ is_Some (jfind "tuple" Sample.described_early)
  /\ jfind "id" Sample.described_early = Sample.parent_object !! "id".
Proof.
  destruct (FillJson_members Sample.t_srtp Sample.parent_object Sample.described_early
              Sample_described)
    as (Hrtx & Hkey & Htuple & Hrest).
  refine (conj Sample_described (conj Hrtx (conj Hkey (conj Htuple (Hrest "id" _ _ _)))));
    discriminate.
Defined.

(** The unconnected sample transport describes its socket alone. *)
Lemma FillJson_before_connect_witness :
  tuple Sample.t_srtp = None
  /\ is_object (JObject Sample.parent_object) = true
  /\ exists m',
       FillJson Sample.t_srtp (JObject Sample.parent_object) = inr (JObject m')
       /\ m' !! "tuple" = Some (local_description Sample.t_srtp).
Proof.
  destruct (FillJson_before_connect Sample.t_srtp (JObject Sample.parent_object)
              eq_refl (or_intror eq_refl))
    as (m' & Hfill & Htuple & _).
  exact (conj eq_refl (conj eq_refl (ex_intro _ m' (conj Hfill Htuple)))).
Defined.

(** The stats of the unconnected sample transport carry the tuple of its
    description. *)
Lemma FillJsonStats_agrees_with_FillJson_witness :
  Sample.parent_object !! "tuple" = Sample.stats_object !! "tuple"
  /\ FillJson Sample.t_srtp (JObject Sample.parent_object) = inr Sample.described_early
  /\ exists m2',
       FillJsonStats Sample.t_srtp (JArray [JObject Sample.stats_object])
       = inr (JArray [JObject m2'])
       /\ m2' !! "type" = Some (JString "pipe-transport")
       /\ m2' !! "tuple" = jfind "tuple" Sample.described_early.
Proof.
  destruct (FillJsonStats_agrees_with_FillJson Sample.t_srtp Sample.parent_object
              Sample.stats_object [] Sample.described_early eq_refl Sample_described)
    as (m2' & Hstats & Htype & Htuple & _).
  exact (conj eq_refl
           (conj Sample_described (ex_intro _ m2' (conj Hstats (conj Htype Htuple))))).
Defined.

(** The reply of the scenario's connect is what the sample transport
    describes at the end of the run. *)
Lemma connect_reply_is_later_description_witness :
  connect (Sample.connect_data 5004 (Some Sample.keyX)) Sample.s_srtp
  = Ret () Sample.s_ready
  /\ exec Sample.later_ops Sample.s_ready = Some Sample.s_final
  /\ Sample.parent_object !! "tuple" = None
  /\ exists reply m',
       new_events Sample.s_srtp Sample.s_ready
       = [RequestAccept (JObject (<["tuple" := reply]> ∅)); Connected]
       /\ FillJson (self Sample.s_final) (JObject Sample.parent_object)
          = inr (JObject m')
       /\ m' !! "tuple" = Some reply.
Proof.
  exact (conj Sample_connect_ready
           (conj Sample_exec_later
              (conj eq_refl
                 (connect_reply_is_later_description
                    (Sample.connect_data 5004 (Some Sample.keyX))
                    Sample.s_srtp Sample.s_ready Sample.later_ops Sample.s_final
                    Sample.parent_object Sample_connect_ready Sample_exec_later
                    eq_refl)))).
Defined.

(** The sample transport with SRTP, read backwards from its construction. *)
Lemma PipeTransport_new_succeeds_iff_witness :
  PipeTransport_new Sample.base0 (Sample.listen (JBool true)) = inr Sample.t_srtp
  /\ exists listen ip0 ip1 announced socket,
       jfind "listenIp" (Sample.listen (JBool true)) = Some listen
       /\ is_object listen = true
       /\ jfind "ip" listen = Some (JString ip0)
       /\ NormalizeIp ip0 = inr ip1
       /\ (jfind "announcedIp" listen = None /\ announced = ""
           \/ jfind "announcedIp" listen = Some (JString announced))
       /\ UdpSocket_new ip1 = inr socket
       /\ listenIp Sample.t_srtp = mk_ListenIp ip1 announced
       /\ udpSocket Sample.t_srtp = socket.
Proof.
  destruct (proj1 (PipeTransport_new_succeeds_iff Sample.base0
                     (Sample.listen (JBool true)) Sample.t_srtp)
              Sample_new_srtp)
    as (listen & ip0 & ip1 & announced & socket
        & Hlisten & Hobject & Hip & Hnormal & Hannounced & Hsocket & Hbuilt).
  refine (conj Sample_new_srtp
            (ex_intro _ listen (ex_intro _ ip0 (ex_intro _ ip1 (ex_intro _ announced
               (ex_intro _ socket
                  (conj Hlisten (conj Hobject (conj Hip (conj Hnormal
                     (conj Hannounced (conj Hsocket _))))))))))));
    rewrite Hbuilt; split; reflexivity.
Defined.

(** A configuration without [listenIp] is refused with a type error. *)
Lemma PipeTransport_new_errors_witness :
  PipeTransport_new Sample.base0 (JObject ∅)
  = inl (MediaSoupTypeError "missing listenIp")
  /\ ((exists w, MediaSoupTypeError "missing listenIp" = MediaSoupTypeError w)
      \/ (exists listen ip0 ip1 w,
            jfind "listenIp" (JObject ∅) = Some listen
            /\ jfind "ip" listen = Some (JString ip0)
            /\ NormalizeIp ip0 = inr ip1
            /\ UdpSocket_new ip1 = inl w
            /\ MediaSoupTypeError "missing listenIp" = MediaSoupError w)).
Proof.
  exact (conj Sample_undescribed
           (PipeTransport_new_errors Sample.base0 (JObject ∅)
              (MediaSoupTypeError "missing listenIp") Sample_undescribed)).
Defined.

(** The calls before any connect succeeds: one callback told of a
    failure and 22 bytes counted as received, nothing else. *)
Lemma unconnected_transport_is_quiet_witness :
  exec Sample.early_ops Sample.s_srtp = Some Sample.s_early
  /\ tuple (self Sample.s_early) = None
  /\ tuple (self Sample.s_srtp) = None
  /\ sendTransmission (base (self Sample.s_early))
     = sendTransmission (base (self Sample.s_srtp))
  /\ exists evs,
       trace Sample.s_early = (trace Sample.s_srtp ++ evs)%list
       /\ forallb is_quiet evs = true.
Proof.
  exact (conj Sample_exec_early
           (conj eq_refl
              (unconnected_transport_is_quiet Sample.early_ops Sample.s_srtp
                 Sample.s_early Sample_exec_early eq_refl))).
Defined.
